(** * Thesis-assistant literature retrieval scripts: a shallow embedding

    Source files embedded here:
    - [scripts/paper_searcher.py]: [search_papers], [get_paper_details],
      [search_and_extract], [generate_reference];
    - [scripts/thesis_paper_searcher.py]: [search_cnki], [search_arxiv],
      [get_cnki_paper_details], [get_arxiv_paper_details] and the
      de-duplication loop of [main];
    - [references/paper_search.py]: [search_academic_paper],
      [verify_reference].

    Python [str] values are sequences of Unicode code points, dictionaries
    with a fixed set of keys are records whose fields say whether the key
    is missing, bound to [None], or bound to a value.  The HTTP transport
    and the HTML query engine are outside the repository: a fetch is a
    lookup in a given [Web], a parsed page is a [Tag] that answers
    selector queries. *)

From Stdlib Require Import ZArith NArith List String Ascii Lia DecimalString.
From stdpp Require Import base decidable option list gmap.

(** ** Python strings *)

Module PyStr.
Local Open Scope N_scope.

Definition char := N.
Definition pystr := list char.

(** An ASCII literal of the source as a sequence of code points. *)
Definition py (s : string) : pystr :=
  map N_of_ascii (list_ascii_of_string s).

(** [str.isspace] for one code point: the Unicode white-space set of
    CPython. *)
Definition py_isspace (c : char) : bool :=
  ((0x09 <=? c) && (c <=? 0x0D)) || ((0x1C <=? c) && (c <=? 0x20))
  || (c =? 0x85) || (c =? 0xA0) || (c =? 0x1680)
  || ((0x2000 <=? c) && (c <=? 0x200A))
  || (c =? 0x2028) || (c =? 0x2029) || (c =? 0x202F) || (c =? 0x205F)
  || (c =? 0x3000).

Fixpoint py_lstrip (s : pystr) : pystr :=
  match s with
  | c :: s' => if py_isspace c then py_lstrip s' else s
  | [] => []
  end.

Definition py_rstrip (s : pystr) : pystr := rev (py_lstrip (rev s)).

(** [s.strip()] *)
Definition py_strip (s : pystr) : pystr := py_rstrip (py_lstrip s).

(** Truth value of a [str]: non-empty. *)
Definition str_truthy (s : pystr) : bool :=
  match s with [] => false | _ => true end.

(** [s[:n]] for a literal [n >= 0]. *)
Definition py_prefix (n : nat) (s : pystr) : pystr := take n s.

(** [sep.join(l)] *)
Fixpoint py_join (sep : pystr) (l : list pystr) : pystr :=
  match l with
  | [] => []
  | [s] => s
  | s :: l' => s ++ sep ++ py_join sep l'
  end.

(** [p in s]: [p] occurs in [s] as a contiguous substring. *)
Definition contains (p s : pystr) : Prop :=
  ∃ a b, s = a ++ p ++ b.

Fixpoint prefixb (p s : pystr) : bool :=
  match p, s with
  | [], _ => true
  | c :: p', d :: s' => (c =? d) && prefixb p' s'
  | _ :: _, [] => false
  end.

Fixpoint containsb (p s : pystr) : bool :=
  prefixb p s ||
  match s with
  | [] => false
  | _ :: s' => containsb p s'
  end.

(** [str(n)] for an [int]. *)
Definition py_str_int (n : Z) : pystr :=
  py (NilEmpty.string_of_int (Z.to_int n)).

End PyStr.
Export PyStr.

(** ** Exceptions and results *)

Inductive exn :=
| ValueError (msg : pystr)
| RequestException
| HTTPError (status : Z)
| KeyError (key : pystr)
| AttributeError.

Inductive result (A : Type) :=
| Ok (a : A)
| Raise (e : exn).
Arguments Ok {A} a.
Arguments Raise {A} e.

Definition rbind {A B} (m : result A) (k : A → result B) : result B :=
  match m with
  | Ok a => k a
  | Raise e => Raise e
  end.

(** ** Paper records *)

(** The state of one key of a [dict]: not in the dict, bound to [None],
    or bound to a value. *)
Inductive entry (A : Type) :=
| Missing
| PyNone
| Val (a : A).
Arguments Missing {A}.
Arguments PyNone {A}.
Arguments Val {A} a.

Record Paper := mkPaper {
  url : entry pystr;
  platform : entry pystr;
  title : entry pystr;
  authors : entry (list pystr);
  journal : entry pystr;
  year : entry pystr;
  doi : entry pystr;
  abstract : entry pystr
}.

(** [d.get(k)] and [d.get(k, default)]: the result is a Python value,
    [None] of the option standing for Python's [None]. *)
Definition dict_get {A} (e : entry A) : option A :=
  match e with
  | Val a => Some a
  | _ => None
  end.

Definition dict_get_default {A} (e : entry A) (d : A) : option A :=
  match e with
  | Missing => Some d
  | PyNone => None
  | Val a => Some a
  end.

(** Truth value of an optional [str]. *)
Definition truthy (v : option pystr) : bool :=
  match v with
  | Some s => str_truthy s
  | None => false
  end.

(** ** De-duplication ([main] of thesis_paper_searcher.py, the loop over
    [all_papers]) *)

Module Dedupe.

(** The loop state: [seen_titles] and [unique_papers]. *)
Definition state : Type := gset pystr * list Paper.

(** [title = paper.get('title', '').strip()]: calling [strip] on [None]
    raises [AttributeError]. *)
Definition key (paper : Paper) : result pystr :=
  match dict_get_default (title paper) [] with
  | Some t => Ok (py_strip t)
  | None => Raise AttributeError
  end.

Definition step (st : state) (paper : Paper) : result state :=
  rbind (key paper) (λ title,
    if str_truthy title && bool_decide (title ∉ st.1)
    then Ok ({[title]} ∪ st.1, st.2 ++ [paper])
    else Ok st).

Fixpoint loop (st : state) (all_papers : list Paper) : result state :=
  match all_papers with
  | [] => Ok st
  | paper :: rest => rbind (step st paper) (λ st', loop st' rest)
  end.

Definition dedupe (all_papers : list Paper) : result (list Paper) :=
  rbind (loop (∅, []) all_papers) (λ st, Ok st.2).

End Dedupe.

(** ** Parsed pages (the HTML query engine, an external collaborator) *)

Module Dom.

(** A node of a parsed page: its text nodes in document order, its
    attributes, and the engine's answer, in document order, to each CSS
    selector asked below this node. *)
#[warnings="-register-all"]
Inductive Tag := mkTag {
  tag_strings : list pystr;
  tag_attrs : list (pystr * pystr);
  tag_matches : list (pystr * list Tag)
}.

Fixpoint assoc {A} (k : pystr) (l : list (pystr * A)) : option A :=
  match l with
  | [] => None
  | (k', v) :: l' => if bool_decide (k = k') then Some v else assoc k l'
  end.

(** [t.select(sel)] *)
Definition select (sel : pystr) (t : Tag) : list Tag :=
  default [] (assoc sel (tag_matches t)).

(** [t.select_one(sel)]: the first match or [None]. *)
Definition select_one (sel : pystr) (t : Tag) : option Tag :=
  head (select sel t).

(** [t.get(name)] *)
Definition tag_get (name : pystr) (t : Tag) : option pystr :=
  assoc name (tag_attrs t).

(** [t[name]]: [KeyError] when the attribute is not there. *)
Definition tag_item (name : pystr) (t : Tag) : result pystr :=
  match tag_get name t with
  | Some v => Ok v
  | None => Raise (KeyError name)
  end.

(** The selector [meta[name="n"]]; 34 is the double quote. *)
Definition meta_name (n : string) : pystr :=
  py "meta[name=" ++ [34%N] ++ py n ++ [34%N] ++ py "]".

(** [t.get_text(strip=True)]: every text node stripped, the empty ones
    dropped, the rest concatenated. *)
Definition get_text_strip (t : Tag) : pystr :=
  concat (filter (λ s, str_truthy s = true) (map py_strip (tag_strings t))).

(** [a or b] on two optional nodes; a node is always true. *)
Definition or_else (a b : option Tag) : option Tag :=
  match a with
  | Some _ => a
  | None => b
  end.

(** [l[:n]] for an [int] [n]: a negative [n] counts from the end. *)
Definition py_slice_to {A} (n : Z) (l : list A) : list A :=
  if (0 <=? n)%Z then take (Z.to_nat n) l
  else take (length l - Z.to_nat (- n))%nat l.

End Dom.
Export Dom.

(** ** Fetching pages (the HTTP transport, an external collaborator) *)

Module Net.

(** An answer is its status code and the page as the calling function
    parses it.  The request headers and the [response.encoding = 'utf-8']
    override of [search_cnki], [search_wanfang] and
    [get_cnki_paper_details] are not part of the model: [soup] stands for
    the page that the call at hand obtains, so the pages that two
    functions obtain from one server are not assumed to be the same. *)
Record Response := mkResponse {
  status_code : Z;
  soup : Tag          (* BeautifulSoup(response.text, 'html.parser') *)
}.

(** What the network answers to a GET: a response, or no answer at all
    (connection error, timeout). *)
Definition Web := pystr → option Response.

(** A computation that issues requests: the URLs requested, in order, and
    the value returned or the exception raised. *)
Definition IO (A : Type) : Type := list pystr * result A.

Definition ret {A} (a : A) : IO A := ([], Ok a).
Definition raise {A} (e : exn) : IO A := ([], Raise e).
Definition lift {A} (r : result A) : IO A := ([], r).

Definition bind {A B} (m : IO A) (k : A → IO B) : IO B :=
  match m.2 with
  | Ok a => (m.1 ++ (k a).1, (k a).2)
  | Raise e => (m.1, Raise e)
  end.

(** [requests.get(url, headers=headers, timeout=30)] *)
Definition requests_get (web : Web) (url : pystr) : IO Response :=
  ([url], match web url with
          | Some r => Ok r
          | None => Raise RequestException
          end).

(** [response.raise_for_status()] *)
Definition raise_for_status (r : Response) : IO unit :=
  if (400 <=? status_code r)%Z && (status_code r <? 600)%Z
  then raise (HTTPError (status_code r))
  else ret tt.

(** [try: ... except Exception: return None] around a body that returns a
    record. *)
Definition try_none {A} (m : IO A) : IO (option A) :=
  (m.1, match m.2 with
        | Ok a => Ok (Some a)
        | Raise _ => Ok None
        end).

(** [try: ... except Exception: return []] *)
Definition try_nil {A} (m : IO (list A)) : IO (list A) :=
  (m.1, match m.2 with
        | Ok l => Ok l
        | Raise _ => Ok []
        end).

End Net.
Export Net.

Global Instance IO_bind : MBind IO := λ A B k m, bind m k.
Global Instance IO_ret : MRet IO := λ A a, ret a.

(** The record setters [paper_info[k] = v]. *)
Definition new_paper (u p : pystr) : Paper :=
  mkPaper (Val u) (Val p) Missing Missing Missing Missing Missing Missing.
Definition set_title (v : entry pystr) (p : Paper) : Paper :=
  mkPaper (url p) (platform p) v (authors p) (journal p) (year p) (doi p)
          (abstract p).
Definition set_authors (v : entry (list pystr)) (p : Paper) : Paper :=
  mkPaper (url p) (platform p) (title p) v (journal p) (year p) (doi p)
          (abstract p).
Definition set_journal (v : entry pystr) (p : Paper) : Paper :=
  mkPaper (url p) (platform p) (title p) (authors p) v (year p) (doi p)
          (abstract p).
Definition set_year (v : entry pystr) (p : Paper) : Paper :=
  mkPaper (url p) (platform p) (title p) (authors p) (journal p) v (doi p)
          (abstract p).
Definition set_doi (v : entry pystr) (p : Paper) : Paper :=
  mkPaper (url p) (platform p) (title p) (authors p) (journal p) (year p) v
          (abstract p).

(** [e.get_text(strip=True) if e else None] *)
Definition text_or_none (e : option Tag) : entry pystr :=
  match e with
  | Some t => Val (get_text_strip t)
  | None => PyNone
  end.

(** ** Result listings *)

(** The body of one [for item in ...: link = ...; if link and
    link.get('href'): urls.append(base + link['href'])] iteration: the URL
    appended, if any. *)
Definition item_url (link_sel base : pystr) (item : Tag) : option pystr :=
  match select_one link_sel item with
  | Some link =>
      if truthy (tag_get (py "href") link)
      then option_map (λ href, base ++ href) (tag_get (py "href") link)
      else None
  | None => None
  end.

(** The loop over [soup.select(item_sel)[:max_results]]. *)
Definition collect_urls (item_sel link_sel base : pystr)
    (max_results : Z) (page : Tag) : list pystr :=
  omap (item_url link_sel base)
       (py_slice_to max_results (select item_sel page)).

(** ** scripts/paper_searcher.py *)

Module PaperSearcher.

Section WithWeb.
Variable web : Web.

Definition search_urls (keyword : pystr) (max_results : Z)
  : list (pystr * pystr) :=
  [ (py "cnki",
     py "https://search.cnki.com.cn/Search/Result?content=" ++ keyword);
    (py "wanfang",
     py "https://www.wanfangdata.com.cn/search/searchAll.jsp"
       ++ py "?searchType=all&content=" ++ keyword);
    (py "cqvip",
     py "https://search.qikan.cqvip.com/search/Result?content=" ++ keyword);
    (py "arxiv",
     py "https://arxiv.org/search/?query=" ++ keyword
       ++ py "&search_type=all&max_results=" ++ py_str_int max_results);
    (py "openalex",
     py "https://openalex.org/works?search=" ++ keyword
       ++ py "&per-page=" ++ py_str_int max_results) ].

Definition search_papers (keyword platform : pystr) (max_results : Z)
  : IO (list pystr) :=
  match assoc platform (search_urls keyword max_results) with
  | None => raise (ValueError (py "Unsupported platform: " ++ platform))
  | Some url =>
      response ← requests_get web url;
      _ ← raise_for_status response;
      let soup := soup response in
      if bool_decide (platform = py "cnki") then
        ret (collect_urls (py ".result-list li") (py "a") [] max_results soup)
      else if bool_decide (platform = py "wanfang") then
        ret (collect_urls (py ".search-list li") (py "a") [] max_results soup)
      else if bool_decide (platform = py "cqvip") then
        ret (collect_urls (py ".result-list li") (py "a") [] max_results soup)
      else if bool_decide (platform = py "arxiv") then
        ret (collect_urls (py ".list-lst") (py ".title a")
               (py "https://arxiv.org") max_results soup)
      else if bool_decide (platform = py "openalex") then
        ret (collect_urls (py ".work") (py "a")
               (py "https://openalex.org") max_results soup)
      else ret []
  end.

(** [text[:4] if len(text) >= 4 else text] *)
Definition year_prefix (text : pystr) : pystr :=
  if (4 <=? length text)%nat then py_prefix 4 text else text.

(** [paper_info["doi"] = doi_elem['content'] if doi_elem else None] *)
Definition set_doi_meta (soup : Tag) (paper_info : Paper) : result Paper :=
  match select_one (meta_name "citation_doi") soup with
  | Some doi_elem =>
      rbind (tag_item (py "content") doi_elem)
            (λ c, Ok (set_doi (Val c) paper_info))
  | None => Ok (set_doi PyNone paper_info)
  end.

(** The platform branches of [get_paper_details], entered with
    [paper_info = {"url": url, "platform": platform}]. *)
Definition details_cnki (soup : Tag) (paper_info : Paper) : result Paper :=
  let title_elem := or_else (select_one (py "#mainTitle") soup)
                            (select_one (py "h1.title") soup) in
  let paper_info := set_title (text_or_none title_elem) paper_info in
  let authors :=
    map get_text_strip (py_slice_to 5 (select (py ".author a") soup)) in
  let paper_info := set_authors (Val authors) paper_info in
  let journal_elem := or_else (select_one (py ".journal-name") soup)
                              (select_one (py ".journal") soup) in
  let paper_info := set_journal (text_or_none journal_elem) paper_info in
  let year_elem := or_else (select_one (py ".publish-date") soup)
                           (select_one (py ".year") soup) in
  let paper_info :=
    match year_elem with
    | Some e => set_year (Val (year_prefix (get_text_strip e))) paper_info
    | None => paper_info
    end in
  set_doi_meta soup paper_info.

Definition details_arxiv (soup : Tag) (paper_info : Paper) : result Paper :=
  rbind (match select_one (meta_name "citation_title") soup with
         | Some title_elem =>
             rbind (tag_item (py "content") title_elem)
                   (λ c, Ok (set_title (Val c) paper_info))
         | None => Ok (set_title PyNone paper_info)
         end) (λ paper_info,
  let authors := map get_text_strip (select (py ".authors a") soup) in
  let paper_info := set_authors (Val authors) paper_info in
  rbind (match select_one (meta_name "citation_journal_title") soup with
         | Some journal_elem =>
             rbind (tag_item (py "content") journal_elem)
                   (λ c, Ok (set_journal (Val c) paper_info))
         | None => Ok (set_journal (Val (py "arXiv")) paper_info)
         end) (λ paper_info,
  rbind (match select_one (meta_name "citation_date") soup with
         | Some year_elem =>
             rbind (tag_item (py "content") year_elem)
                   (λ c, Ok (set_year (Val (py_prefix 4 c)) paper_info))
         | None => Ok paper_info
         end) (λ paper_info,
  set_doi_meta soup paper_info))).

Definition details_openalex (soup : Tag) (paper_info : Paper) : result Paper :=
  let title_elem := or_else (select_one (py "h1") soup)
                            (select_one (py ".title") soup) in
  let paper_info := set_title (text_or_none title_elem) paper_info in
  let authors :=
    map get_text_strip (py_slice_to 5 (select (py ".authors span") soup)) in
  let paper_info := set_authors (Val authors) paper_info in
  let journal_elem := or_else (select_one (py ".journal") soup)
                              (select_one (py ".venue") soup) in
  let paper_info := set_journal (text_or_none journal_elem) paper_info in
  let year_elem := or_else (select_one (py ".year") soup)
                           (select_one (py ".publication_date") soup) in
  let paper_info :=
    match year_elem with
    | Some e => set_year (Val (year_prefix (get_text_strip e))) paper_info
    | None => paper_info
    end in
  Ok (set_doi PyNone paper_info).

(** The [try] block of [get_paper_details] once the page is parsed. *)
Definition extract (url platform : pystr) (soup : Tag) : result Paper :=
  let paper_info := new_paper url platform in
  if bool_decide (platform = py "cnki") then details_cnki soup paper_info
  else if bool_decide (platform = py "arxiv") then details_arxiv soup paper_info
  else if bool_decide (platform = py "openalex") then
    details_openalex soup paper_info
  else Ok paper_info.

(** Any exception of the [try] block is printed and turned into [None]. *)
Definition get_paper_details (url platform : pystr) : IO (option Paper) :=
  try_none (response ← requests_get web url;
            _ ← raise_for_status response;
            lift (extract url platform (soup response))).

(** The loop of [search_and_extract]: [paper = get_paper_details(url,
    platform)], kept [if paper and paper.get('title')]. *)
Fixpoint extract_all (platform : pystr) (urls : list pystr)
  : IO (list Paper) :=
  match urls with
  | [] => ret []
  | url :: urls' =>
      paper ← get_paper_details url platform;
      rest ← extract_all platform urls';
      match paper with
      | Some p => if truthy (dict_get (title p)) then ret (p :: rest)
                  else ret rest
      | None => ret rest
      end
  end.

Definition search_and_extract (keyword platform : pystr) (max_results : Z)
  : IO (list Paper) :=
  urls ← search_papers keyword platform max_results;
  extract_all platform urls.

End WithWeb.

(** The placeholders of [generate_reference]: "未知作者", "未知标题",
    "未知期刊" and "0000". *)
Definition unknown_authors : pystr := [0x672A; 0x77E5; 0x4F5C; 0x8005]%N.
Definition unknown_title : pystr := [0x672A; 0x77E5; 0x6807; 0x9898]%N.
Definition unknown_journal : pystr := [0x672A; 0x77E5; 0x671F; 0x520A]%N.
Definition unknown_year : pystr := py "0000".
(** The fixed head of every reference, "[序号] ". *)
Definition ref_head : pystr := py "[" ++ [0x5E8F; 0x53F7]%N ++ py "] ".

(** [{v}] inside an f-string, for a value that is a [str] or [None]. *)
Definition fmt (v : option pystr) : pystr :=
  match v with
  | Some s => s
  | None => py "None"
  end.

(** Truth value of an optional list. *)
Definition list_truthy {A} (v : option (list A)) : bool :=
  match v with
  | Some (_ :: _) => true
  | _ => false
  end.

Definition generate_reference (paper : Paper) : pystr :=
  let authors :=
    if list_truthy (dict_get (authors paper))
    then py_join (py ", ") (default [] (dict_get_default (authors paper) []))
    else unknown_authors in
  let title := dict_get_default (title paper) unknown_title in
  let journal := dict_get_default (journal paper) unknown_journal in
  let year := dict_get_default (year paper) unknown_year in
  let doi := dict_get_default (doi paper) [] in
  let url := dict_get_default (url paper) [] in
  let ref :=
    if truthy doi
    then ref_head ++ authors ++ py ". " ++ fmt title ++ py "[J]. "
           ++ fmt journal ++ py ", " ++ fmt year ++ py ". DOI: " ++ fmt doi
    else ref_head ++ authors ++ py ". " ++ fmt title ++ py "[J]. "
           ++ fmt journal ++ py ", " ++ fmt year in
  if truthy url then ref ++ py (String "010"%char "SourceURL: ") ++ fmt url
  else ref.

End PaperSearcher.

(** ** scripts/thesis_paper_searcher.py *)

Module ThesisSearcher.

Section WithWeb.
Variable web : Web.
(** The Unicode decimal-digit test behind the [\d] of [re]; the table
    belongs to the interpreter. *)
Variable isdecimal : char → bool.

Definition search_cnki (keyword : pystr) (max_results : Z) : IO (list pystr) :=
  let search_url :=
    py "https://search.cnki.com.cn/Search/Result?content=" ++ keyword in
  try_nil (response ← requests_get web search_url;
           ret (collect_urls (py ".result-list li") (py "a") []
                  max_results (soup response))).

Definition search_wanfang (keyword : pystr) (max_results : Z)
  : IO (list pystr) :=
  let search_url :=
    py "https://www.wanfangdata.com.cn/search/searchAll.jsp"
      ++ py "?searchType=all&content=" ++ keyword in
  try_nil (response ← requests_get web search_url;
           ret (collect_urls (py ".search-list li") (py "a") []
                  max_results (soup response))).

Definition search_arxiv (keyword : pystr) (max_results : Z) : IO (list pystr) :=
  let search_url :=
    py "https://arxiv.org/search/?query=" ++ keyword
      ++ py "&search_type=all&max_results=" ++ py_str_int max_results in
  try_nil (response ← requests_get web search_url;
           ret (collect_urls (py ".list-lst") (py ".title a")
                  (py "https://arxiv.org") max_results (soup response))).

Definition search_openalex (keyword : pystr) (max_results : Z)
  : IO (list pystr) :=
  let search_url :=
    py "https://openalex.org/works?search=" ++ keyword
      ++ py "&per-page=" ++ py_str_int max_results in
  try_nil (response ← requests_get web search_url;
           ret (collect_urls (py ".work") (py "a")
                  (py "https://openalex.org") max_results (soup response))).

(** [re.search(r'(\d{4})', text)]: group 1 of the leftmost match. *)
Fixpoint re_search_d4 (text : pystr) : option pystr :=
  match text with
  | a :: (b :: c :: d :: _) as text' =>
      if isdecimal a && isdecimal b && isdecimal c && isdecimal d
      then Some [a; b; c; d]
      else re_search_d4 text'
  | _ => None
  end.

(** [match.group(1) if match else text[:4]] *)
Definition year_of_text (text : pystr) : pystr :=
  match re_search_d4 text with
  | Some g => g
  | None => py_prefix 4 text
  end.

(** [return paper_info if paper_info.get('title') else None] *)
Definition if_titled (paper_info : Paper) : option Paper :=
  if truthy (dict_get (title paper_info)) then Some paper_info else None.

(** The [try] block of [get_cnki_paper_details] once the page is parsed. *)
Definition extract_cnki (url : pystr) (soup : Tag) : result (option Paper) :=
  let paper_info := new_paper url (py "cnki") in
  let title_elem := or_else (select_one (py "#mainTitle") soup)
                            (select_one (py "h1") soup) in
  let paper_info := set_title (text_or_none title_elem) paper_info in
  let authors :=
    map get_text_strip (py_slice_to 5 (select (py ".author a") soup)) in
  let paper_info := set_authors (Val authors) paper_info in
  let journal_elem := select_one (py ".journal-name") soup in
  let paper_info := set_journal (text_or_none journal_elem) paper_info in
  let year_elem := select_one (py ".publish-date") soup in
  let paper_info :=
    match year_elem with
    | Some e => set_year (Val (year_of_text (get_text_strip e))) paper_info
    | None => paper_info
    end in
  rbind (PaperSearcher.set_doi_meta soup paper_info)
        (λ paper_info, Ok (if_titled paper_info)).

(** A raised exception and a missing title both end in [None]. *)
Definition flatten_none {A} (m : IO (option A)) : IO (option A) :=
  (m.1, match m.2 with
        | Ok v => Ok v
        | Raise _ => Ok None
        end).

Definition get_cnki_paper_details (url : pystr) : IO (option Paper) :=
  flatten_none (response ← requests_get web url;
                lift (extract_cnki url (soup response))).

(** The [try] block of [get_arxiv_paper_details] once the page is parsed. *)
Definition extract_arxiv (url : pystr) (soup : Tag) : result (option Paper) :=
  let paper_info := new_paper url (py "arxiv") in
  rbind (match select_one (meta_name "citation_title") soup with
         | Some title_elem =>
             rbind (tag_item (py "content") title_elem)
                   (λ c, Ok (set_title (Val c) paper_info))
         | None => Ok (set_title PyNone paper_info)
         end) (λ paper_info,
  let authors := map get_text_strip (select (py ".authors a") soup) in
  let paper_info := set_authors (Val authors) paper_info in
  rbind (match select_one (meta_name "citation_journal_title") soup with
         | Some journal_elem =>
             rbind (tag_item (py "content") journal_elem)
                   (λ c, Ok (set_journal (Val c) paper_info))
         | None => Ok (set_journal (Val (py "arXiv preprint")) paper_info)
         end) (λ paper_info,
  rbind (match select_one (meta_name "citation_date") soup with
         | Some date_elem =>
             rbind (tag_item (py "content") date_elem)
                   (λ c, Ok (set_year (Val (py_prefix 4 c)) paper_info))
         | None => Ok (set_year PyNone paper_info)
         end) (λ paper_info,
  rbind (PaperSearcher.set_doi_meta soup paper_info)
        (λ paper_info, Ok (if_titled paper_info))))).

Definition get_arxiv_paper_details (url : pystr) : IO (option Paper) :=
  flatten_none (response ← requests_get web url;
                lift (extract_arxiv url (soup response))).

(** The inner loops of [main]: [for url in urls[:3]: paper = details(url);
    if paper and paper.get('title'): all_papers.append(paper)]. *)
Fixpoint collect (details : pystr → IO (option Paper)) (urls : list pystr)
    (all_papers : list Paper) : IO (list Paper) :=
  match urls with
  | [] => ret all_papers
  | url :: urls' =>
      paper ← details url;
      match paper with
      | Some p =>
          if truthy (dict_get (title p))
          then collect details urls' (all_papers ++ [p])
          else collect details urls' all_papers
      | None => collect details urls' all_papers
      end
  end.

(** The outer loops: [for kw in keywords[:2]: urls = search(kw, 5); ...]. *)
Fixpoint per_keyword (search : pystr → Z → IO (list pystr))
    (details : pystr → IO (option Paper)) (kws : list pystr)
    (all_papers : list Paper) : IO (list Paper) :=
  match kws with
  | [] => ret all_papers
  | kw :: kws' =>
      urls ← search kw 5%Z;
      all_papers ← collect details (py_slice_to 3 urls) all_papers;
      per_keyword search details kws' all_papers
  end.

(** "大语言模型 智能Agent", "校园信息系统 AI对话", "LLM Agent 对话系统",
    "校园服务 chatbot". *)
Definition keywords : list pystr :=
  [ [0x5927; 0x8BED; 0x8A00; 0x6A21; 0x578B; 0x20; 0x667A; 0x80FD;
     0x41; 0x67; 0x65; 0x6E; 0x74];
    [0x6821; 0x56ED; 0x4FE1; 0x606F; 0x7CFB; 0x7EDF; 0x20; 0x41; 0x49;
     0x5BF9; 0x8BDD];
    [0x4C; 0x4C; 0x4D; 0x20; 0x41; 0x67; 0x65; 0x6E; 0x74; 0x20;
     0x5BF9; 0x8BDD; 0x7CFB; 0x7EDF];
    [0x6821; 0x56ED; 0x670D; 0x52A1; 0x20; 0x63; 0x68; 0x61; 0x74; 0x62;
     0x6F; 0x74] ]%N.

(** [main] up to the value it returns, [unique_papers]; the same list is
    what [json.dump] writes to the output file. *)
Definition main : IO (list Paper) :=
  all_papers ← per_keyword search_cnki get_cnki_paper_details
                 (py_slice_to 2 keywords) [];
  all_papers ← per_keyword search_arxiv get_arxiv_paper_details
                 (py_slice_to 2 keywords) all_papers;
  lift (Dedupe.dedupe all_papers).

End WithWeb.
End ThesisSearcher.

(** ** references/paper_search.py *)

Module PaperSearch.

(** [s.split(sep)] for a one-character separator. *)
Fixpoint py_split (sep : char) (s : pystr) : list pystr :=
  match s with
  | [] => [[]]
  | c :: s' =>
      if (c =? sep)%N then [] :: py_split sep s'
      else match py_split sep s' with
           | w :: ws => (c :: w) :: ws
           | [] => [[c]]
           end
  end.

(** [s.replace(old, new)] for a non-empty [old]: occurrences are replaced
    left to right without overlap; [skip] counts the characters of the
    occurrence just replaced that are still to be passed over. *)
Fixpoint replace_from (old new : pystr) (skip : nat) (s : pystr) : pystr :=
  match s with
  | [] => []
  | c :: s' =>
      match skip with
      | S k => replace_from old new k s'
      | O =>
          if prefixb old s
          then new ++ replace_from old new (length old - 1) s'
          else c :: replace_from old new 0 s'
      end
  end.

Definition py_replace (old new s : pystr) : pystr := replace_from old new 0 s.

(** The label stripped from the author line of a hanspub page,
    "作者:". *)
Definition author_label : pystr := [0x4F5C; 0x8005; 0x3A]%N.

(** [paper_info[k] = e.get_text(strip=True)], done only [if e]. *)
Definition set_if {A} (e : option A) (f : A → Paper → Paper) (p : Paper)
  : Paper :=
  match e with
  | Some a => f a p
  | None => p
  end.

Definition parse_nih (soup : Tag) (paper_info : Paper) : result Paper :=
  let paper_info :=
    set_if (select_one (py "h1.title") soup)
           (λ e, set_title (Val (get_text_strip e))) paper_info in
  let paper_info :=
    set_if (select_one (py "div.authors") soup)
           (λ e, set_authors (Val (map get_text_strip (select (py "a") e))))
           paper_info in
  let paper_info :=
    set_if (select_one (py "span.journal-title") soup)
           (λ e, set_journal (Val (get_text_strip e))) paper_info in
  let paper_info :=
    set_if (select_one (py "span.publish-date") soup)
           (λ e, set_year (Val (py_prefix 4 (get_text_strip e)))) paper_info in
  Ok paper_info.

Definition parse_hanspub (soup : Tag) (paper_info : Paper) : result Paper :=
  let paper_info :=
    set_if (select_one (py "div.ptitle") soup)
           (λ e, set_title (Val (get_text_strip e))) paper_info in
  let paper_info :=
    set_if (select_one (py "div.author") soup)
           (λ e, let text := get_text_strip e in
                 set_authors
                   (Val (map py_strip
                           (py_split 0x2C%N
                              (py_replace author_label [] text)))))
           paper_info in
  match select_one (meta_name "citation_journal_title") soup with
  | Some journal_elem =>
      rbind (tag_item (py "content") journal_elem)
            (λ c, Ok (set_journal (Val c) paper_info))
  | None => Ok paper_info
  end.

Definition parse_wikipedia (soup : Tag) (paper_info : Paper) : result Paper :=
  Ok (set_if (select_one (py "h1.firstHeading") soup)
        (λ e p, set_year (Val (py "2024"))
                  (set_journal (Val (py "Wikipedia"))
                     (set_title (Val (get_text_strip e)) p)))
        paper_info).

(** The [try] block of [search_academic_paper] once the page is parsed. *)
Definition parse (url platform : pystr) (soup : Tag) : result Paper :=
  let paper_info :=
    mkPaper (Val url) (Val platform) (Val []) (Val []) (Val []) (Val [])
            Missing (Val []) in
  if bool_decide (platform = py "nih") then parse_nih soup paper_info
  else if bool_decide (platform = py "hanspub") then
    parse_hanspub soup paper_info
  else if bool_decide (platform = py "wikipedia") then
    parse_wikipedia soup paper_info
  else Ok paper_info.

Definition search_academic_paper (web : Web) (url platform : pystr)
  : IO (option Paper) :=
  try_none (response ← requests_get web url;
            lift (parse url platform (soup response))).

(** [field not in paper_info or not paper_info[field]], negated. *)
Definition field_ok (e : entry pystr) : bool :=
  match e with
  | Missing => false
  | PyNone => false
  | Val s => str_truthy s
  end.

Definition verify_reference (paper_info : Paper) : bool :=
  field_ok (title paper_info) && field_ok (url paper_info).

End PaperSearch.

(** * Notions used in the statements *)

Module Notions.
Import PaperSearcher PaperSearch.

(** ** De-duplication *)

(** The key under which [step] files a record whose title is not [None]:
    the stripped title, the empty string when the key is missing. *)
Definition title_key (p : Paper) : pystr :=
  match title p with
  | Val t => py_strip t
  | _ => []
  end.

(** A record has a usable title: a non-empty string. *)
Definition titled_record (p : Paper) : Prop :=
  ∃ t, title p = Val t ∧ t ≠ [].

(** The records of the two examples; only the title matters. *)
Definition titled (u t : string) : Paper :=
  mkPaper (Val (py u)) (Val (py "cnki")) (Val (py t)) (Val []) PyNone
          Missing PyNone Missing.

(** ** Substrings *)

(** [sep] shares no character with [p]. *)
Definition cleanb (p sep : pystr) : bool :=
  forallb (λ c, negb (existsb (N.eqb c) p)) sep.

(** ** Result listings *)

(** The platforms [search_urls] has a key for. *)
Definition supported : list pystr :=
  [py "cnki"; py "wanfang"; py "cqvip"; py "arxiv"; py "openalex"].

(** The container selector, the link selector and the base address that
    the branch of [search_papers] for a platform uses. *)
Definition profile (platform : pystr) : option (pystr * pystr * pystr) :=
  if bool_decide (platform = py "cnki") then
    Some (py ".result-list li", py "a", [])
  else if bool_decide (platform = py "wanfang") then
    Some (py ".search-list li", py "a", [])
  else if bool_decide (platform = py "cqvip") then
    Some (py ".result-list li", py "a", [])
  else if bool_decide (platform = py "arxiv") then
    Some (py ".list-lst", py ".title a", py "https://arxiv.org")
  else if bool_decide (platform = py "openalex") then
    Some (py ".work", py "a", py "https://openalex.org")
  else None.

(** Every result link a page offers, in document order. *)
Definition all_links (item_sel link_sel base : pystr) (page : Tag)
  : list pystr :=
  omap (item_url link_sel base) (select item_sel page).

(** The container [item] offers the address [u]: its first element
    matching [link_sel] has a non-empty [href] attribute, and [u] is the
    base address followed by that attribute. *)
Definition link_at (link_sel base : pystr) (item : Tag) (u : pystr) : Prop :=
  ∃ link href,
    select_one link_sel item = Some link
    ∧ tag_get (py "href") link = Some href ∧ href ≠ [] ∧ u = base ++ href.

(** The container offers an address at all. *)
Definition has_link (link_sel : pystr) (item : Tag) : Prop :=
  ∃ link href,
    select_one link_sel item = Some link
    ∧ tag_get (py "href") link = Some href ∧ href ≠ [].

(** [links_of link_sel base items urls]: [urls] are the addresses that the
    containers [items] offer, one for each container that offers one, in
    the order of the containers. *)
Inductive links_of (link_sel base : pystr) : list Tag → list pystr → Prop :=
| links_nil : links_of link_sel base [] []
| links_link item items u urls :
    link_at link_sel base item u →
    links_of link_sel base items urls →
    links_of link_sel base (item :: items) (u :: urls)
| links_skip item items urls :
    ¬ has_link link_sel item →
    links_of link_sel base items urls →
    links_of link_sel base (item :: items) urls.

(** The status codes [raise_for_status] lets through. *)
Definition status_ok (r : Response) : Prop :=
  ¬ (400 ≤ status_code r < 600)%Z.

(** A container with a link to [href], and one without any link. *)
Definition linked (href : pystr) : Tag :=
  mkTag [] [] [(py "a", [mkTag [] [(py "href", href)] []])].

Definition unlinked : Tag := mkTag [] [] [].

(** A listing page of cnki with the given containers. *)
Definition cnki_page (items : list Tag) : Tag :=
  mkTag [] [] [(py ".result-list li", items)].

Definition serve (page : Tag) : Web := λ _, Some (mkResponse 200 page).

(** ** References *)

(** The texts that [generate_reference] puts between its fixed parts. *)
Definition ref_authors (paper : Paper) : pystr :=
  if list_truthy (dict_get (authors paper))
  then py_join (py ", ") (default [] (dict_get_default (authors paper) []))
  else unknown_authors.

Definition ref_title (paper : Paper) : pystr :=
  fmt (dict_get_default (title paper) unknown_title).

Definition ref_journal (paper : Paper) : pystr :=
  fmt (dict_get_default (journal paper) unknown_journal).

Definition ref_year (paper : Paper) : pystr :=
  fmt (dict_get_default (year paper) unknown_year).

Definition ref_doi (paper : Paper) : pystr :=
  fmt (dict_get_default (doi paper) []).

Definition ref_url (paper : Paper) : pystr :=
  fmt (dict_get_default (url paper) []).

(** The part of a reference that does not depend on [doi] and [url]. *)
Definition ref_body (paper : Paper) : pystr :=
  ref_head ++ ref_authors paper ++ py ". " ++ ref_title paper ++ py "[J]. "
    ++ ref_journal paper ++ py ", " ++ ref_year paper.

Definition url_line : pystr := py (String "010"%char "SourceURL: ").

(** A key that is missing, [None] or empty, as the tests [if doi] and
    [if url] see it. *)
Definition blank (e : entry pystr) : Prop := truthy (dict_get e) = false.

(** ** Detail pages *)

(** A key that is not set or is bound to [None]. *)
Definition absent {A} (e : entry A) : Prop := e = Missing ∨ e = PyNone.

(** None of the selectors finds a node in the page. *)
Definition no_match (sels : list pystr) (soup : Tag) : Prop :=
  Forall (λ sel, select_one sel soup = None) sels.

(** The selectors that [get_paper_details] consults for each field. *)
Definition title_selectors (platform : pystr) : list pystr :=
  if bool_decide (platform = py "cnki") then [py "#mainTitle"; py "h1.title"]
  else if bool_decide (platform = py "arxiv") then [meta_name "citation_title"]
  else if bool_decide (platform = py "openalex") then [py "h1"; py ".title"]
  else [].

Definition journal_selectors (platform : pystr) : list pystr :=
  if bool_decide (platform = py "cnki") then [py ".journal-name"; py ".journal"]
  else if bool_decide (platform = py "arxiv") then
    [meta_name "citation_journal_title"]
  else if bool_decide (platform = py "openalex") then
    [py ".journal"; py ".venue"]
  else [].

Definition year_selectors (platform : pystr) : list pystr :=
  if bool_decide (platform = py "cnki") then [py ".publish-date"; py ".year"]
  else if bool_decide (platform = py "arxiv") then [meta_name "citation_date"]
  else if bool_decide (platform = py "openalex") then
    [py ".year"; py ".publication_date"]
  else [].

Definition doi_selectors (platform : pystr) : list pystr :=
  if bool_decide (platform = py "cnki") then [meta_name "citation_doi"]
  else if bool_decide (platform = py "arxiv") then [meta_name "citation_doi"]
  else [].

(** [e['content'] if e else v0], stored by [set]. *)
Definition meta_entry (sel : pystr) (soup : Tag) (otherwise : entry pystr)
  : result (entry pystr) :=
  match select_one sel soup with
  | Some e => rbind (tag_item (py "content") e) (λ c, Ok (Val c))
  | None => Ok otherwise
  end.

(** The record that [search_academic_paper] starts from: every text field
    is the empty string. *)
Definition initial (u plat : pystr) : Paper :=
  mkPaper (Val u) (Val plat) (Val []) (Val []) (Val []) (Val []) Missing
          (Val []).

(** The selectors that each branch of [search_academic_paper] consults. *)
Definition selectors (platform : pystr) : list pystr :=
  if bool_decide (platform = py "nih") then
    [py "h1.title"; py "div.authors"; py "span.journal-title";
     py "span.publish-date"]
  else if bool_decide (platform = py "hanspub") then
    [py "div.ptitle"; py "div.author"; meta_name "citation_journal_title"]
  else if bool_decide (platform = py "wikipedia") then [py "h1.firstHeading"]
  else [].

(** ** Years *)

(** A run of four decimal digits. *)
Definition digit_run (isdecimal : char → bool) (run : pystr) : Prop :=
  length run = 4 ∧ forallb isdecimal run = true.

(** [run] is a four-digit run of [text] that starts right after [pre]. *)
Definition run_at (isdecimal : char → bool) (text pre run : pystr) : Prop :=
  ∃ post, text = pre ++ run ++ post ∧ digit_run isdecimal run.

(** [run] is the first four-digit run embedded in [text]. *)
Definition first_run (isdecimal : char → bool) (text run : pystr) : Prop :=
  ∃ pre, run_at isdecimal text pre run ∧
         ∀ pre' run', run_at isdecimal text pre' run' → length pre ≤ length pre'.

Definition no_run (isdecimal : char → bool) (text : pystr) : Prop := ∀ pre run, ¬ run_at isdecimal text pre run.

(** The digits 0 to 9, one instance of the digit test. *)
Definition ascii_digit (c : char) : bool := (48 <=? c)%N && (c <=? 57)%N.

(** ** An arXiv site *)

(** An arXiv run: three listed results, cap 3, each detail page with a
    title and a date; three requests for details follow the search
    request, and three records come back in listing order. *)
Definition arxiv_detail (t d : string) : Tag :=
  mkTag [] []
    [(meta_name "citation_title", [mkTag [] [(py "content", py t)] []]);
     (meta_name "citation_date", [mkTag [] [(py "content", py d)] []])].

Definition arxiv_listing (hrefs : list string) : Tag :=
  mkTag [] []
    [(py ".list-lst",
      map (λ h, mkTag [] []
                  [(py ".title a", [mkTag [] [(py "href", py h)] []])])
          hrefs)].

Definition arxiv_web : Web := λ u,
  if bool_decide (u = py "https://arxiv.org/abs/1") then
    Some (mkResponse 200 (arxiv_detail "Deep Learning" "2015/05/27"))
  else if bool_decide (u = py "https://arxiv.org/abs/2") then
    Some (mkResponse 200 (arxiv_detail "Deep Residual Learning" "2015/12/10"))
  else if bool_decide (u = py "https://arxiv.org/abs/3") then
    Some (mkResponse 200 (arxiv_detail "Attention" "2017/06/12"))
  else
    Some (mkResponse 200 (arxiv_listing ["/abs/1"; "/abs/2"; "/abs/3"]%string)).

End Notions.
Export Notions.

(** * Notions used in the further properties *)

Module MoreNotions.

(** The four search functions of thesis_paper_searcher.py, each with the
    name that [search_papers] has for its platform. *)
Definition thesis_searches
  : list (pystr * (Web → pystr → Z → IO (list pystr))) :=
  [ (py "cnki", ThesisSearcher.search_cnki);
    (py "wanfang", ThesisSearcher.search_wanfang);
    (py "arxiv", ThesisSearcher.search_arxiv);
    (py "openalex", ThesisSearcher.search_openalex) ].

(** The selector whose match becomes the title in each branch of
    [search_academic_paper]. *)
Definition academic_title_selector (platform : pystr) : option pystr :=
  if bool_decide (platform = py "nih") then Some (py "h1.title")
  else if bool_decide (platform = py "hanspub") then Some (py "div.ptitle")
  else if bool_decide (platform = py "wikipedia") then
    Some (py "h1.firstHeading")
  else None.

(** A string with no white space at either end, as [strip] leaves it. *)
Definition stripped (s : pystr) : Prop :=
  (∀ c r, s = c :: r → py_isspace c = false)
  ∧ (∀ f c, s = f ++ [c] → py_isspace c = false).

(** The number of occurrences of a character in a string. *)
Definition count_char (sep : char) (s : list char) : nat :=
  length (filter (λ c, c = sep) s).

(** The ASCII comma, at which the author line of a hanspub page is
    split. *)
Definition comma : char := 0x2C%N.

End MoreNotions.
Export MoreNotions.

(** * Properties *)

(** ** De-duplication *)

Module DedupeFacts.
Import Dedupe.

Lemma key_title_key p : title p ≠ PyNone → key p = Ok (title_key p).
Proof.
  unfold key, title_key.
  destruct (title p); simpl; [reflexivity | congruence | reflexivity].
Qed.

Lemma key_none p : title p = PyNone → key p = Raise AttributeError.
Proof. unfold key. intros ->. reflexivity. Qed.

Lemma str_truthy_true s : str_truthy s = true ↔ s ≠ [].
Proof. destruct s; simpl; split; congruence. Qed.

Lemma step_ok st p :
  title p ≠ PyNone →
  step st p =
    Ok (if decide (title_key p ≠ [] ∧ title_key p ∉ st.1)
        then ({[title_key p]} ∪ st.1, st.2 ++ [p]) else st).
Proof.
  intros Hp. unfold step. rewrite (key_title_key p Hp). simpl.
  destruct (str_truthy (title_key p)) eqn:Ht; simpl.
  - apply str_truthy_true in Ht.
    destruct (bool_decide_reflect (title_key p ∉ st.1)) as [Hn|Hn].
    + rewrite decide_True by done. reflexivity.
    + rewrite decide_False by tauto. reflexivity.
  - rewrite decide_False; [reflexivity|].
    intros [Hne _]. apply str_truthy_true in Hne. congruence.
Qed.

Lemma loop_app st a b :
  loop st (a ++ b) = rbind (loop st a) (λ st', loop st' b).
Proof.
  revert st. induction a as [|p a IH]; intros st; simpl; [reflexivity|].
  destruct (step st p); simpl; [apply IH | reflexivity].
Qed.

Lemma loop_total st ps :
  Forall (λ p, title p ≠ PyNone) ps → ∃ st', loop st ps = Ok st'.
Proof.
  intros H. revert st. induction H as [|p ps Hp _ IH]; intros st; simpl.
  - eauto.
  - rewrite (step_ok st p Hp). simpl. apply IH.
Qed.

Lemma loop_snoc st ps p st' :
  loop st ps = Ok st' → loop st (ps ++ [p]) = step st' p.
Proof.
  intros H. rewrite loop_app, H. simpl. destruct (step st' p); reflexivity.
Qed.

(** What [seen_titles] holds after the loop: the non-empty keys met. *)
Lemma loop_seen ps :
  Forall (λ p, title p ≠ PyNone) ps →
  ∀ st', loop (∅, []) ps = Ok st' →
  ∀ k, k ∈ st'.1 ↔ k ≠ [] ∧ k ∈ map title_key ps.
Proof.
  induction ps as [|p ps IH] using rev_ind; intros Hall st' Hloop k.
  - simpl in Hloop. assert (st' = (∅, [])) as -> by congruence.
    simpl. rewrite elem_of_empty, elem_of_nil. tauto.
  - apply Forall_app in Hall as [Hps Hp]. apply Forall_inv in Hp.
    destruct (loop_total (∅, []) ps Hps) as [st Hst].
    rewrite (loop_snoc _ _ p _ Hst), (step_ok st p Hp) in Hloop.
    injection Hloop as <-. specialize (IH Hps st Hst).
    rewrite map_app. simpl. rewrite elem_of_app, list_elem_of_singleton.
    destruct (decide _) as [[Hne Hnew]|Hno]; simpl.
    + rewrite elem_of_union, elem_of_singleton, IH. split.
      * intros [-> | [? ?]]; auto.
      * intros [? [? | ->]]; auto.
    + rewrite IH. split; [tauto|]. intros [Hk [? | ->]]; [tauto|].
      apply IH. destruct (decide (title_key p ∈ st.1)) as [Hin|Hin]; [done|].
      exfalso. apply Hno. auto.
Qed.

Lemma dedupe_loop ps st :
  loop (∅, []) ps = Ok st → dedupe ps = Ok st.2.
Proof. unfold dedupe. intros ->. reflexivity. Qed.

Lemma dedupe_total ps :
  Forall (λ p, title p ≠ PyNone) ps → ∃ out, dedupe ps = Ok out.
Proof.
  intros H. destruct (loop_total (∅, []) ps H) as [st Hst].
  exists st.2. by apply dedupe_loop.
Qed.

Lemma dedupe_nil : dedupe [] = Ok [].
Proof. reflexivity. Qed.

(** The loop, one record at a time: the record is appended exactly when its
    key is non-empty and no earlier record has the same key. *)
Lemma dedupe_snoc ps p out :
  Forall (λ p, title p ≠ PyNone) ps → title p ≠ PyNone →
  dedupe ps = Ok out →
  dedupe (ps ++ [p]) =
    Ok (if decide (title_key p ≠ [] ∧ title_key p ∉ map title_key ps)
        then out ++ [p] else out).
Proof.
  intros Hps Hp Hout.
  destruct (loop_total (∅, []) ps Hps) as [st Hst].
  rewrite (dedupe_loop _ _ Hst) in Hout. injection Hout as <-.
  unfold dedupe. rewrite (loop_snoc _ _ p _ Hst), (step_ok st p Hp). simpl.
  pose proof (loop_seen ps Hps st Hst (title_key p)) as Hseen.
  destruct (decide (title_key p ≠ [] ∧ title_key p ∉ st.1)) as [[H1 H2]|Hn].
  - rewrite decide_True; [reflexivity|]. split; [done|]. intros Hin.
    apply H2, Hseen. auto.
  - rewrite decide_False; [reflexivity|]. intros [H1 H2]. apply Hn.
    split; [done|]. intros Hin. apply Hseen in Hin. tauto.
Qed.

(** The output is a subsequence of the input whose keys are non-empty,
    pairwise distinct, and drawn from the input. *)
Lemma dedupe_shape ps :
  Forall (λ p, title p ≠ PyNone) ps →
  ∀ out, dedupe ps = Ok out →
  sublist out ps ∧ NoDup (map title_key out) ∧
  Forall (λ p, title_key p ≠ []) out ∧
  (∀ k, k ∈ map title_key out ↔ k ≠ [] ∧ k ∈ map title_key ps).
Proof.
  induction ps as [|p ps IH] using rev_ind; intros Hall out Hout.
  - rewrite dedupe_nil in Hout. injection Hout as <-. simpl.
    split; [constructor|]. split; [constructor|]. split; [constructor|].
    intros k. rewrite elem_of_nil. tauto.
  - apply Forall_app in Hall as [Hps Hp]. apply Forall_inv in Hp.
    destruct (dedupe_total ps Hps) as [out0 Hout0].
    rewrite (dedupe_snoc ps p out0 Hps Hp Hout0) in Hout.
    injection Hout as <-.
    destruct (IH Hps out0 Hout0) as (Hsub & Hnd & Hne & Hkeys).
    destruct (decide _) as [[H1 H2]|Hn].
    + split; [by apply sublist_app|].
      split.
      { rewrite map_app. simpl. apply NoDup_app. split; [done|].
        split; [|apply NoDup_singleton].
        intros k Hk ->%list_elem_of_singleton. apply Hkeys in Hk. tauto. }
      split; [apply Forall_app; split; [done|by apply Forall_singleton]|].
      intros k. rewrite !map_app. simpl.
      rewrite !elem_of_app, !list_elem_of_singleton, Hkeys. split.
      * intros [[? ?] | ->]; auto.
      * intros [? [? | ->]]; auto.
    + split; [by apply sublist_inserts_r|]. split; [done|]. split; [done|].
      intros k. rewrite map_app. simpl.
      rewrite elem_of_app, list_elem_of_singleton, Hkeys.
      split; [tauto|]. intros [Hk [? | ->]]; [tauto|]. split; [done|].
      destruct (decide (title_key p ∈ map title_key ps)); [done|].
      exfalso. apply Hn. auto.
Qed.

(** A run that returns met no [None] title. *)
Lemma loop_ok_titles ps :
  ∀ st st', loop st ps = Ok st' → Forall (λ p, title p ≠ PyNone) ps.
Proof.
  induction ps as [|p ps IH]; intros st st' H; [constructor|].
  simpl in H. destruct (title p) eqn:Hp.
  - rewrite step_ok in H by congruence. constructor; [congruence|].
    simpl in H. eapply IH, H.
  - unfold step in H. rewrite (key_none p Hp) in H. discriminate.
  - rewrite step_ok in H by congruence. constructor; [congruence|].
    simpl in H. eapply IH, H.
Qed.

Lemma dedupe_ok_titles ps out :
  dedupe ps = Ok out → Forall (λ p, title p ≠ PyNone) ps.
Proof.
  unfold dedupe. destruct (loop (∅, []) ps) eqn:H; [|discriminate].
  intros _. eapply loop_ok_titles, H.
Qed.

(** A [None] title stops the loop with an [AttributeError]; the records
    that [main] collects all have a non-empty title. *)
Lemma dedupe_none_title pre p post :
  Forall (λ p, title p ≠ PyNone) pre → title p = PyNone →
  dedupe (pre ++ p :: post) = Raise AttributeError.
Proof.
  intros Hpre Hp. unfold dedupe. rewrite loop_app.
  destruct (loop_total (∅, []) pre Hpre) as [st ->]. simpl.
  unfold step. by rewrite (key_none p Hp).
Qed.

(** [unique_papers] only grows. *)
Lemma loop_prefix ps :
  ∀ st st', loop st ps = Ok st' → st.2 `prefix_of` st'.2.
Proof.
  induction ps as [|p ps IH]; intros st st' H; simpl in H.
  - by assert (st' = st) as -> by congruence.
  - pose proof (loop_ok_titles (p :: ps) st st' H) as Hall.
    apply Forall_inv in Hall. rewrite (step_ok st p Hall) in H. simpl in H.
    apply IH in H. destruct (decide _); [|done].
    simpl in H. etrans; [|exact H]. by apply prefix_app_r.
Qed.

Lemma dedupe_prefix a b out_a out :
  dedupe a = Ok out_a → dedupe (a ++ b) = Ok out → out_a `prefix_of` out.
Proof.
  unfold dedupe. rewrite loop_app.
  destruct (loop (∅, []) a) as [st|] eqn:Ha; simpl; [|discriminate].
  destruct (loop st b) as [st'|] eqn:Hb; simpl; [|discriminate].
  intros [= <-] [= <-]. eapply loop_prefix, Hb.
Qed.

(** A record with an empty key leaves the loop state as it is. *)
Lemma loop_filter ps :
  Forall (λ p, title p ≠ PyNone) ps →
  ∀ st, loop st ps = loop st (filter (λ p, title_key p ≠ []) ps).
Proof.
  induction 1 as [|p ps Hp _ IH]; intros st; [reflexivity|].
  rewrite filter_cons. simpl. destruct (decide (title_key p ≠ [])) as [Hk|Hk].
  - simpl. destruct (step st p); simpl; [apply IH | reflexivity].
  - rewrite (step_ok st p Hp), decide_False by tauto. simpl. apply IH.
Qed.

End DedupeFacts.

(** ** Substrings *)

Module StrFacts.

Lemma prefixb_spec p s : prefixb p s = true ↔ ∃ b, s = p ++ b.
Proof.
  revert s. induction p as [|c p IH]; intros s; simpl.
  - split; eauto.
  - destruct s as [|d s].
    + split; [discriminate | intros [b Hb]; discriminate].
    + rewrite andb_true_iff, N.eqb_eq, IH. split.
      * intros [-> [b ->]]. eauto.
      * intros [b Hb]. injection Hb as -> ->. eauto.
Qed.

(** The test [p in s] decides [contains p s]. *)
Lemma containsb_spec p s : containsb p s = true ↔ contains p s.
Proof.
  unfold contains. induction s as [|d s IH]; simpl.
  - rewrite orb_false_r, prefixb_spec. split.
    + intros [b Hb]. by exists [], b.
    + intros (a & b & H). destruct a; [eauto | discriminate].
  - rewrite orb_true_iff, prefixb_spec, IH. split.
    + intros [[b Hb] | (a & b & Hab)].
      * by exists [], b.
      * exists (d :: a), b. by rewrite Hab.
    + intros (a & b & H). destruct a as [|e a]; simpl in H.
      * left. eauto.
      * right. injection H as _ ->. eauto.
Qed.

Lemma not_containsb p s : containsb p s = false → ¬ contains p s.
Proof. intros H Hc. apply containsb_spec in Hc. congruence. Qed.

Lemma contains_nil p : p ≠ [] → ¬ contains p [].
Proof.
  intros Hp (a & b & H). symmetry in H.
  apply app_eq_nil in H as [_ H]. apply app_eq_nil in H as [H _]. done.
Qed.

Lemma contains_app_l p a b : contains p a → contains p (a ++ b).
Proof.
  intros (x & y & ->). exists x, (y ++ b). by rewrite <- !app_assoc.
Qed.

Lemma contains_app_r p a b : contains p b → contains p (a ++ b).
Proof. intros (x & y & ->). exists (a ++ x), y. by rewrite <- !app_assoc. Qed.

(** An occurrence of [p] cannot run over a character that is not in [p]. *)
Lemma contains_clean_char p a c b :
  c ∉ p → contains p (a ++ c :: b) → contains p a ∨ contains p b.
Proof.
  intros Hc (x & y & H).
  apply app_eq_inv in H as [(k & -> & Hk) | (k & -> & Hk)].
  - apply app_eq_inv in Hk as [(k' & -> & Hk') | (k' & -> & ->)].
    + destruct k' as [|e k']; simpl in Hk'.
      * left. exists x, []. by rewrite !app_nil_r.
      * injection Hk' as -> _. exfalso. apply Hc.
        apply elem_of_app. right. apply list_elem_of_here.
    + left. by exists x, k'.
  - destruct k as [|e k]; simpl in Hk.
    + destruct p as [|p0 p]; simpl in Hk.
      * left. by exists [], a.
      * injection Hk as -> _. exfalso. apply Hc, list_elem_of_here.
    + injection Hk as _ ->. right. by exists k, y.
Qed.

Lemma cleanb_cons p c sep :
  cleanb p (c :: sep) = true → (c ∉ p) ∧ cleanb p sep = true.
Proof.
  unfold cleanb. simpl. rewrite andb_true_iff, negb_true_iff.
  intros [Hc Hs]. split; [|done]. intros Hin. apply list_elem_of_In in Hin.
  assert (existsb (N.eqb c) p = true); [|congruence].
  apply existsb_exists. exists c. split; [done | apply N.eqb_refl].
Qed.

Lemma contains_clean_sep p sep :
  p ≠ [] → sep ≠ [] → cleanb p sep = true →
  ∀ a b, contains p (a ++ sep ++ b) → contains p a ∨ contains p b.
Proof.
  intros Hp. induction sep as [|c sep IH]; [done|].
  intros _ Hclean a b H. apply cleanb_cons in Hclean as [Hc Hclean].
  simpl in H. apply contains_clean_char in H as [H|H]; [by left | | done].
  destruct sep as [|c' sep]; [by right|].
  destruct (IH ltac:(done) Hclean [] b H) as [H'|H']; [|by right].
  by apply contains_nil in H'.
Qed.

(** An occurrence of [p] does not start at a character other than the
    first of [p]. *)
Lemma contains_skip p0 p c s :
  c ≠ p0 → contains (p0 :: p) (c :: s) → contains (p0 :: p) s.
Proof.
  intros Hc (a & b & H). destruct a as [|e a]; simpl in H.
  - injection H as -> _. done.
  - injection H as _ ->. by exists a, b.
Qed.

Lemma contains_join p sep l :
  p ≠ [] → sep ≠ [] → cleanb p sep = true →
  Forall (λ a, ¬ contains p a) l → ¬ contains p (py_join sep l).
Proof.
  intros Hp Hsep Hclean. induction 1 as [|a l Ha Hl IH]; simpl.
  - by apply contains_nil.
  - destruct l as [|a' l]; [done|]. intros H.
    apply (contains_clean_sep p sep Hp Hsep Hclean) in H as [H|H]; tauto.
Qed.

End StrFacts.

(** ** Result listings and [search_papers] *)

Module SearchFacts.
Import PaperSearcher.

(** The keys of the dictionary [search_urls]. *)
Lemma search_urls_keys kw c :
  map fst (PaperSearcher.search_urls kw c) = supported.
Proof. reflexivity. Qed.

Lemma assoc_search_urls_none kw c plat :
  plat ∉ supported → assoc plat (search_urls kw c) = None.
Proof.
  intros H. unfold search_urls, assoc.
  repeat (case_bool_decide;
          [exfalso; apply H; subst plat; unfold supported;
           repeat first [apply list_elem_of_here | apply list_elem_of_further]|]).
  reflexivity.
Qed.

Lemma assoc_search_urls_some kw c plat url :
  assoc plat (search_urls kw c) = Some url → is_Some (profile plat).
Proof.
  unfold search_urls, assoc, profile.
  repeat (case_bool_decide; [intros _; eauto|]). discriminate.
Qed.

Lemma profile_supported plat i l b :
  profile plat = Some (i, l, b) → plat ∈ supported.
Proof.
  unfold profile, supported.
  repeat (case_bool_decide;
          [intros _; subst plat;
           repeat first [apply list_elem_of_here | apply list_elem_of_further]|]).
  discriminate.
Qed.

Lemma raise_for_status_ok r : status_ok r → raise_for_status r = ret tt.
Proof.
  unfold status_ok, raise_for_status. intros H.
  destruct (400 <=? status_code r)%Z eqn:H1;
    destruct (status_code r <? 600)%Z eqn:H2; simpl; try reflexivity.
  exfalso. apply H. lia.
Qed.

(** A run of [search_papers] whose request is answered with a passing
    status: one request, and the links of the capped container list. *)
Lemma search_papers_ok web kw plat c url resp i l b :
  assoc plat (search_urls kw c) = Some url →
  web url = Some resp → status_ok resp →
  profile plat = Some (i, l, b) →
  search_papers web kw plat c = ([url], Ok (collect_urls i l b c (soup resp))).
Proof.
  intros Hurl Hweb Hst Hprof. unfold search_papers. rewrite Hurl.
  unfold mbind, IO_bind, bind, requests_get. simpl. rewrite Hweb. simpl.
  rewrite (raise_for_status_ok resp Hst). simpl.
  unfold profile in Hprof.
  repeat (case_bool_decide; [by simplify_eq|]). discriminate.
Qed.

Lemma omap_length_le {A B} (f : A → option B) (l : list A) :
  length (omap f l) ≤ length l.
Proof.
  induction l as [|a l IH]; csimpl; [lia|].
  destruct (f a); csimpl; lia.
Qed.

Lemma omap_length_all {A B} (f : A → option B) (l : list A) :
  Forall (λ a, is_Some (f a)) l → length (omap f l) = length l.
Proof.
  induction 1 as [|a l [b Hb] _ IH]; csimpl; [reflexivity|].
  rewrite Hb. csimpl. by rewrite IH.
Qed.

Lemma omap_take_prefix {A B} (f : A → option B) (n : nat) (l : list A) :
  omap f (take n l) `prefix_of` omap f l.
Proof.
  rewrite <- (take_drop n l) at 2. rewrite omap_app. by apply prefix_app_r.
Qed.

Lemma omap_take_all {A B} (f : A → option B) (n : nat) (l : list A) :
  Forall (λ a, is_Some (f a)) (take n l) →
  omap f (take n l) = take n (omap f l).
Proof.
  revert n. induction l as [|a l IH]; intros [|n] H; csimpl in *;
    try reflexivity.
  apply Forall_cons in H as [[b Hb] H]. rewrite Hb. csimpl.
  by rewrite IH.
Qed.

Lemma py_slice_to_nonneg {A} (c : Z) (l : list A) :
  (0 ≤ c)%Z → py_slice_to c l = take (Z.to_nat c) l.
Proof.
  intros H. unfold py_slice_to.
  destruct (0 <=? c)%Z eqn:E; [reflexivity | lia].
Qed.

(** One iteration of the loop appends exactly the address that the
    container offers, and nothing when it offers none. *)
Lemma item_url_link l b item u :
  item_url l b item = Some u ↔ link_at l b item u.
Proof.
  unfold item_url, link_at. split.
  - destruct (select_one l item) as [link|]; [|done].
    destruct (tag_get (py "href") link) as [[|ch href]|] eqn:Hh;
      simpl; try done.
    intros [= <-]. by exists link, (ch :: href).
  - intros (link & href & -> & -> & Hne & ->). by destruct href.
Qed.

Lemma item_url_has_link l b item :
  is_Some (item_url l b item) ↔ has_link l item.
Proof.
  split.
  - intros [u Hu]. apply item_url_link in Hu as (link & href & ? & ? & ? & _).
    by exists link, href.
  - intros (link & href & H1 & H2 & H3). exists (b ++ href).
    apply item_url_link. by exists link, href.
Qed.

Lemma omap_links_of l b items :
  links_of l b items (omap (item_url l b) items).
Proof.
  induction items as [|item items IH]; csimpl; [constructor|].
  destruct (item_url l b item) as [u|] eqn:Hu; csimpl.
  - apply links_link; [by apply item_url_link | done].
  - apply links_skip; [|done]. intros H.
    apply (item_url_has_link l b) in H as [u' Hu']. congruence.
Qed.

(** The containers determine their addresses. *)
Lemma links_of_unique l b items urls urls' :
  links_of l b items urls → links_of l b items urls' → urls = urls'.
Proof.
  intros H. revert urls'.
  induction H as [|item items u urls Hu _ IH|item items urls Hn _ IH];
    intros urls' H'; inversion H' as [|? ? u' us' Hu' H''|? ? us' Hn' H''];
    subst.
  - done.
  - apply item_url_link in Hu, Hu'. f_equal; [congruence | by apply IH].
  - destruct Hn'. destruct Hu as (link & href & ? & ? & ? & _).
    by exists link, href.
  - destruct Hn. destruct Hu' as (link & href & ? & ? & ? & _).
    by exists link, href.
  - by apply IH.
Qed.

Lemma links_of_all l b items urls :
  Forall (has_link l) items → links_of l b items urls →
  Forall2 (link_at l b) items urls.
Proof.
  intros Hall H. induction H as [|item items u urls Hu _ IH|item items urls Hn _ _].
  - constructor.
  - apply Forall_cons in Hall as [_ Hall]. constructor; [done | by apply IH].
  - apply Forall_cons in Hall as [Hh _]. done.
Qed.

Section Collect.
Variables (item_sel link_sel base : pystr) (c : Z) (page : Tag).
Hypothesis c_nonneg : (0 ≤ c)%Z.

Lemma collect_urls_links :
  links_of link_sel base (take (Z.to_nat c) (select item_sel page))
           (collect_urls item_sel link_sel base c page).
Proof.
  unfold collect_urls. rewrite py_slice_to_nonneg by done.
  apply omap_links_of.
Qed.

Lemma collect_urls_length :
  length (collect_urls item_sel link_sel base c page) ≤ Z.to_nat c.
Proof.
  unfold collect_urls. rewrite py_slice_to_nonneg by done.
  etrans; [apply omap_length_le|]. rewrite length_take. lia.
Qed.

Lemma collect_urls_prefix :
  collect_urls item_sel link_sel base c page
    `prefix_of` all_links item_sel link_sel base page.
Proof.
  unfold collect_urls, all_links. rewrite py_slice_to_nonneg by done.
  apply omap_take_prefix.
Qed.

Lemma collect_urls_all :
  Forall (λ item, is_Some (item_url link_sel base item))
         (take (Z.to_nat c) (select item_sel page)) →
  collect_urls item_sel link_sel base c page
    = take (Z.to_nat c) (all_links item_sel link_sel base page)
  ∧ length (collect_urls item_sel link_sel base c page)
    = Z.to_nat c `min` length (select item_sel page).
Proof.
  intros H. unfold collect_urls, all_links.
  rewrite py_slice_to_nonneg by done. split.
  - by apply omap_take_all.
  - rewrite omap_length_all by done. apply length_take.
Qed.

End Collect.

Lemma select_cnki_page items :
  select (py ".result-list li") (cnki_page items) = items.
Proof. reflexivity. Qed.

Lemma item_url_unlinked l b : item_url l b unlinked = None.
Proof. reflexivity. Qed.

Lemma omap_replicate_none {A B} (f : A → option B) n a :
  f a = None → omap f (replicate n a) = [].
Proof. intros H. induction n; csimpl; [done|]. by rewrite H. Qed.

Lemma omap_replicate_some {A B} (f : A → option B) n a b :
  f a = Some b → omap f (replicate n a) = replicate n b.
Proof.
  intros H. induction n; csimpl; [done|]. rewrite H. csimpl. by f_equal.
Qed.

(** [search_cnki] never raises: one request, and the links of the capped
    container list, or no link at all when the request fails. *)
Lemma search_cnki_eq web kw c :
  ThesisSearcher.search_cnki web kw c =
    ([py "https://search.cnki.com.cn/Search/Result?content=" ++ kw],
     Ok (match web (py "https://search.cnki.com.cn/Search/Result?content="
                      ++ kw) with
         | Some resp =>
             collect_urls (py ".result-list li") (py "a") [] c (soup resp)
         | None => []
         end)).
Proof.
  unfold ThesisSearcher.search_cnki, try_nil, mbind, IO_bind, bind,
    requests_get. simpl.
  destruct (web _); reflexivity.
Qed.

End SearchFacts.

(** ** [generate_reference] *)

Module ReferenceFacts.
Import PaperSearcher StrFacts.

Lemma truthy_get_default (e : entry pystr) :
  truthy (dict_get_default e []) = truthy (dict_get e).
Proof. by destruct e. Qed.

Lemma blank_not_val (e : entry pystr) (v : pystr) :
  e = Val v → v ≠ [] → truthy (dict_get e) = true.
Proof. intros -> Hv. by destruct v. Qed.

Lemma generate_reference_eq paper :
  generate_reference paper =
    ref_body paper
      ++ (if truthy (dict_get (doi paper)) then py ". DOI: " ++ ref_doi paper
          else [])
      ++ (if truthy (dict_get (url paper)) then url_line ++ ref_url paper
          else []).
Proof.
  unfold generate_reference, ref_body, ref_doi, ref_url, url_line.
  fold (ref_authors paper) (ref_title paper) (ref_journal paper)
       (ref_year paper).
  destruct (doi paper) as [| |[|d0 d]]; destruct (url paper) as [| |[|u0 u]];
    cbn [dict_get dict_get_default truthy str_truthy];
    rewrite <- ?app_assoc, ?app_nil_r; reflexivity.
Qed.

Lemma ref_authors_clean p paper :
  p ≠ [] → cleanb p (py ", ") = true → containsb p unknown_authors = false →
  Forall (λ a, ¬ contains p a) (default [] (dict_get (authors paper))) →
  ¬ contains p (ref_authors paper).
Proof.
  intros Hp Hsep Hunk Hall. unfold ref_authors.
  destruct (authors paper) as [| |[|a l]]; simpl;
    try (by apply not_containsb).
  by apply (contains_join p (py ", ") (a :: l)).
Qed.

(** With neither field text holding "DOI:", the body does not hold it. *)
Lemma ref_body_no_doi paper rest :
  Forall (λ a, ¬ contains (py "DOI:") a)
         (default [] (dict_get (authors paper))) →
  ¬ contains (py "DOI:") (ref_title paper) →
  ¬ contains (py "DOI:") (ref_journal paper) →
  ¬ contains (py "DOI:") (ref_year paper ++ rest) →
  ¬ contains (py "DOI:") (ref_head ++ ref_authors paper ++ py ". "
      ++ ref_title paper ++ py "[J]. " ++ ref_journal paper ++ py ", "
      ++ ref_year paper ++ rest).
Proof.
  intros Ha Ht Hj Hy H.
  assert (py "DOI:" ≠ []) as Hp by done.
  apply (contains_clean_sep _ ref_head Hp ltac:(done) eq_refl []) in H
    as [H|H]; [by apply contains_nil in H|].
  apply (contains_clean_sep _ (py ". ") Hp ltac:(done) eq_refl) in H
    as [H|H]; [by apply ref_authors_clean in H|].
  apply (contains_clean_sep _ (py "[J]. ") Hp ltac:(done) eq_refl) in H
    as [H|H]; [done|].
  apply (contains_clean_sep _ (py ", ") Hp ltac:(done) eq_refl) in H
    as [H|H]; done.
Qed.

Lemma url_line_no_doi y u :
  ¬ contains (py "DOI:") y → ¬ contains (py "DOI:") u →
  ¬ contains (py "DOI:") (y ++ url_line ++ u).
Proof.
  intros Hy Hu H.
  change (url_line ++ u)
    with (py (String "010"%char "SourceURL") ++ (58 :: 32 :: u)%N) in H.
  apply (contains_clean_sep (py "DOI:")
           (py (String "010"%char "SourceURL")) ltac:(done) ltac:(done)
           eq_refl) in H as [H|H]; [done|].
  change (py "DOI:") with [68; 79; 73; 58]%N in *.
  apply contains_skip in H; [|done]. apply contains_skip in H; done.
Qed.

(** What is rendered for a key that is not in the record, and for a key
    that is bound to [None]. *)
Lemma placeholders_for_missing_keys paper :
  (list_truthy (dict_get (authors paper)) = false →
   ref_authors paper = unknown_authors)
  ∧ (title paper = Missing → ref_title paper = unknown_title)
  ∧ (journal paper = Missing → ref_journal paper = unknown_journal)
  ∧ (year paper = Missing → ref_year paper = unknown_year)
  ∧ (title paper = PyNone → ref_title paper = py "None")
  ∧ (journal paper = PyNone → ref_journal paper = py "None")
  ∧ (year paper = PyNone → ref_year paper = py "None").
Proof.
  unfold ref_authors, ref_title, ref_journal, ref_year.
  repeat split; by intros ->.
Qed.

End ReferenceFacts.

(** ** The detail extractors *)

Module ExtractFacts.
Import PaperSearcher SearchFacts.

Lemma no_match_1 s soup : no_match [s] soup → select_one s soup = None.
Proof. intros H. by apply Forall_inv in H. Qed.

Lemma no_match_2 s1 s2 soup :
  no_match [s1; s2] soup →
  or_else (select_one s1 soup) (select_one s2 soup) = None.
Proof.
  intros H. inversion H as [|? ? H1 H2]; subst. apply Forall_inv in H2.
  by rewrite H1, H2.
Qed.

(** [get_paper_details] always issues exactly one request and never
    raises. *)
Lemma get_paper_details_eq web u plat :
  get_paper_details web u plat =
    ([u], Ok (match web u with
              | Some resp =>
                  if (400 <=? status_code resp)%Z && (status_code resp <? 600)%Z
                  then None
                  else match extract u plat (soup resp) with
                       | Ok p => Some p
                       | Raise _ => None
                       end
              | None => None
              end)).
Proof.
  unfold get_paper_details, try_none, mbind, IO_bind, bind, requests_get,
    raise_for_status, lift, raise, ret. simpl.
  destruct (web u) as [resp|]; simpl; [|reflexivity].
  destruct ((400 <=? status_code resp)%Z && (status_code resp <? 600)%Z);
    simpl; [reflexivity|].
  destruct (extract u plat (soup resp)); reflexivity.
Qed.

Lemma get_paper_details_some web u plat p :
  (get_paper_details web u plat).2 = Ok (Some p) →
  ∃ resp, web u = Some resp ∧ extract u plat (soup resp) = Ok p.
Proof.
  rewrite get_paper_details_eq. simpl. destruct (web u) as [resp|]; [|done].
  destruct (_ && _); [done|].
  destruct (extract u plat (soup resp)) eqn:E; [|done].
  intros [= ->]. eauto.
Qed.

Lemma set_doi_meta_ok soup p0 p :
  set_doi_meta soup p0 = Ok p →
  ∃ v, p = set_doi v p0 ∧
       (select_one (meta_name "citation_doi") soup = None → v = PyNone) ∧
       (∀ e, select_one (meta_name "citation_doi") soup = Some e →
             tag_get (py "content") e = Some (default [] (dict_get v))
             ∧ v = Val (default [] (dict_get v))).
Proof.
  unfold set_doi_meta, tag_item.
  destruct (select_one (meta_name "citation_doi") soup) as [e|].
  - destruct (tag_get (py "content") e) as [c|] eqn:Hc; simpl; [|done].
    intros [= <-]. exists (Val c). split; [done|]. split; [done|].
    intros e' [= <-]. by rewrite Hc.
  - intros [= <-]. exists PyNone. split; [done|]. split; [done|]. done.
Qed.

(** The year that the cnki and openalex branches store. *)
Lemma year_prefix_take text : year_prefix text = take 4 text.
Proof.
  unfold year_prefix, py_prefix.
  destruct (4 <=? length text)%nat eqn:E; [done|].
  apply Nat.leb_gt in E. symmetry. apply take_ge. lia.
Qed.

(** The fields of the record that the cnki branch returns. *)
Lemma details_cnki_fields soup p0 p :
  details_cnki soup p0 = Ok p →
  url p = url p0 ∧ platform p = platform p0
  ∧ title p = text_or_none (or_else (select_one (py "#mainTitle") soup)
                                     (select_one (py "h1.title") soup))
  ∧ authors p
    = Val (map get_text_strip (py_slice_to 5 (select (py ".author a") soup)))
  ∧ journal p = text_or_none (or_else (select_one (py ".journal-name") soup)
                                       (select_one (py ".journal") soup))
  ∧ year p = match or_else (select_one (py ".publish-date") soup)
                           (select_one (py ".year") soup) with
             | Some e => Val (take 4 (get_text_strip e))
             | None => year p0
             end
  ∧ (select_one (meta_name "citation_doi") soup = None → doi p = PyNone).
Proof.
  unfold details_cnki. intros H.
  apply set_doi_meta_ok in H as (v & -> & Hv & _).
  destruct (or_else (select_one (py ".publish-date") soup) _) as [e|];
    rewrite ?year_prefix_take; simpl; repeat split; done.
Qed.

Lemma details_openalex_fields soup p0 p :
  details_openalex soup p0 = Ok p →
  url p = url p0 ∧ platform p = platform p0
  ∧ title p = text_or_none (or_else (select_one (py "h1") soup)
                                     (select_one (py ".title") soup))
  ∧ journal p = text_or_none (or_else (select_one (py ".journal") soup)
                                       (select_one (py ".venue") soup))
  ∧ year p = match or_else (select_one (py ".year") soup)
                           (select_one (py ".publication_date") soup) with
             | Some e => Val (take 4 (get_text_strip e))
             | None => year p0
             end
  ∧ doi p = PyNone.
Proof.
  unfold details_openalex. intros [= <-].
  destruct (or_else (select_one (py ".year") soup) _) as [e|];
    rewrite ?year_prefix_take; simpl; repeat split; done.
Qed.

Lemma details_arxiv_fields soup p0 p :
  details_arxiv soup p0 = Ok p →
  url p = url p0 ∧ platform p = platform p0
  ∧ meta_entry (meta_name "citation_title") soup PyNone = Ok (title p)
  ∧ meta_entry (meta_name "citation_journal_title") soup (Val (py "arXiv"))
    = Ok (journal p)
  ∧ year p = match select_one (meta_name "citation_date") soup with
             | Some e => match tag_get (py "content") e with
                         | Some c => Val (take 4 c)
                         | None => year p0
                         end
             | None => year p0
             end
  ∧ (select_one (meta_name "citation_doi") soup = None → doi p = PyNone).
Proof.
  unfold details_arxiv, meta_entry, tag_item.
  destruct (select_one (meta_name "citation_title") soup) as [te|];
    [destruct (tag_get (py "content") te); [|done]|];
    (destruct (select_one (meta_name "citation_journal_title") soup) as [je|];
     [destruct (tag_get (py "content") je); [|done]|]);
    (destruct (select_one (meta_name "citation_date") soup) as [ye|];
     [destruct (tag_get (py "content") ye); [|done]|]);
    simpl; intros H; apply set_doi_meta_ok in H as (v & -> & Hv & _);
    simpl; repeat split; done.
Qed.

Lemma absent_text_or_none (e : option Tag) :
  e = None → absent (text_or_none e).
Proof. intros ->. by right. Qed.

(** What [get_paper_details] stores for a field none of whose selectors
    matches. *)
Lemma extract_unmatched u plat soup p :
  extract u plat soup = Ok p →
  (no_match (title_selectors plat) soup → absent (title p))
  ∧ (no_match (journal_selectors plat) soup →
     if bool_decide (plat = py "arxiv") then journal p = Val (py "arXiv")
     else absent (journal p))
  ∧ (no_match (year_selectors plat) soup → year p = Missing)
  ∧ (no_match (doi_selectors plat) soup → absent (doi p)).
Proof.
  unfold extract, title_selectors, journal_selectors, year_selectors,
    doi_selectors.
  case_bool_decide as Hcnki; [subst plat|].
  { change (bool_decide (py "cnki" = py "arxiv")) with false. cbv iota.
    intros H. apply details_cnki_fields in H
      as (_ & _ & Ht & _ & Hj & Hy & Hd).
    rewrite Ht, Hj, Hy. repeat split.
    - intros Hn. by apply absent_text_or_none, no_match_2.
    - intros Hn. by apply absent_text_or_none, no_match_2.
    - intros Hn. by rewrite (no_match_2 _ _ _ Hn).
    - intros Hn. right. by apply Hd, no_match_1. }
  case_bool_decide as Harxiv; [subst plat|].
  { intros H. apply details_arxiv_fields in H
      as (_ & _ & Ht & Hj & Hy & Hd).
    unfold meta_entry in Ht, Hj. repeat split.
    - intros Hn. rewrite (no_match_1 _ _ Hn) in Ht. injection Ht as <-.
      by right.
    - intros Hn. rewrite (no_match_1 _ _ Hn) in Hj. by injection Hj as <-.
    - intros Hn. by rewrite Hy, (no_match_1 _ _ Hn).
    - intros Hn. right. by apply Hd, no_match_1. }
  case_bool_decide as Hopen; [subst plat|].
  { intros H. apply details_openalex_fields in H
      as (_ & _ & Ht & Hj & Hy & Hd).
    rewrite Ht, Hj, Hy, Hd. repeat split.
    - intros Hn. by apply absent_text_or_none, no_match_2.
    - intros Hn. by apply absent_text_or_none, no_match_2.
    - intros Hn. by rewrite (no_match_2 _ _ _ Hn).
    - intros _. by right. }
  intros [= <-]. simpl. repeat split; intros _; try done; by left.
Qed.

(** The year that [get_paper_details] stores when a year selector
    matches: the first four characters of the selected text. *)
Lemma extract_year u plat soup p :
  extract u plat soup = Ok p →
  (plat = py "cnki" →
   ∀ e, or_else (select_one (py ".publish-date") soup)
                (select_one (py ".year") soup) = Some e →
        year p = Val (take 4 (get_text_strip e)))
  ∧ (plat = py "openalex" →
     ∀ e, or_else (select_one (py ".year") soup)
                  (select_one (py ".publication_date") soup) = Some e →
          year p = Val (take 4 (get_text_strip e)))
  ∧ (plat = py "arxiv" →
     ∀ e, select_one (meta_name "citation_date") soup = Some e →
          ∃ c, tag_get (py "content") e = Some c ∧ year p = Val (take 4 c)).
Proof.
  intros H. repeat split; intros -> e He.
  - apply details_cnki_fields in H as (_ & _ & _ & _ & _ & Hy & _).
    by rewrite Hy, He.
  - apply details_openalex_fields in H as (_ & _ & _ & _ & Hy & _).
    by rewrite Hy, He.
  - pose proof H as H'. apply details_arxiv_fields in H
      as (_ & _ & _ & _ & Hy & _).
    rewrite He in Hy. destruct (tag_get (py "content") e) as [c|] eqn:Hc.
    + eauto.
    + exfalso. revert H'. change (extract u (py "arxiv") soup)
        with (details_arxiv soup (new_paper u (py "arxiv"))).
      unfold details_arxiv, tag_item. rewrite He, Hc.
      destruct (select_one (meta_name "citation_title") soup) as [te|];
        [destruct (tag_get (py "content") te)|];
        (destruct (select_one (meta_name "citation_journal_title") soup)
           as [je|]; [destruct (tag_get (py "content") je)|]); done.
Qed.

End ExtractFacts.

(** ** The extractors of thesis_paper_searcher.py *)

Module ThesisFacts.
Import ThesisSearcher ExtractFacts.

Section WithDigits.
Variable isdecimal : char → bool.

Lemma re_search_d4_cons a t :
  re_search_d4 isdecimal (a :: t) =
    match t with
    | b :: c :: d :: _ =>
        if isdecimal a && isdecimal b && isdecimal c && isdecimal d
        then Some [a; b; c; d]
        else re_search_d4 isdecimal t
    | _ => None
    end.
Proof. destruct t as [|b [|c [|d r]]]; reflexivity. Qed.

Lemma run_at_length text pre run : run_at isdecimal text pre run → 4 ≤ length text.
Proof.
  intros (post & -> & Hlen & _). rewrite !length_app. lia.
Qed.

Lemma run_at_cons a t pre run :
  run_at isdecimal t pre run → run_at isdecimal (a :: t) (a :: pre) run.
Proof. intros (post & -> & H). by exists post. Qed.

(** A run at the very start of [a :: b :: c :: d :: r] is [a; b; c; d]. *)
Lemma run_at_head a b c d r run :
  run_at isdecimal (a :: b :: c :: d :: r) [] run →
  isdecimal a && isdecimal b && isdecimal c && isdecimal d = true.
Proof.
  intros (post & H & Hlen & Hdig). simpl in H.
  destruct run as [|a' [|b' [|c' [|d' [|? ?]]]]]; try discriminate Hlen.
  injection H as -> -> -> -> _. simpl in Hdig.
  by rewrite andb_true_r, !andb_assoc in Hdig.
Qed.

Lemma run_at_tail a t pre run :
  run_at isdecimal (a :: t) pre run → pre ≠ [] →
  ∃ pre', pre = a :: pre' ∧ run_at isdecimal t pre' run.
Proof.
  intros (post & H & Hrun) Hne. destruct pre as [|a' pre']; [done|].
  simpl in H. injection H as <- ->. exists pre'. split; [done|].
  by exists post.
Qed.

(** [re.search(r'(\d{4})', text)] finds the first four-digit run, and
    finds none only when there is none. *)
Lemma re_search_d4_spec text :
  match re_search_d4 isdecimal text with
  | Some run => first_run isdecimal text run
  | None => no_run isdecimal text
  end.
Proof.
  induction text as [|a t IH].
  - intros pre run H. apply run_at_length in H. simpl in H. lia.
  - rewrite re_search_d4_cons.
    destruct t as [|b [|c [|d r]]];
      try (intros pre run H; apply run_at_length in H; simpl in H; lia).
    destruct (isdecimal a && isdecimal b && isdecimal c && isdecimal d)
      eqn:Htest.
    + exists []. split.
      * exists r. split; [done|]. split; [done|]. simpl.
        by rewrite andb_true_r, !andb_assoc.
      * intros pre' run' _. simpl. lia.
    + destruct (re_search_d4 isdecimal (b :: c :: d :: r)) as [run|].
      * destruct IH as (pre & Hat & Hmin). exists (a :: pre). split.
        { by apply run_at_cons. }
        intros pre' run' H'. destruct pre' as [|a' pre''].
        { apply run_at_head in H'. congruence. }
        apply run_at_tail in H' as (p' & [= <- <-] & H'); [|done].
        apply Hmin in H'. simpl. lia.
      * intros pre' run' H'. destruct pre' as [|a' pre''].
        { apply run_at_head in H'. congruence. }
        apply run_at_tail in H' as (p' & [= <- <-] & H'); [|done].
        by apply IH in H'.
Qed.

Lemma first_run_unique text r1 r2 :
  first_run isdecimal text r1 → first_run isdecimal text r2 → r1 = r2.
Proof.
  intros (p1 & H1 & M1) (p2 & H2 & M2).
  pose proof (M1 _ _ H2) as L1. pose proof (M2 _ _ H1) as L2.
  destruct H1 as (q1 & E1 & Hl1 & _). destruct H2 as (q2 & E2 & Hl2 & _).
  rewrite E1 in E2. apply app_inj_1 in E2 as [_ E2]; [|lia].
  apply app_inj_1 in E2 as [E2 _]; [done | congruence].
Qed.

(** The year of [get_cnki_paper_details]: the first four-digit run of the
    text, or its first four characters when there is no such run. *)
Lemma year_of_text_spec text :
  (∀ run, first_run isdecimal text run → year_of_text isdecimal text = run)
  ∧ (no_run isdecimal text → year_of_text isdecimal text = take 4 text).
Proof.
  unfold year_of_text. pose proof (re_search_d4_spec text) as H.
  destruct (re_search_d4 isdecimal text) as [run0|]; split.
  - intros run Hrun. by apply (first_run_unique text).
  - intros Hno. destruct H as (pre & Hat & _). by apply Hno in Hat.
  - intros run (pre & Hat & _). by apply H in Hat.
  - done.
Qed.

Section WithWeb.
Variable web : Web.

Lemma get_cnki_paper_details_eq u :
  get_cnki_paper_details web isdecimal u =
    ([u], Ok (match web u with
              | Some resp =>
                  match extract_cnki isdecimal u (soup resp) with
                  | Ok v => v
                  | Raise _ => None
                  end
              | None => None
              end)).
Proof.
  unfold get_cnki_paper_details, flatten_none, mbind, IO_bind, bind,
    requests_get, lift. simpl.
  destruct (web u) as [resp|]; simpl; [|reflexivity].
  destruct (extract_cnki isdecimal u (soup resp)); reflexivity.
Qed.

Lemma get_cnki_paper_details_some u p :
  (get_cnki_paper_details web isdecimal u).2 = Ok (Some p) →
  ∃ resp, web u = Some resp
          ∧ extract_cnki isdecimal u (soup resp) = Ok (Some p).
Proof.
  rewrite get_cnki_paper_details_eq. simpl.
  destruct (web u) as [resp|]; [|done].
  destruct (extract_cnki isdecimal u (soup resp)) as [v|] eqn:E; [|done].
  intros [= ->]. eauto.
Qed.

Lemma get_arxiv_paper_details_eq u :
  get_arxiv_paper_details web u =
    ([u], Ok (match web u with
              | Some resp =>
                  match extract_arxiv u (soup resp) with
                  | Ok v => v
                  | Raise _ => None
                  end
              | None => None
              end)).
Proof.
  unfold get_arxiv_paper_details, flatten_none, mbind, IO_bind, bind,
    requests_get, lift. simpl.
  destruct (web u) as [resp|]; simpl; [|reflexivity].
  destruct (extract_arxiv u (soup resp)); reflexivity.
Qed.

Lemma get_arxiv_paper_details_some u p :
  (get_arxiv_paper_details web u).2 = Ok (Some p) →
  ∃ resp, web u = Some resp ∧ extract_arxiv u (soup resp) = Ok (Some p).
Proof.
  rewrite get_arxiv_paper_details_eq. simpl.
  destruct (web u) as [resp|]; [|done].
  destruct (extract_arxiv u (soup resp)) as [v|] eqn:E; [|done].
  intros [= ->]. eauto.
Qed.

End WithWeb.

Lemma if_titled_some p0 p :
  if_titled p0 = Some p → p = p0 ∧ ∃ t, title p = Val t ∧ t ≠ [].
Proof.
  unfold if_titled. destruct (title p0) as [| |[|c t]] eqn:Ht; simpl; try done.
  intros [= <-]. split; [done|]. exists (c :: t). by rewrite Ht.
Qed.

(** The fields of a record that [get_cnki_paper_details] returns. *)
Lemma extract_cnki_fields u soup p :
  extract_cnki isdecimal u soup = Ok (Some p) →
  (∃ t, title p = Val t ∧ t ≠ [])
  ∧ title p = text_or_none (or_else (select_one (py "#mainTitle") soup)
                                     (select_one (py "h1") soup))
  ∧ journal p = text_or_none (select_one (py ".journal-name") soup)
  ∧ year p = match select_one (py ".publish-date") soup with
             | Some e => Val (year_of_text isdecimal (get_text_strip e))
             | None => Missing
             end
  ∧ (select_one (meta_name "citation_doi") soup = None → doi p = PyNone).
Proof.
  unfold extract_cnki. intros H.
  destruct (PaperSearcher.set_doi_meta soup _) as [p1|] eqn:Hdoi; [|done].
  simpl in H. injection H as H. apply if_titled_some in H as [-> Ht].
  apply set_doi_meta_ok in Hdoi as (v & -> & Hv & _).
  split; [exact Ht|].
  destruct (select_one (py ".publish-date") soup); simpl; repeat split; done.
Qed.

(** The fields of a record that [get_arxiv_paper_details] returns. *)
Lemma extract_arxiv_fields u soup p :
  extract_arxiv u soup = Ok (Some p) →
  (∃ t, title p = Val t ∧ t ≠ [])
  ∧ meta_entry (meta_name "citation_journal_title") soup
      (Val (py "arXiv preprint")) = Ok (journal p)
  ∧ (select_one (meta_name "citation_date") soup = None → year p = PyNone)
  ∧ (∀ e, select_one (meta_name "citation_date") soup = Some e →
          ∃ c, tag_get (py "content") e = Some c ∧ year p = Val (take 4 c))
  ∧ (select_one (meta_name "citation_doi") soup = None → doi p = PyNone).
Proof.
  unfold extract_arxiv, meta_entry, tag_item.
  destruct (select_one (meta_name "citation_title") soup) as [te|];
    [destruct (tag_get (py "content") te); [|done]|];
    (destruct (select_one (meta_name "citation_journal_title") soup) as [je|];
     [destruct (tag_get (py "content") je); [|done]|]);
    (destruct (select_one (meta_name "citation_date") soup) as [ye|];
     [destruct (tag_get (py "content") ye) as [yc|] eqn:Hyc; [|done]|]);
    simpl; intros H;
    (destruct (PaperSearcher.set_doi_meta soup _) as [rec|] eqn:Hdoi; [|done]);
    simpl in H; injection H as H; apply if_titled_some in H as [-> Ht];
    apply set_doi_meta_ok in Hdoi as (v & -> & Hv & _);
    (split; [exact Ht|]); simpl; repeat split; try done;
    intros e [= <-]; eauto.
Qed.

(** Without a usable title both extractors return [None]. *)
Lemma extract_cnki_untitled u soup :
  no_match [py "#mainTitle"; py "h1"] soup →
  match extract_cnki isdecimal u soup with
  | Ok v => v = None
  | Raise _ => True
  end.
Proof.
  intros Hn. unfold extract_cnki. rewrite (no_match_2 _ _ _ Hn).
  destruct (PaperSearcher.set_doi_meta soup _) as [rec|] eqn:Hdoi; [|done].
  apply set_doi_meta_ok in Hdoi as (v & -> & _). simpl.
  by destruct (select_one (py ".publish-date") soup).
Qed.

Lemma extract_arxiv_untitled u soup :
  no_match [meta_name "citation_title"] soup →
  match extract_arxiv u soup with
  | Ok v => v = None
  | Raise _ => True
  end.
Proof.
  intros Hn. unfold extract_arxiv, tag_item. rewrite (no_match_1 _ _ Hn).
  destruct (select_one (meta_name "citation_journal_title") soup) as [je|];
    [destruct (tag_get (py "content") je); [|done]|];
    (destruct (select_one (meta_name "citation_date") soup) as [ye|];
     [destruct (tag_get (py "content") ye); [|done]|]);
    simpl;
    (destruct (PaperSearcher.set_doi_meta soup _) as [rec|] eqn:Hdoi; [|done]);
    apply set_doi_meta_ok in Hdoi as (v & -> & _); done.
Qed.

End WithDigits.

End ThesisFacts.

(** ** [search_academic_paper] and [verify_reference] *)

Module PaperSearchFacts.
Import PaperSearch ExtractFacts.

Lemma search_academic_paper_eq web u plat :
  search_academic_paper web u plat =
    ([u], Ok (match web u with
              | Some resp =>
                  match parse u plat (soup resp) with
                  | Ok p => Some p
                  | Raise _ => None
                  end
              | None => None
              end)).
Proof.
  unfold search_academic_paper, try_none, mbind, IO_bind, bind,
    requests_get, lift. simpl.
  destruct (web u) as [resp|]; simpl; [|reflexivity].
  destruct (parse u plat (soup resp)); reflexivity.
Qed.

Lemma search_academic_paper_some web u plat p :
  (search_academic_paper web u plat).2 = Ok (Some p) →
  ∃ resp, web u = Some resp ∧ parse u plat (soup resp) = Ok p.
Proof.
  rewrite search_academic_paper_eq. simpl.
  destruct (web u) as [resp|]; [|done].
  destruct (parse u plat (soup resp)) eqn:E; [|done].
  intros [= ->]. eauto.
Qed.

(** With no selector of the branch matching, the record is returned as it
    was initialised. *)
Lemma parse_unmatched u plat soup :
  no_match (selectors plat) soup → parse u plat soup = Ok (initial u plat).
Proof.
  unfold selectors, parse. fold (initial u plat).
  repeat case_bool_decide; intros Hn.
  - unfold parse_nih.
    inversion Hn as [|? ? M1 Hn2]. inversion Hn2 as [|? ? M2 Hn3].
    inversion Hn3 as [|? ? M3 Hn4]. apply Forall_inv in Hn4.
    by rewrite M1, M2, M3, Hn4.
  - unfold parse_hanspub.
    inversion Hn as [|? ? M1 Hn2]. inversion Hn2 as [|? ? M2 Hn3].
    apply Forall_inv in Hn3. by rewrite M1, M2, Hn3.
  - unfold parse_wikipedia. apply Forall_inv in Hn. by rewrite Hn.
  - done.
Qed.

(** [verify_reference] passes only records whose title and url are
    non-empty strings. *)
Lemma verify_reference_true p :
  verify_reference p = true ↔
  (∃ t, title p = Val t ∧ t ≠ []) ∧ (∃ u, url p = Val u ∧ u ≠ []).
Proof.
  unfold verify_reference, field_ok. rewrite andb_true_iff.
  destruct (title p) as [| |[|c t]], (url p) as [| |[|d u]]; simpl;
    (split; intros Hv;
     [ try (destruct Hv; discriminate)
     | try (destruct Hv as [(? & ? & ?) (? & ? & ?)]; congruence) ]).
  - split; eexists; (split; [reflexivity | done]).
  - done.
Qed.

End PaperSearchFacts.

(** ** The pipelines *)

Module PipelineFacts.
Import ExtractFacts ThesisFacts DedupeFacts.

Lemma bind_ok {A B} (m : IO A) (k : A → IO B) b :
  (m ≫= k).2 = Ok b → ∃ a, m.2 = Ok a ∧ (k a).2 = Ok b.
Proof.
  unfold mbind, IO_bind, bind. destruct m as [l [a|e]]; simpl; [eauto|done].
Qed.

Lemma truthy_title p :
  truthy (dict_get (title p)) = true ↔ titled_record p.
Proof.
  unfold titled_record. destruct (title p) as [| |[|c t]]; simpl; split;
    try done; try (intros (? & ? & ?); congruence).
  intros _. by exists (c :: t).
Qed.

(** [search_and_extract] keeps a record only when its title is usable. *)
Lemma extract_all_titled web plat urls :
  ∀ out, (PaperSearcher.extract_all web plat urls).2 = Ok out →
         Forall titled_record out.
Proof.
  induction urls as [|u urls IH]; intros out H; simpl in H.
  - injection H as <-. constructor.
  - apply bind_ok in H as (paper & _ & H).
    apply bind_ok in H as (rest & Hrest & H). apply IH in Hrest.
    destruct paper as [p|]; [|by injection H as <-].
    destruct (truthy (dict_get (title p))) eqn:Ht; injection H as <-; [|done].
    constructor; [by apply truthy_title | done].
Qed.

Lemma search_and_extract_titled web kw plat c out :
  (PaperSearcher.search_and_extract web kw plat c).2 = Ok out →
  Forall titled_record out.
Proof.
  unfold PaperSearcher.search_and_extract. intros H.
  apply bind_ok in H as (urls & _ & H). by apply extract_all_titled in H.
Qed.

Section Main.
Variable web : Web.
Variable isdecimal : char → bool.
Variable P : Paper → Prop.

Lemma collect_inv details urls :
  (∀ u p, (details u).2 = Ok (Some p) → P p) →
  ∀ acc out, Forall P acc →
    (ThesisSearcher.collect details urls acc).2 = Ok out → Forall P out.
Proof.
  intros Hd. induction urls as [|u urls IH]; intros acc out Hacc H;
    simpl in H.
  - by injection H as <-.
  - apply bind_ok in H as (paper & Hp & H).
    destruct paper as [p|]; [|by eapply IH].
    destruct (truthy (dict_get (title p))); [|by eapply IH].
    eapply IH; [|exact H]. apply Forall_app. split; [done|].
    apply Forall_singleton. by eapply Hd.
Qed.

Lemma per_keyword_inv search details kws :
  (∀ u p, (details u).2 = Ok (Some p) → P p) →
  ∀ acc out, Forall P acc →
    (ThesisSearcher.per_keyword search details kws acc).2 = Ok out →
    Forall P out.
Proof.
  intros Hd. induction kws as [|kw kws IH]; intros acc out Hacc H;
    simpl in H.
  - by injection H as <-.
  - apply bind_ok in H as (urls & _ & H).
    apply bind_ok in H as (acc' & Hc & H).
    eapply IH; [|exact H]. by eapply collect_inv.
Qed.

End Main.

(** Every record that [main] returns, and writes to its output file, is a
    record returned by one of the two extractors, unchanged. *)
Lemma main_records web isdecimal out :
  (ThesisSearcher.main web isdecimal).2 = Ok out →
  Forall (λ p, ∃ u,
            (ThesisSearcher.get_cnki_paper_details web isdecimal u).2
              = Ok (Some p)
            ∨ (ThesisSearcher.get_arxiv_paper_details web u).2 = Ok (Some p))
         out.
Proof.
  unfold ThesisSearcher.main. intros H.
  apply bind_ok in H as (a1 & H1 & H). apply bind_ok in H as (a2 & H2 & H).
  unfold lift in H. simpl in H.
  match goal with |- Forall ?Q _ => set (origin := Q) end.
  assert (Forall origin a1) as F1.
  { eapply (per_keyword_inv origin); [|constructor|exact H1].
    intros u p Hu. exists u. by left. }
  assert (Forall origin a2) as F2.
  { eapply (per_keyword_inv origin); [|exact F1|exact H2].
    intros u p Hu. exists u. by right. }
  pose proof (dedupe_ok_titles _ _ H) as Ht.
  destruct (dedupe_shape a2 Ht out H) as (Hsub & _).
  apply Forall_forall. intros p Hp.
  eapply Forall_forall in F2; [exact F2|]. by eapply elem_of_sublist.
Qed.

End PipelineFacts.

(** ** The model on concrete inputs *)

Module Examples.
Import PaperSearcher ThesisSearcher PaperSearch ThesisFacts SearchFacts.

Example strip_spaces : py_strip (py "  a b  ") = py "a b".
Proof. reflexivity. Qed.

(** U+3000, the ideographic space, is white space; U+200B is not. *)
Example strip_ideographic_space :
  py_strip ([0x3000; 0x41; 0x200B; 0x3000]%N) = [0x41; 0x200B]%N.
Proof. reflexivity. Qed.

Example slice_examples :
  py_slice_to 2 [1; 2; 3] = [1; 2] ∧ py_slice_to 5 [1; 2; 3] = [1; 2; 3]
  ∧ py_slice_to 0 [1; 2; 3] = [] ∧ py_slice_to (-1) [1; 2; 3] = [1; 2]
  ∧ py_slice_to (-7) [1; 2; 3] = [].
Proof. repeat split. Qed.

Example join_example :
  py_join (py ", ") [py "A"; py "B"; py "C"] = py "A, B, C"
  ∧ py_join (py ", ") [py "A"] = py "A" ∧ py_join (py ", ") [] = [].
Proof. repeat split. Qed.

Example split_example :
  py_split 0x2C%N (py "a,b,,c") = [py "a"; py "b"; []; py "c"]
  ∧ py_split 0x2C%N [] = [[]].
Proof. repeat split. Qed.

Example replace_example :
  py_replace (py "ab") (py "-") (py "xababyaab") = py "x--ya-".
Proof. reflexivity. Qed.

Example str_int_example :
  py_str_int 0 = py "0" ∧ py_str_int 20 = py "20"
  ∧ py_str_int (-15) = py "-15".
Proof. repeat split. Qed.

Example url_line_example :
  url_line = 10%N :: py "SourceURL: ".
Proof. reflexivity. Qed.

Example meta_name_example :
  meta_name "citation_doi" = py "meta[name=" ++ [0x22%N] ++ py "citation_doi"
                               ++ [0x22%N] ++ py "]".
Proof. reflexivity. Qed.

Example get_text_example :
  get_text_strip (mkTag [py "  Graph "; py "   "; py " Theory "] [] [])
  = py "GraphTheory".
Proof. reflexivity. Qed.

Example re_search_example :
  re_search_d4 ascii_digit (py "Vol. 12, 20231105") = Some (py "2023")
  ∧ re_search_d4 ascii_digit (py "May 12") = None
  ∧ year_of_text ascii_digit (py "May 12") = py "May ".
Proof. repeat split. Qed.

(** An author line of a hanspub page. *)
Example hanspub_authors :
  let page :=
    mkTag [] []
      [(py "div.author",
        [mkTag [author_label ++ py " Li Lei , Han Mei"] [] []])] in
  option_map authors
    (match parse (py "u") (py "hanspub") page with
     | Ok p => Some p
     | Raise _ => None
     end)
  = Some (Val [py "Li Lei"; py "Han Mei"]).
Proof. reflexivity. Qed.

(** A record with every field present. *)
Example reference_example :
  generate_reference
    (mkPaper (Val (py "https://example.org/1")) (Val (py "cnki"))
       (Val (py "Graph Theory")) (Val [py "A. Author"; py "B. Author"])
       (Val (py "Notes")) (Val (py "2020")) (Val (py "10.1/xyz")) Missing)
  = ref_head
      ++ py "A. Author, B. Author. Graph Theory[J]. Notes, 2020. DOI: 10.1/xyz"
      ++ url_line ++ py "https://example.org/1".
Proof. reflexivity. Qed.

(** A record with nothing but its address: every placeholder shows. *)
Example reference_placeholders :
  generate_reference (new_paper (py "https://example.org/1") (py "cnki"))
  = ref_head ++ unknown_authors ++ py ". " ++ unknown_title ++ py "[J]. "
      ++ unknown_journal ++ py ", 0000"
      ++ url_line ++ py "https://example.org/1".
Proof. reflexivity. Qed.

Example arxiv_end_to_end :
  let run := search_and_extract arxiv_web (py "deep learning") (py "arxiv") 3 in
  run.1 = [py "https://arxiv.org/search/?query=deep learning"
             ++ py "&search_type=all&max_results=3";
           py "https://arxiv.org/abs/1"; py "https://arxiv.org/abs/2";
           py "https://arxiv.org/abs/3"]
  ∧ option_map (map (λ p, (title p, year p, journal p)))
      (match run.2 with Ok ps => Some ps | Raise _ => None end)
    = Some [(Val (py "Deep Learning"), Val (py "2015"), Val (py "arXiv"));
            (Val (py "Deep Residual Learning"), Val (py "2015"),
             Val (py "arXiv"));
            (Val (py "Attention"), Val (py "2017"), Val (py "arXiv"))].
Proof. split; vm_compute; reflexivity. Qed.

End Examples.

(** ** The claims *)

Import DedupeFacts.

(** C1, as stated, fails: the de-duplication key is the stripped title,
    neither whitespace-collapsed nor case-folded, so "graph   theory" is
    kept next to "Graph Theory". *)
Lemma dedupe_case_and_spacing_counterexample :
  let A := titled "uA" "Graph Theory" in
  let B := titled "uB" "graph   theory" in
  let C := titled "uC" "Other" in
  Dedupe.dedupe [A; B; C] = Ok [A; B; C] ∧
  Dedupe.dedupe [A; B; C] ≠ Ok [A; C].
Proof. split; [vm_compute; reflexivity | vm_compute; discriminate]. Qed.

(** C1 (amended): de-duplication keys records by the stripped title and
    keeps the first-seen record of each non-empty key.  For every input
    without a [None] title the loop returns; its output is a subsequence
    of the input (first-seen order), holds no two records with the same
    key, covers every non-empty key of the input, and holds each record
    that is the first of its key.  For titles "Graph Theory",
    "graph   theory", "Other" all three records are kept; a later
    " Graph Theory " is dropped. *)
Theorem dedupe_first_seen_by_stripped_title (ps : list Paper) :
  Forall (λ p, title p ≠ PyNone) ps →
  (∃ out, Dedupe.dedupe ps = Ok out
     ∧ sublist out ps
     ∧ NoDup (map title_key out)
     ∧ (∀ p, p ∈ ps → title_key p ≠ [] →
          ∃ q, q ∈ out ∧ title_key q = title_key p)
     ∧ (∀ pre p post, ps = pre ++ p :: post →
          title_key p ≠ [] → title_key p ∉ map title_key pre → p ∈ out))
  ∧ (∀ A B C,
       title A = Val (py "Graph Theory") →
       title B = Val (py "graph   theory") →
       title C = Val (py "Other") →
       Dedupe.dedupe [A; B; C] = Ok [A; B; C])
  ∧ (∀ A B C,
       title A = Val (py "Graph Theory") →
       title B = Val (py " Graph Theory ") →
       title C = Val (py "Other") →
       Dedupe.dedupe [A; B; C] = Ok [A; C]).
Proof.
  intros Hall. split; [|split].
  - destruct (dedupe_total ps Hall) as [out Hout]. exists out.
    destruct (dedupe_shape ps Hall out Hout) as (Hsub & Hnd & _ & Hkeys).
    split; [done|]. split; [done|]. split; [done|]. split.
    + intros p Hp Hk.
      assert (title_key p ∈ map title_key out) as Hin.
      { apply Hkeys. split; [done|]. by apply list_elem_of_fmap_2. }
      apply list_elem_of_fmap in Hin as (q & Hq & Hqin). eauto.
    + intros pre p post -> Hk Hnew.
      apply Forall_app in Hall as [Hpre Hrest].
      pose proof (Forall_inv Hrest) as Hp.
      destruct (dedupe_total pre Hpre) as [out_pre Hout_pre].
      pose proof (dedupe_snoc pre p out_pre Hpre Hp Hout_pre) as Hsnoc.
      rewrite decide_True in Hsnoc by done.
      replace (pre ++ p :: post) with ((pre ++ [p]) ++ post) in Hout
        by (by rewrite <- app_assoc).
      destruct (dedupe_prefix _ _ _ _ Hsnoc Hout) as [rest ->].
      rewrite !elem_of_app, list_elem_of_singleton. auto.
  - intros A B C HA HB HC. unfold Dedupe.dedupe, Dedupe.loop, Dedupe.step,
      Dedupe.key. rewrite HA, HB, HC. vm_compute. reflexivity.
  - intros A B C HA HB HC. unfold Dedupe.dedupe, Dedupe.loop, Dedupe.step,
      Dedupe.key. rewrite HA, HB, HC. vm_compute. reflexivity.
Qed.

Lemma dedupe_first_seen_by_stripped_title_witness :
  Forall (λ p, title p ≠ PyNone)
    [titled "uA" "Graph Theory"; titled "uB" " Graph Theory "] ∧
  ∃ out, Dedupe.dedupe
           [titled "uA" "Graph Theory"; titled "uB" " Graph Theory "]
         = Ok out.
Proof.
  assert (Forall (λ p, title p ≠ PyNone)
            [titled "uA" "Graph Theory"; titled "uB" " Graph Theory "]) as H.
  { repeat constructor; discriminate. }
  split; [exact H|].
  destruct (dedupe_first_seen_by_stripped_title _ H) as [(out & Hout & _) _].
  exists out. exact Hout.
Defined.

(** C3, as stated, fails: a record whose stripped title is empty is not
    kept at all; the two records with title "" both disappear. *)
Lemma dedupe_empty_titles_counterexample :
  let r1 := titled "u1" "" in
  let r2 := titled "u2" "" in
  Dedupe.dedupe [r1; r2] = Ok [] ∧ Dedupe.dedupe [r1; r2] ≠ Ok [r1; r2].
Proof. split; [vm_compute; reflexivity | vm_compute; discriminate]. Qed.

(** C3 (amended): for every input sequence, records whose stripped title
    is empty are never compared with each other and every one of them is
    dropped: the output is that of the input with these records removed,
    and holds no record with an empty key; for two records with title ""
    the output is empty. *)
Theorem dedupe_drops_empty_titles (ps : list Paper) :
  Forall (λ p, title p ≠ PyNone) ps →
  Dedupe.dedupe ps = Dedupe.dedupe (filter (λ p, title_key p ≠ []) ps)
  ∧ (∀ out, Dedupe.dedupe ps = Ok out → Forall (λ p, title_key p ≠ []) out)
  ∧ (∀ r1 r2, title r1 = Val [] → title r2 = Val [] →
       Dedupe.dedupe [r1; r2] = Ok []).
Proof.
  intros Hall. split; [|split].
  - unfold Dedupe.dedupe. by rewrite (loop_filter ps Hall).
  - intros out Hout.
    by destruct (dedupe_shape ps Hall out Hout) as (_ & _ & ? & _).
  - intros r1 r2 H1 H2. unfold Dedupe.dedupe, Dedupe.loop, Dedupe.step,
      Dedupe.key. rewrite H1, H2. reflexivity.
Qed.

Lemma dedupe_drops_empty_titles_witness :
  Forall (λ p, title p ≠ PyNone) [titled "u1" ""; titled "u2" "Other"] ∧
  Dedupe.dedupe [titled "u1" ""; titled "u2" "Other"]
  = Dedupe.dedupe
      (filter (λ p, title_key p ≠ []) [titled "u1" ""; titled "u2" "Other"]).
Proof.
  assert (Forall (λ p, title p ≠ PyNone)
            [titled "u1" ""; titled "u2" "Other"]) as H.
  { repeat constructor; discriminate. }
  split; [exact H|].
  exact (proj1 (dedupe_drops_empty_titles _ H)).
Defined.

Import SearchFacts.

(** C5, as stated, fails: on a page whose first container has no link and
    whose next twenty containers each have one, a cap of 5 gives four
    URLs, not five. *)
Lemma cap_returns_exactly_five_counterexample :
  let page :=
    cnki_page (unlinked ::
               map (λ n, linked (py "/detail/" ++ py_str_int (Z.of_nat n)))
                   (seq 1 20)) in
  length (all_links (py ".result-list li") (py "a") [] page) = 20 ∧
  ∃ urls,
    (PaperSearcher.search_papers (serve page) (py "graph") (py "cnki") 5).2
      = Ok urls ∧ length urls = 4 ∧ length urls ≠ 5.
Proof.
  split; [vm_compute; reflexivity|].
  eexists. split; [vm_compute; reflexivity|].
  split; [reflexivity | vm_compute; discriminate].
Qed.

(** C5 (amended): for every fetched search page and every cap [c > 0],
    [search_papers] returns, without error, at most [c] URLs: the links of
    the first [c] result containers, and nothing else, which form a prefix
    of the page's links in document order.  When each of those containers
    has a link with a non-empty href, they are exactly the first [c] links
    of the page (all of them when there are fewer), one for each
    container; in particular a page of 20 containers that all have a link
    gives, for cap 5, exactly the first 5 URLs. *)
Theorem search_papers_honors_cap web kw plat c url resp i l b :
  (0 < c)%Z →
  assoc plat (PaperSearcher.search_urls kw c) = Some url →
  web url = Some resp → status_ok resp →
  profile plat = Some (i, l, b) →
  ∃ urls,
    PaperSearcher.search_papers web kw plat c = ([url], Ok urls)
    ∧ length urls ≤ Z.to_nat c
    ∧ links_of l b (take (Z.to_nat c) (select i (soup resp))) urls
    ∧ (∀ urls', links_of l b (take (Z.to_nat c) (select i (soup resp))) urls' →
         urls' = urls)
    ∧ links_of l b (select i (soup resp)) (all_links i l b (soup resp))
    ∧ urls `prefix_of` all_links i l b (soup resp)
    ∧ (Forall (has_link l) (take (Z.to_nat c) (select i (soup resp))) →
       urls = take (Z.to_nat c) (all_links i l b (soup resp))
       ∧ Forall2 (link_at l b) (take (Z.to_nat c) (select i (soup resp))) urls
       ∧ length urls = Z.to_nat c `min` length (select i (soup resp)))
    ∧ (c = 5%Z → length (select i (soup resp)) = 20 →
       Forall (has_link l) (select i (soup resp)) →
       urls = take 5 (all_links i l b (soup resp))
       ∧ Forall2 (link_at l b) (take 5 (select i (soup resp))) urls
       ∧ length urls = 5).
Proof.
  intros Hc Hurl Hweb Hst Hprof.
  assert (0 ≤ c)%Z as Hc0 by lia.
  pose proof (collect_urls_links i l b c (soup resp) Hc0) as Hlinks.
  assert (∀ n, Forall (has_link l) (take n (select i (soup resp))) →
               Forall (λ item, is_Some (item_url l b item))
                      (take n (select i (soup resp)))) as Hsome.
  { intros n Hn. eapply Forall_impl; [exact Hn|].
    intros item. apply item_url_has_link. }
  exists (collect_urls i l b c (soup resp)).
  split; [by apply search_papers_ok|].
  split; [by apply collect_urls_length|].
  split; [exact Hlinks|].
  split; [intros urls' H'; exact (links_of_unique _ _ _ _ _ H' Hlinks)|].
  split; [apply omap_links_of|].
  split; [by apply collect_urls_prefix|].
  split.
  - intros Hall.
    destruct (collect_urls_all i l b c (soup resp) Hc0 (Hsome _ Hall))
      as [Heq Hlen].
    split; [exact Heq|]. split; [by apply links_of_all | exact Hlen].
  - intros -> Hlen Hall.
    assert (Forall (has_link l) (take 5 (select i (soup resp)))) as Hall5
      by by apply Forall_take.
    destruct (collect_urls_all i l b 5 (soup resp) Hc0 (Hsome 5%nat Hall5))
      as [Heq Hl].
    split; [exact Heq|]. split; [by apply links_of_all|].
    rewrite Hl, Hlen. reflexivity.
Qed.

Lemma search_papers_honors_cap_witness :
  let items := [unlinked; linked (py "/a"); linked (py "/b")] in
  ∃ urls,
    PaperSearcher.search_papers (serve (cnki_page items)) (py "graph")
      (py "cnki") 2
      = ([py "https://search.cnki.com.cn/Search/Result?content=graph"],
         Ok urls)
    ∧ length urls ≤ 2
    ∧ links_of (py "a") [] (take 2 items) urls
    ∧ urls = [py "/a"].
Proof.
  intros items.
  destruct (search_papers_honors_cap (serve (cnki_page items)) (py "graph")
              (py "cnki") 2
              (py "https://search.cnki.com.cn/Search/Result?content=graph")
              (mkResponse 200 (cnki_page items)) (py ".result-list li")
              (py "a") [])
    as (urls & Hrun & Hlen & Hlinks & _).
  - lia.
  - reflexivity.
  - reflexivity.
  - unfold status_ok. simpl. lia.
  - reflexivity.
  - exists urls. split; [exact Hrun|]. split; [exact Hlen|].
    split; [exact Hlinks|].
    vm_compute in Hrun. injection Hrun as <-. vm_compute. reflexivity.
Defined.

(** C8: for every keyword and cap, [search_papers] with a platform that is
    not a key of [search_urls] raises [ValueError] ("Unsupported
    platform: ...") with no request issued, and the error is not recovered:
    it leaves [search_papers], and [search_and_extract] as well, again with
    no request issued. *)
Theorem unsupported_platform_raises_before_any_request web kw plat c :
  plat ∉ supported →
  PaperSearcher.search_papers web kw plat c
    = ([], Raise (ValueError (py "Unsupported platform: " ++ plat)))
  ∧ PaperSearcher.search_and_extract web kw plat c
    = ([], Raise (ValueError (py "Unsupported platform: " ++ plat))).
Proof.
  intros H.
  assert (PaperSearcher.search_papers web kw plat c
          = ([], Raise (ValueError (py "Unsupported platform: " ++ plat))))
    as Hs.
  { unfold PaperSearcher.search_papers.
    by rewrite (assoc_search_urls_none kw c plat H). }
  split; [exact Hs|].
  unfold PaperSearcher.search_and_extract, mbind, IO_bind, bind.
  rewrite Hs. reflexivity.
Qed.

Lemma unsupported_platform_raises_before_any_request_witness :
  (py "pubmed" ∉ supported) ∧
  PaperSearcher.search_papers (λ _, None) (py "graph") (py "pubmed") 5
    = ([], Raise (ValueError (py "Unsupported platform: pubmed"))).
Proof.
  assert (py "pubmed" ∉ supported) as H.
  { intros Hin. apply list_elem_of_In in Hin. vm_compute in Hin.
    intuition discriminate. }
  split; [exact H|].
  exact (proj1 (unsupported_platform_raises_before_any_request
                  (λ _, None) (py "graph") (py "pubmed") 5 H)).
Defined.

(** C10: [search_papers] (and [search_cnki]) cut the list of result
    containers to the cap before looking for a link in each container.
    So for every cap [c >= 1] and keyword there is a page with at least
    [c] valid result links on which no URL at all is returned; and on the
    page whose three containers are one without a link followed by two
    with a link, a cap of 2 returns a single URL. *)
Theorem cap_applied_before_link_check :
  (∀ (c : positive) (kw : pystr), ∃ page req,
     Pos.to_nat c ≤ length (all_links (py ".result-list li") (py "a") [] page)
     ∧ PaperSearcher.search_papers (serve page) kw (py "cnki") (Z.pos c)
       = (req, Ok [])
     ∧ ThesisSearcher.search_cnki (serve page) kw (Z.pos c) = (req, Ok []))
  ∧ (let page :=
       cnki_page [unlinked; linked (py "/a"); linked (py "/b")] in
     all_links (py ".result-list li") (py "a") [] page = [py "/a"; py "/b"]
     ∧ (PaperSearcher.search_papers (serve page) (py "graph") (py "cnki") 2).2
       = Ok [py "/a"]
     ∧ (ThesisSearcher.search_cnki (serve page) (py "graph") 2).2
       = Ok [py "/a"]).
Proof.
  split.
  - intros c kw.
    set (n := Pos.to_nat c).
    set (page := cnki_page (replicate n unlinked
                              ++ replicate n (linked (py "/a")))).
    assert (collect_urls (py ".result-list li") (py "a") [] (Z.pos c) page = [])
      as Hcol.
    { unfold collect_urls, page. rewrite py_slice_to_nonneg by lia.
      rewrite select_cnki_page. change (Z.to_nat (Z.pos c)) with n.
      rewrite take_app_length' by (by rewrite length_replicate).
      by apply omap_replicate_none. }
    exists page, [py "https://search.cnki.com.cn/Search/Result?content=" ++ kw].
    split; [|split].
    + unfold all_links, page. rewrite select_cnki_page, omap_app.
      rewrite (omap_replicate_none _ n unlinked) by reflexivity.
      rewrite (omap_replicate_some _ n (linked (py "/a")) (py "/a"))
        by reflexivity.
      simpl. by rewrite length_replicate.
    + rewrite <- Hcol.
      apply (search_papers_ok (serve page) kw (py "cnki") (Z.pos c) _
               (mkResponse 200 page)); try reflexivity.
      unfold status_ok. simpl. lia.
    + rewrite search_cnki_eq. simpl. by rewrite Hcol.
  - vm_compute. auto.
Qed.

Import ReferenceFacts StrFacts.

(** C6, as stated, fails: a record without a doi whose title mentions
    "DOI:" is formatted into a string that contains "DOI:"; and a doi or a
    url that is present but empty is formatted as if it were absent. *)
Lemma doi_absent_counterexample :
  let paper :=
    mkPaper (Val (py "https://example.org/1")) (Val (py "cnki"))
            (Val (py "What is a DOI: a primer")) (Val [py "A. Author"])
            (Val (py "Notes")) (Val (py "2020")) PyNone Missing in
  let blank_paper :=
    mkPaper (Val []) (Val (py "cnki")) (Val (py "Graph Theory"))
            (Val [py "A. Author"]) (Val (py "Notes")) (Val (py "2020"))
            (Val []) Missing in
  (doi paper = PyNone
   ∧ contains (py "DOI:") (PaperSearcher.generate_reference paper))
  ∧ (doi blank_paper = Val [] ∧ url blank_paper = Val []
     ∧ ¬ contains (py "DOI: " ++ [])
           (PaperSearcher.generate_reference blank_paper)
     ∧ ¬ contains (py "SourceURL")
           (PaperSearcher.generate_reference blank_paper)).
Proof.
  split.
  - split; [reflexivity|]. apply containsb_spec. vm_compute. reflexivity.
  - split; [reflexivity|]. split; [reflexivity|].
    split; apply not_containsb; vm_compute; reflexivity.
Qed.

(** C6 (amended): for every record, if doi is present and not empty (such
    as "10.1/xyz") the reference contains "DOI: " followed by the doi; if
    doi is missing, [None] or empty, no DOI part is appended, and the
    reference does not contain "DOI:" as long as no author, title,
    journal, year or url text contains it; when url is present and not
    empty the reference ends with the SourceURL line, otherwise there is
    no such line. *)
Theorem reference_reflects_doi_and_url (paper : Paper) :
  (∀ d, doi paper = Val d → d ≠ [] →
     contains (py "DOI: " ++ d) (PaperSearcher.generate_reference paper))
  ∧ (doi paper = Val (py "10.1/xyz") →
     contains (py "DOI: 10.1/xyz") (PaperSearcher.generate_reference paper))
  ∧ (blank (doi paper) →
     Forall (λ a, ¬ contains (py "DOI:") a)
            (default [] (dict_get (authors paper))) →
     ¬ contains (py "DOI:") (ref_title paper) →
     ¬ contains (py "DOI:") (ref_journal paper) →
     ¬ contains (py "DOI:") (ref_year paper) →
     ¬ contains (py "DOI:") (default [] (dict_get (url paper))) →
     ¬ contains (py "DOI:") (PaperSearcher.generate_reference paper))
  ∧ (∀ u, url paper = Val u → u ≠ [] →
     ∃ ref, PaperSearcher.generate_reference paper = ref ++ url_line ++ u)
  ∧ (blank (url paper) →
     PaperSearcher.generate_reference paper =
       ref_body paper
         ++ (if truthy (dict_get (doi paper))
             then py ". DOI: " ++ ref_doi paper else [])).
Proof.
  assert (∀ d, doi paper = Val d → d ≠ [] →
            contains (py "DOI: " ++ d) (PaperSearcher.generate_reference paper))
    as Hdoi.
  { intros d Hd Hne. rewrite generate_reference_eq.
    rewrite (blank_not_val _ d Hd Hne). unfold ref_doi. rewrite Hd. 
    cbn [PaperSearcher.fmt dict_get_default].
    apply contains_app_r, contains_app_l.
    exists (py ". "), []. rewrite app_nil_r. reflexivity. }
  split; [exact Hdoi|]. split; [|split; [|split]].
  - intros Hd. by apply (Hdoi (py "10.1/xyz")).
  - intros Hblank Ha Ht Hj Hy Hu. unfold blank in Hblank.
    rewrite generate_reference_eq, Hblank. unfold ref_body.
    rewrite <- !app_assoc.
    apply ref_body_no_doi; try done.
    unfold ref_url.
    destruct (url paper) as [| |[|u0 u]];
      cbn [app dict_get dict_get_default truthy str_truthy PaperSearcher.fmt];
      rewrite ?app_nil_r; try done.
    by apply url_line_no_doi.
  - intros u Hu Hne. rewrite generate_reference_eq.
    rewrite (blank_not_val _ u Hu Hne). unfold ref_url. rewrite Hu. 
    cbn [PaperSearcher.fmt dict_get_default].
    eexists. rewrite app_assoc. reflexivity.
  - intros Hblank. unfold blank in Hblank.
    rewrite generate_reference_eq, Hblank. by rewrite app_nil_r.
Qed.

Lemma reference_reflects_doi_and_url_witness :
  let paper :=
    mkPaper (Val (py "https://example.org/1")) (Val (py "cnki"))
            (Val (py "Graph Theory")) (Val [py "A. Author"])
            (Val (py "Notes")) (Val (py "2020")) (Val (py "10.1/xyz"))
            Missing in
  doi paper = Val (py "10.1/xyz") ∧
  contains (py "DOI: 10.1/xyz") (PaperSearcher.generate_reference paper).
Proof.
  intros paper. split; [reflexivity|].
  apply (proj1 (proj2 (reference_reflects_doi_and_url paper))). reflexivity.
Defined.

(** C7 at a record that [get_paper_details] itself returns: for a cnki
    detail page with a title and no journal element the record binds
    [journal] to [None], and the reference shows the text "None" where the
    claim has the journal placeholder (the year, whose key is not set, does
    get its placeholder). *)
Theorem reference_of_extracted_record_shows_None :
  let page :=
    mkTag [] [] [(py "#mainTitle", [mkTag [py "Graph Theory"] [] []])] in
  let u := py "https://kns.cnki.net/detail/1" in
  ∃ paper,
    (PaperSearcher.get_paper_details (serve page) u (py "cnki")).2
      = Ok (Some paper)
    ∧ journal paper = PyNone
    ∧ PaperSearcher.generate_reference paper
      = PaperSearcher.ref_head ++ PaperSearcher.unknown_authors
          ++ py ". Graph Theory[J]. None, 0000" ++ url_line ++ u
    ∧ ¬ contains PaperSearcher.unknown_journal
          (PaperSearcher.generate_reference paper).
Proof.
  intros page u. eexists. split; [vm_compute; reflexivity|].
  split; [reflexivity|]. split; [vm_compute; reflexivity|].
  apply not_containsb. vm_compute. reflexivity.
Qed.

Import ExtractFacts ThesisFacts PaperSearchFacts PipelineFacts.

(** C2, as stated, fails: for a detail page on which no title selector
    matches, [get_paper_details] returns a record whose title is [None],
    and [search_academic_paper] returns a record whose title is the empty
    string. *)
Lemma title_less_record_counterexample :
  let page := mkTag [] [] [(py ".journal-name", [mkTag [py "Acta"] [] []])] in
  let u := py "https://kns.cnki.net/detail/2" in
  (∃ p, (PaperSearcher.get_paper_details (serve page) u (py "cnki")).2
          = Ok (Some p)
        ∧ title p = PyNone)
  ∧ (∃ p, (PaperSearch.search_academic_paper (serve page) u (py "nih")).2
            = Ok (Some p)
          ∧ title p = Val []).
Proof.
  split; eexists; (split; [vm_compute; reflexivity | reflexivity]).
Qed.

(** C2 (amended): [get_cnki_paper_details] and [get_arxiv_paper_details]
    never return a record whose title is absent or empty, and return
    [None] for a page on which no title selector matches.
    [search_academic_paper] returns its record even when no selector
    matches, with the empty title it started from, and leaves the test to
    [verify_reference], which passes a record only when its title is a
    non-empty string.  So for every extractor a record that passes the
    verifier has a non-empty title, and [search_and_extract] keeps only
    records with a non-empty title. *)
Theorem verified_records_have_a_title :
  (∀ web isdecimal u p,
     (ThesisSearcher.get_cnki_paper_details web isdecimal u).2 = Ok (Some p) →
     titled_record p)
  ∧ (∀ web u p,
       (ThesisSearcher.get_arxiv_paper_details web u).2 = Ok (Some p) →
       titled_record p)
  ∧ (∀ web isdecimal u resp,
       web u = Some resp →
       no_match [py "#mainTitle"; py "h1"] (soup resp) →
       ThesisSearcher.get_cnki_paper_details web isdecimal u = ([u], Ok None))
  ∧ (∀ web u resp,
       web u = Some resp →
       no_match [meta_name "citation_title"] (soup resp) →
       ThesisSearcher.get_arxiv_paper_details web u = ([u], Ok None))
  ∧ (∀ web u plat resp,
       web u = Some resp →
       no_match (selectors plat) (soup resp) →
       PaperSearch.search_academic_paper web u plat
         = ([u], Ok (Some (initial u plat)))
       ∧ PaperSearch.verify_reference (initial u plat) = false)
  ∧ (∀ web u plat p,
       (PaperSearch.search_academic_paper web u plat).2 = Ok (Some p) →
       PaperSearch.verify_reference p = true → titled_record p)
  ∧ (∀ web u plat p,
       (PaperSearcher.get_paper_details web u plat).2 = Ok (Some p) →
       PaperSearch.verify_reference p = true → titled_record p)
  ∧ (∀ web kw plat c out,
       (PaperSearcher.search_and_extract web kw plat c).2 = Ok out →
       Forall titled_record out).
Proof.
  split; [|split; [|split; [|split; [|split; [|split; [|split]]]]]].
  - intros web isdecimal u p H.
    apply get_cnki_paper_details_some in H as (resp & _ & H).
    by apply extract_cnki_fields in H as (Ht & _).
  - intros web u p H.
    apply get_arxiv_paper_details_some in H as (resp & _ & H).
    by apply extract_arxiv_fields in H as (Ht & _).
  - intros web isdecimal u resp Hweb Hn.
    rewrite get_cnki_paper_details_eq, Hweb.
    pose proof (extract_cnki_untitled isdecimal u (soup resp) Hn) as Hx.
    destruct (ThesisSearcher.extract_cnki isdecimal u (soup resp));
      by rewrite ?Hx.
  - intros web u resp Hweb Hn.
    rewrite get_arxiv_paper_details_eq, Hweb.
    pose proof (extract_arxiv_untitled u (soup resp) Hn) as Hx.
    destruct (ThesisSearcher.extract_arxiv u (soup resp)); by rewrite ?Hx.
  - intros web u plat resp Hweb Hn.
    rewrite search_academic_paper_eq, Hweb.
    by rewrite (parse_unmatched _ _ _ Hn).
  - intros web u plat p _ Hv. by apply verify_reference_true in Hv as [Ht _].
  - intros web u plat p _ Hv. by apply verify_reference_true in Hv as [Ht _].
  - intros web kw plat c out. apply search_and_extract_titled.
Qed.

Lemma verified_records_have_a_title_witness :
  let page :=
    mkTag [] [] [(py "#mainTitle", [mkTag [py "Graph Theory"] [] []])] in
  let u := py "https://kns.cnki.net/detail/1" in
  ∃ p,
    (ThesisSearcher.get_cnki_paper_details (serve page) ascii_digit u).2
      = Ok (Some p)
    ∧ titled_record p.
Proof.
  intros page u. eexists. split; [vm_compute; reflexivity|].
  apply (proj1 verified_records_have_a_title (serve page) ascii_digit u).
  vm_compute. reflexivity.
Defined.

(** C4, as stated, fails: [search_academic_paper] represents a field for
    which no selector matches by the empty string. *)
Lemma unmatched_field_empty_string_counterexample :
  let page := mkTag [] [] [] in
  let u := py "https://pmc.ncbi.nlm.nih.gov/articles/1/" in
  ∃ p, (PaperSearch.search_academic_paper (serve page) u (py "nih")).2
         = Ok (Some p)
       ∧ title p = Val [] ∧ journal p = Val [] ∧ year p = Val [].
Proof. eexists. split; [vm_compute; reflexivity | by repeat split]. Qed.

(** C4 (amended): in a record returned by [get_paper_details],
    [get_cnki_paper_details] or [get_arxiv_paper_details], a title,
    journal, year or doi for which no selector matches is [None] or not
    set, never an empty string, except the journal of an arXiv record,
    which is then the fixed text "arXiv" (resp. "arXiv preprint"); the
    records that [main] returns and writes out are records of the two
    extractors, unchanged.  [search_academic_paper] starts from empty
    strings instead: when no selector of the platform matches, title,
    journal, year and abstract are the empty string. *)
Theorem unmatched_fields_are_none_or_unset :
  (∀ web u plat p,
     (PaperSearcher.get_paper_details web u plat).2 = Ok (Some p) →
     ∃ resp, web u = Some resp
       ∧ (no_match (title_selectors plat) (soup resp) → absent (title p))
       ∧ (no_match (journal_selectors plat) (soup resp) →
          if bool_decide (plat = py "arxiv") then journal p = Val (py "arXiv")
          else absent (journal p))
       ∧ (no_match (year_selectors plat) (soup resp) → year p = Missing)
       ∧ (no_match (doi_selectors plat) (soup resp) → absent (doi p)))
  ∧ (∀ web isdecimal u p,
       (ThesisSearcher.get_cnki_paper_details web isdecimal u).2
         = Ok (Some p) →
       ∃ resp, web u = Some resp
         ∧ (select_one (py ".journal-name") (soup resp) = None →
            journal p = PyNone)
         ∧ (select_one (py ".publish-date") (soup resp) = None →
            year p = Missing)
         ∧ (select_one (meta_name "citation_doi") (soup resp) = None →
            doi p = PyNone))
  ∧ (∀ web u p,
       (ThesisSearcher.get_arxiv_paper_details web u).2 = Ok (Some p) →
       ∃ resp, web u = Some resp
         ∧ (select_one (meta_name "citation_journal_title") (soup resp) = None →
            journal p = Val (py "arXiv preprint"))
         ∧ (select_one (meta_name "citation_date") (soup resp) = None →
            year p = PyNone)
         ∧ (select_one (meta_name "citation_doi") (soup resp) = None →
            doi p = PyNone))
  ∧ (∀ web isdecimal out,
       (ThesisSearcher.main web isdecimal).2 = Ok out →
       Forall (λ p, ∃ u,
                 (ThesisSearcher.get_cnki_paper_details web isdecimal u).2
                   = Ok (Some p)
                 ∨ (ThesisSearcher.get_arxiv_paper_details web u).2
                   = Ok (Some p)) out)
  ∧ (∀ web u plat p,
       (PaperSearch.search_academic_paper web u plat).2 = Ok (Some p) →
       ∃ resp, web u = Some resp
         ∧ (no_match (selectors plat) (soup resp) →
            title p = Val [] ∧ journal p = Val [] ∧ year p = Val []
            ∧ abstract p = Val [])).
Proof.
  split; [|split; [|split; [|split]]].
  - intros web u plat p H.
    apply get_paper_details_some in H as (resp & Hweb & H).
    exists resp. split; [done|]. by apply (extract_unmatched u).
  - intros web isdecimal u p H.
    apply get_cnki_paper_details_some in H as (resp & Hweb & H).
    exists resp. split; [done|].
    apply extract_cnki_fields in H as (_ & _ & Hj & Hy & Hd).
    repeat split; [| |done].
    + intros Hn. by rewrite Hj, Hn.
    + intros Hn. by rewrite Hy, Hn.
  - intros web u p H.
    apply get_arxiv_paper_details_some in H as (resp & Hweb & H).
    exists resp. split; [done|].
    apply extract_arxiv_fields in H as (_ & Hj & Hy & _ & Hd).
    repeat split; [|done|done].
    intros Hn. unfold meta_entry in Hj. rewrite Hn in Hj. by injection Hj.
  - intros web isdecimal out. apply main_records.
  - intros web u plat p H.
    apply search_academic_paper_some in H as (resp & Hweb & H).
    exists resp. split; [done|]. intros Hn.
    rewrite (parse_unmatched u plat (soup resp) Hn) in H.
    injection H as <-. by repeat split.
Qed.

Lemma unmatched_fields_are_none_or_unset_witness :
  let page :=
    mkTag [] [] [(py "#mainTitle", [mkTag [py "Graph Theory"] [] []])] in
  let u := py "https://kns.cnki.net/detail/1" in
  ∃ p resp,
    (PaperSearcher.get_paper_details (serve page) u (py "cnki")).2
      = Ok (Some p)
    ∧ serve page u = Some resp
    ∧ no_match (journal_selectors (py "cnki")) (soup resp)
    ∧ absent (journal p).
Proof.
  intros page u.
  destruct (proj1 unmatched_fields_are_none_or_unset (serve page) u (py "cnki")
              (mkPaper (Val u) (Val (py "cnki")) (Val (py "Graph Theory"))
                 (Val []) PyNone Missing PyNone Missing))
    as (resp & Hweb & _ & Hj & _).
  { vm_compute. reflexivity. }
  injection Hweb as <-.
  assert (no_match (journal_selectors (py "cnki")) page) as Hn.
  { repeat constructor. }
  eexists _, _. split; [vm_compute; reflexivity|].
  split; [reflexivity|]. split; [exact Hn|]. exact (Hj Hn).
Defined.

(** C9, as stated, fails: the arXiv extractors take the first four
    characters of the date they select, and [get_paper_details] takes the
    first four characters of the selected text, in both cases without
    looking for a digit run. *)
Lemma year_prefix_counterexample :
  let date := mkTag [] [(py "content", py "12 Jun 2017")] [] in
  let arxiv_page :=
    mkTag [] []
      [(meta_name "citation_title",
        [mkTag [] [(py "content", py "Graph Theory")] []]);
       (meta_name "citation_date", [date])] in
  let text := py "Published 2023-05-01" in
  let cnki_page :=
    mkTag [] [] [(py "#mainTitle", [mkTag [py "Graph Theory"] [] []]);
                 (py ".publish-date", [mkTag [text] [] []])] in
  let u := py "https://example.org/1" in
  (first_run ascii_digit (py "12 Jun 2017") (py "2017")
   ∧ ∃ p, (ThesisSearcher.get_arxiv_paper_details (serve arxiv_page) u).2
            = Ok (Some p)
          ∧ year p = Val (py "12 J") ∧ year p ≠ Val (py "2017"))
  ∧ (first_run ascii_digit text (py "2023")
     ∧ ∃ p, (PaperSearcher.get_paper_details (serve cnki_page) u
               (py "cnki")).2 = Ok (Some p)
            ∧ year p = Val (py "Publ") ∧ year p ≠ Val (py "2023")).
Proof.
  split.
  - split; [exact (re_search_d4_spec ascii_digit (py "12 Jun 2017"))|].
    eexists. split; [vm_compute; reflexivity|].
    split; [reflexivity | vm_compute; discriminate].
  - split; [exact (re_search_d4_spec ascii_digit (py "Published 2023-05-01"))|].
    eexists. split; [vm_compute; reflexivity|].
    split; [reflexivity | vm_compute; discriminate].
Qed.

(** C9 (amended): for every cnki detail page handled by
    [get_cnki_paper_details] on which the year selector matches, the year
    is the first four-digit run embedded in the selected text when there is
    one, and otherwise the first four characters of that (stripped) text.
    For an arXiv page, [get_arxiv_paper_details] and [get_paper_details]
    take the first four characters of the content of the date element. *)
Theorem year_of_selected_text :
  (∀ web isdecimal u p,
     (ThesisSearcher.get_cnki_paper_details web isdecimal u).2
       = Ok (Some p) →
     ∃ resp, web u = Some resp ∧
       ∀ e, select_one (py ".publish-date") (soup resp) = Some e →
         (∀ run, first_run isdecimal (get_text_strip e) run →
                 year p = Val run)
         ∧ (no_run isdecimal (get_text_strip e) →
            year p = Val (take 4 (get_text_strip e))))
  ∧ (∀ web u p,
       (ThesisSearcher.get_arxiv_paper_details web u).2 = Ok (Some p) →
       ∃ resp, web u = Some resp ∧
         ∀ e, select_one (meta_name "citation_date") (soup resp) = Some e →
              ∃ c, tag_get (py "content") e = Some c
                   ∧ year p = Val (take 4 c))
  ∧ (∀ web u p,
       (PaperSearcher.get_paper_details web u (py "arxiv")).2 = Ok (Some p) →
       ∃ resp, web u = Some resp ∧
         ∀ e, select_one (meta_name "citation_date") (soup resp) = Some e →
              ∃ c, tag_get (py "content") e = Some c
                   ∧ year p = Val (take 4 c)).
Proof.
  split; [|split].
  - intros web isdecimal u p H.
    apply get_cnki_paper_details_some in H as (resp & Hweb & H).
    exists resp. split; [done|]. intros e He.
    apply extract_cnki_fields in H as (_ & _ & _ & Hy & _).
    rewrite He in Hy. rewrite Hy.
    destruct (year_of_text_spec isdecimal (get_text_strip e)) as [H1 H2].
    split.
    + intros run Hrun. by rewrite (H1 run Hrun).
    + intros Hno. by rewrite (H2 Hno).
  - intros web u p H.
    apply get_arxiv_paper_details_some in H as (resp & Hweb & H).
    exists resp. split; [done|].
    by apply extract_arxiv_fields in H as (_ & _ & _ & Hy & _).
  - intros web u p H.
    apply get_paper_details_some in H as (resp & Hweb & H).
    exists resp. split; [done|].
    apply (extract_year u) in H as (_ & _ & Hy). exact (Hy eq_refl).
Qed.

Lemma year_of_selected_text_witness :
  let text := py "Published 2023-05-01" in
  let page :=
    mkTag [] [] [(py "#mainTitle", [mkTag [py "Graph Theory"] [] []]);
                 (py ".publish-date", [mkTag [text] [] []])] in
  let u := py "https://kns.cnki.net/detail/1" in
  ∃ p, (ThesisSearcher.get_cnki_paper_details (serve page) ascii_digit u).2
         = Ok (Some p)
       ∧ first_run ascii_digit text (py "2023")
       ∧ year p = Val (py "2023").
Proof.
  intros text page u.
  assert (first_run ascii_digit text (py "2023")) as Hrun.
  { exact (re_search_d4_spec ascii_digit text). }
  eexists. split; [vm_compute; reflexivity|]. split; [exact Hrun|].
  destruct (proj1 year_of_selected_text (serve page) ascii_digit u _
              ltac:(vm_compute; reflexivity)) as (resp & Hweb & Hy).
  injection Hweb as <-.
  exact (proj1 (Hy (mkTag [text] [] []) eq_refl) (py "2023") Hrun).
Defined.

(** * Further properties of the scripts *)

(** ** The de-duplication loop *)

Module DedupeMore.
Import Dedupe DedupeFacts.

(** A list whose keys are non-empty and pairwise distinct is left as it
    is. *)
Lemma dedupe_distinct ps :
  Forall (λ p, title p ≠ PyNone) ps →
  Forall (λ p, title_key p ≠ []) ps →
  NoDup (map title_key ps) →
  dedupe ps = Ok ps.
Proof.
  induction ps as [|p ps IH] using rev_ind; intros Ht Hk Hnd; [done|].
  apply Forall_app in Ht as [Ht Hp]. apply Forall_inv in Hp.
  apply Forall_app in Hk as [Hk Hkp]. apply Forall_inv in Hkp.
  rewrite map_app in Hnd. apply NoDup_app in Hnd as (Hnd & Hnew & _).
  rewrite (dedupe_snoc ps p ps Ht Hp (IH Ht Hk Hnd)).
  rewrite decide_True; [done|]. split; [done|]. intros Hin.
  apply (Hnew _ Hin). simpl. apply list_elem_of_here.
Qed.

Lemma sublist_titles (out ps : list Paper) :
  sublist out ps → Forall (λ p, title p ≠ PyNone) ps →
  Forall (λ p, title p ≠ PyNone) out.
Proof.
  intros Hsub Hall. apply Forall_forall. intros p Hp.
  eapply Forall_forall in Hall; [exact Hall|]. by eapply elem_of_sublist.
Qed.

End DedupeMore.

Import DedupeMore.

(** X1: the loop is idempotent: run on its own output it returns that
    output. *)
Theorem dedupe_idempotent (ps out : list Paper) :
  Dedupe.dedupe ps = Ok out → Dedupe.dedupe out = Ok out.
Proof.
  intros H. pose proof (dedupe_ok_titles ps out H) as Ht.
  destruct (dedupe_shape ps Ht out H) as (Hsub & Hnd & Hk & _).
  apply dedupe_distinct; [|done|done]. by eapply sublist_titles.
Qed.

Lemma dedupe_idempotent_witness :
  let ps := [titled "uA" "Graph Theory"; titled "uB" " Graph Theory ";
             titled "uC" ""; titled "uD" "Other"] in
  let out := [titled "uA" "Graph Theory"; titled "uD" "Other"] in
  Dedupe.dedupe ps = Ok out ∧ Dedupe.dedupe out = Ok out.
Proof.
  intros ps out.
  assert (Dedupe.dedupe ps = Ok out) as H by (vm_compute; reflexivity).
  split; [exact H|]. exact (dedupe_idempotent ps out H).
Defined.

(** X2: the inputs that the loop returns unchanged are exactly those in
    which no title is [None], every stripped title is non-empty and no two
    stripped titles are equal. *)
Theorem dedupe_unchanged_iff (ps : list Paper) :
  Dedupe.dedupe ps = Ok ps ↔
  Forall (λ p, title p ≠ PyNone) ps
  ∧ Forall (λ p, title_key p ≠ []) ps
  ∧ NoDup (map title_key ps).
Proof.
  split.
  - intros H. pose proof (dedupe_ok_titles ps ps H) as Ht.
    destruct (dedupe_shape ps Ht ps H) as (_ & Hnd & Hk & _). done.
  - intros (Ht & Hk & Hnd). by apply dedupe_distinct.
Qed.

Lemma dedupe_unchanged_iff_witness :
  let ps := [titled "uA" "Graph Theory"; titled "uD" "Other"] in
  Dedupe.dedupe ps = Ok ps ∧ NoDup (map title_key ps).
Proof.
  intros ps.
  assert (Dedupe.dedupe ps = Ok ps) as H by (vm_compute; reflexivity).
  split; [exact H|].
  exact (proj2 (proj2 (proj1 (dedupe_unchanged_iff ps) H))).
Defined.

(** X3: appending records to the input only appends to the output: the
    records kept from the first part stay, in place, and what is added is
    a subsequence of the second part whose keys do not occur in the
    first. *)
Theorem dedupe_append (a b out_a out : list Paper) :
  Dedupe.dedupe a = Ok out_a → Dedupe.dedupe (a ++ b) = Ok out →
  ∃ rest, out = out_a ++ rest ∧ sublist rest b
          ∧ Forall (λ p, title_key p ≠ [] ∧ title_key p ∉ map title_key a)
                   rest.
Proof.
  intros Ha. revert out. induction b as [|p b IH] using rev_ind; intros out H.
  - rewrite app_nil_r, Ha in H. injection H as <-.
    exists []. rewrite app_nil_r. by repeat constructor.
  - rewrite app_assoc in H.
    pose proof (dedupe_ok_titles _ _ H) as Ht.
    apply Forall_app in Ht as [Hab Hp]. apply Forall_inv in Hp.
    destruct (dedupe_total (a ++ b) Hab) as [o Ho].
    rewrite (dedupe_snoc (a ++ b) p o Hab Hp Ho) in H. injection H as <-.
    destruct (IH o Ho) as (rest & -> & Hsub & Hrest).
    destruct (decide _) as [[Hk Hnew]|_].
    + exists (rest ++ [p]). rewrite app_assoc. split; [done|].
      split; [by apply sublist_app|].
      apply Forall_app. split; [done|]. apply Forall_singleton.
      split; [done|]. intros Hin. apply Hnew. rewrite map_app.
      apply elem_of_app. by left.
    + exists rest. split; [done|]. split; [|done].
      by apply sublist_inserts_r.
Qed.

Lemma dedupe_append_witness :
  let a := [titled "uA" "Graph Theory"] in
  let b := [titled "uB" " Graph Theory "; titled "uD" "Other"] in
  ∃ rest, [titled "uA" "Graph Theory"; titled "uD" "Other"]
          = [titled "uA" "Graph Theory"] ++ rest ∧ sublist rest b.
Proof.
  intros a b.
  destruct (dedupe_append a b [titled "uA" "Graph Theory"]
              [titled "uA" "Graph Theory"; titled "uD" "Other"])
    as (rest & Heq & Hsub & _).
  - vm_compute. reflexivity.
  - vm_compute. reflexivity.
  - exists rest. split; [exact Heq | exact Hsub].
Defined.

(** ** Searching and extracting *)

Module SearchMore.
Import PaperSearcher SearchFacts ExtractFacts PipelineFacts PaperSearchFacts.

Lemma bind_pair {A B} (l : list pystr) (a : A) (k : A → IO B) :
  ((l, Ok a) : IO A) ≫= k = (l ++ (k a).1, (k a).2).
Proof. reflexivity. Qed.

Lemma bind_raise {A B} (l : list pystr) (e : exn) (k : A → IO B) :
  ((l, Raise e) : IO A) ≫= k = (l, Raise e).
Proof. reflexivity. Qed.

(** A link that is collected is the base address followed by a non-empty
    href. *)
Lemma item_url_some l b item u :
  item_url l b item = Some u → ∃ href, href ≠ [] ∧ u = b ++ href.
Proof.
  unfold item_url. destruct (select_one l item) as [link|]; [|done].
  destruct (tag_get (py "href") link) as [[|c href]|]; simpl; try done.
  intros [= <-]. by exists (c :: href).
Qed.

Lemma collect_urls_shape i l b c page :
  Forall (λ u, ∃ href, href ≠ [] ∧ u = b ++ href) (collect_urls i l b c page).
Proof.
  apply Forall_forall. intros u Hu. unfold collect_urls in Hu.
  apply list_elem_of_omap in Hu as (item & _ & Hitem).
  by eapply item_url_some.
Qed.

(** What a run of [search_papers] that returns looked like. *)
Lemma search_papers_returns web kw plat c log urls :
  search_papers web kw plat c = (log, Ok urls) →
  ∃ url resp i l b,
    assoc plat (search_urls kw c) = Some url ∧ web url = Some resp
    ∧ status_ok resp ∧ profile plat = Some (i, l, b)
    ∧ log = [url] ∧ urls = collect_urls i l b c (soup resp).
Proof.
  intros H. pose proof H as H0. unfold search_papers in H.
  destruct (assoc plat (search_urls kw c)) as [url|] eqn:Hurl; [|done].
  destruct (assoc_search_urls_some _ _ _ _ Hurl) as [[[i l] b] Hprof].
  unfold requests_get in H. destruct (web url) as [resp|] eqn:Hweb; [|done].
  rewrite bind_pair in H. unfold raise_for_status in H.
  destruct ((400 <=? status_code resp)%Z && (status_code resp <? 600)%Z)
    eqn:Hst; [done|].
  assert (status_ok resp) as Hok.
  { unfold status_ok. intros [H1 H2].
    apply Z.leb_le in H1. apply Z.ltb_lt in H2. by rewrite H1, H2 in Hst. }
  rewrite (search_papers_ok web kw plat c url resp i l b Hurl Hweb Hok Hprof)
    in H0. injection H0 as <- <-. by exists url, resp, i, l, b.
Qed.

Lemma extract_url_platform u plat soup p :
  extract u plat soup = Ok p → url p = Val u ∧ platform p = Val plat.
Proof.
  unfold extract. repeat case_bool_decide; intros Hx.
  - by apply details_cnki_fields in Hx as (-> & -> & _).
  - by apply details_arxiv_fields in Hx as (-> & -> & _).
  - by apply details_openalex_fields in Hx as (-> & -> & _).
  - by injection Hx as <-.
Qed.

Lemma get_paper_details_record web u plat p :
  (get_paper_details web u plat).2 = Ok (Some p) →
  url p = Val u ∧ platform p = Val plat.
Proof.
  intros H. apply get_paper_details_some in H as (resp & _ & H).
  by eapply extract_url_platform.
Qed.

(** The loop of [search_and_extract] requests every address once, in
    order, and never raises. *)
Lemma extract_all_run web plat urls :
  ∃ out, extract_all web plat urls = (urls, Ok out)
         ∧ sublist (map url out) (map Val urls)
         ∧ Forall (λ p, platform p = Val plat ∧ titled_record p) out.
Proof.
  induction urls as [|u urls (rest & IH & Hsub & Hall)].
  - exists []. by repeat constructor.
  - cbn [extract_all].
    pose proof (get_paper_details_record web u plat) as Hrec.
    rewrite get_paper_details_eq in *. rewrite bind_pair, IH, bind_pair.
    simpl in Hrec.
    destruct (match web u with Some _ => _ | None => _ end) as [p|];
      [destruct (truthy (dict_get (title p))) eqn:Ht|]; simpl.
    + exists (p :: rest). destruct (Hrec p eq_refl) as [Hu Hp].
      rewrite app_nil_r. split; [done|]. simpl. rewrite Hu.
      split; [by apply sublist_skip|].
      constructor; [|done]. split; [done|]. by apply truthy_title.
    + exists rest. rewrite app_nil_r. split; [done|].
      split; [by apply sublist_cons | done].
    + exists rest. rewrite app_nil_r. split; [done|].
      split; [by apply sublist_cons | done].
Qed.

(** The platforms for which [get_paper_details] has a branch. *)
Lemma extract_no_branch u plat soup p :
  plat ∉ [py "cnki"; py "arxiv"; py "openalex"] →
  extract u plat soup = Ok p → p = new_paper u plat.
Proof.
  intros Hp. unfold extract.
  repeat (case_bool_decide;
          [exfalso; apply Hp; subst plat;
           repeat first [apply list_elem_of_here | apply list_elem_of_further]|]).
  by intros [= <-].
Qed.

Lemma extract_all_no_branch web plat urls :
  plat ∉ [py "cnki"; py "arxiv"; py "openalex"] →
  extract_all web plat urls = (urls, Ok []).
Proof.
  intros Hp. induction urls as [|u urls IH]; [done|].
  cbn [extract_all].
  pose proof (get_paper_details_some web u plat) as Hsome.
  rewrite get_paper_details_eq in *. rewrite bind_pair, IH, bind_pair.
  simpl in Hsome.
  destruct (match web u with Some _ => _ | None => _ end) as [p|]; simpl;
    [|by rewrite app_nil_r].
  destruct (Hsome p eq_refl) as (resp & _ & Hx).
  apply (extract_no_branch _ _ _ _ Hp) in Hx as ->. simpl.
  by rewrite app_nil_r.
Qed.

End SearchMore.

Import SearchMore.

(** X4: a run of [search_and_extract] that returns has issued the search
    request and then one request for each listed address, in listing
    order; the records it returns carry the platform asked for and their
    addresses form a subsequence of the listed ones, so for a cap
    [c >= 0] there are at most [c] records and [1 + c] requests. *)
Theorem search_and_extract_run web kw plat c log out :
  PaperSearcher.search_and_extract web kw plat c = (log, Ok out) →
  ∃ surl urls,
    PaperSearcher.search_papers web kw plat c = ([surl], Ok urls)
    ∧ log = surl :: urls
    ∧ sublist (map url out) (map Val urls)
    ∧ Forall (λ p, platform p = Val plat) out
    ∧ ((0 ≤ c)%Z → length out ≤ Z.to_nat c ∧ length log ≤ 1 + Z.to_nat c).
Proof.
  unfold PaperSearcher.search_and_extract. intros H.
  destruct (PaperSearcher.search_papers web kw plat c) as [l [urls|e]] eqn:Hs;
    [|by rewrite bind_raise in H].
  destruct (search_papers_returns _ _ _ _ _ _ Hs)
    as (surl & resp & i & lk & b & _ & _ & _ & _ & -> & Hurls).
  rewrite bind_pair in H.
  destruct (extract_all_run web plat urls) as (out' & Hrun & Hsub & Hall).
  rewrite Hrun in H. simpl in H. injection H as <- <-.
  exists surl, urls. split; [done|]. split; [done|]. split; [done|].
  split.
  { eapply Forall_impl; [exact Hall|]. by intros p [? _]. }
  intros Hc.
  assert (length urls ≤ Z.to_nat c) as Hlen.
  { rewrite Hurls. by apply collect_urls_length. }
  apply sublist_length in Hsub. rewrite !length_map in Hsub.
  simpl. lia.
Qed.

Lemma search_and_extract_run_witness :
  ∃ surl urls,
    PaperSearcher.search_papers arxiv_web (py "deep learning") (py "arxiv") 3
      = ([surl], Ok urls)
    ∧ length urls = 3.
Proof.
  destruct (search_and_extract_run arxiv_web (py "deep learning") (py "arxiv")
              3 _ _ eq_refl) as (surl & urls & Hs & _).
  exists surl, urls. split; [exact Hs|].
  vm_compute in Hs. by injection Hs as _ <-.
Defined.

(** X5: every record that [search_and_extract] returns passes
    [verify_reference]: its title is a non-empty string, and its url is
    the non-empty address it was fetched from. *)
Theorem search_and_extract_verified web kw plat c log out :
  PaperSearcher.search_and_extract web kw plat c = (log, Ok out) →
  Forall (λ p, PaperSearch.verify_reference p = true) out.
Proof.
  unfold PaperSearcher.search_and_extract. intros H.
  destruct (PaperSearcher.search_papers web kw plat c) as [l [urls|e]] eqn:Hs;
    [|by rewrite bind_raise in H].
  destruct (search_papers_returns _ _ _ _ _ _ Hs)
    as (surl & resp & i & lk & b & _ & _ & _ & _ & -> & Hurls).
  rewrite bind_pair in H.
  destruct (extract_all_run web plat urls) as (out' & Hrun & Hsub & Hall).
  rewrite Hrun in H. simpl in H. injection H as <- <-.
  apply Forall_forall. intros p Hp.
  eapply Forall_forall in Hall; [|exact Hp]. destruct Hall as [_ Ht].
  apply PaperSearchFacts.verify_reference_true. split; [done|].
  assert (url p ∈ map Val urls) as Hu.
  { eapply elem_of_sublist; [|exact Hsub]. by apply list_elem_of_fmap_2. }
  apply list_elem_of_fmap in Hu as (u & Hu & Hin).
  exists u. split; [done|].
  pose proof (collect_urls_shape i lk b c (soup resp)) as Hshape.
  rewrite <- Hurls in Hshape.
  eapply Forall_forall in Hshape; [|exact Hin].
  destruct Hshape as (href & Hne & ->). by destruct b, href.
Qed.

Lemma search_and_extract_verified_witness :
  ∃ out,
    (PaperSearcher.search_and_extract arxiv_web (py "deep learning")
       (py "arxiv") 3).2 = Ok out
    ∧ length out = 3
    ∧ Forall (λ p, PaperSearch.verify_reference p = true) out.
Proof.
  destruct (PaperSearcher.search_and_extract arxiv_web (py "deep learning")
              (py "arxiv") 3) as [log [out|e]] eqn:H.
  - exists out. split; [reflexivity|]. split.
    + vm_compute in H. by injection H as _ <-.
    + exact (search_and_extract_verified _ _ _ _ _ _ H).
  - vm_compute in H. discriminate H.
Defined.

(** X6: [get_paper_details] has no branch for wanfang and cqvip, which
    [search_papers] accepts: for these platforms [search_and_extract]
    requests every listed page and returns no record at all. *)
Theorem search_and_extract_without_branch web kw plat c log out :
  plat ∉ [py "cnki"; py "arxiv"; py "openalex"] →
  PaperSearcher.search_and_extract web kw plat c = (log, Ok out) →
  out = []
  ∧ ∃ surl urls,
      PaperSearcher.search_papers web kw plat c = ([surl], Ok urls)
      ∧ log = surl :: urls.
Proof.
  intros Hp. unfold PaperSearcher.search_and_extract. intros H.
  destruct (PaperSearcher.search_papers web kw plat c) as [l [urls|e]] eqn:Hs;
    [|by rewrite bind_raise in H].
  destruct (search_papers_returns _ _ _ _ _ _ Hs)
    as (surl & resp & i & lk & b & _ & _ & _ & _ & -> & Hurls).
  rewrite bind_pair, (extract_all_no_branch web plat urls Hp) in H.
  simpl in H. injection H as <- <-. split; [done|]. by exists surl, urls.
Qed.

Lemma search_and_extract_without_branch_witness :
  let page :=
    mkTag [] []
      [(py ".search-list li", [linked (py "/d/1"); linked (py "/d/2")]);
       (py "#mainTitle", [mkTag [py "Graph Theory"] [] []])] in
  PaperSearcher.search_and_extract (serve page) (py "graph") (py "wanfang") 5
  = ([py "https://www.wanfangdata.com.cn/search/searchAll.jsp"
        ++ py "?searchType=all&content=graph"; py "/d/1"; py "/d/2"],
     Ok []).
Proof.
  intros page.
  destruct (PaperSearcher.search_and_extract (serve page) (py "graph")
              (py "wanfang") 5) as [log [out|e]] eqn:H.
  - destruct (search_and_extract_without_branch (serve page) (py "graph")
                (py "wanfang") 5 log out) as [-> _].
    + intros Hin. apply list_elem_of_In in Hin. vm_compute in Hin.
      intuition discriminate.
    + exact H.
    + vm_compute in H. by injection H as <-.
  - vm_compute in H. discriminate H.
Defined.

(** X7: every address that [search_papers] returns is the base address of
    the platform followed by the non-empty href of the link of one of the
    result containers of the page: addresses of arXiv start with
    "https://arxiv.org", those of openalex with "https://openalex.org",
    and for cnki, wanfang and cqvip the href of the page is returned as it
    stands; no returned address is empty. *)
Theorem search_papers_addresses web kw plat c log urls :
  PaperSearcher.search_papers web kw plat c = (log, Ok urls) →
  ∃ surl resp i l b,
    log = [surl] ∧ web surl = Some resp ∧ profile plat = Some (i, l, b)
    ∧ Forall (λ u, ∃ item, item ∈ select i (soup resp) ∧ link_at l b item u)
             urls
    ∧ Forall (λ u, u ≠ []) urls
    ∧ (plat ∈ [py "cnki"; py "wanfang"; py "cqvip"] →
       Forall (λ u, ∃ item link,
                 item ∈ select i (soup resp)
                 ∧ select_one l item = Some link
                 ∧ tag_get (py "href") link = Some u) urls)
    ∧ (plat = py "arxiv" →
       Forall (λ u, py "https://arxiv.org" `prefix_of` u) urls)
    ∧ (plat = py "openalex" →
       Forall (λ u, py "https://openalex.org" `prefix_of` u) urls).
Proof.
  intros H.
  destruct (search_papers_returns _ _ _ _ _ _ H)
    as (surl & resp & i & l & b & _ & Hweb & _ & Hprof & -> & ->).
  exists surl, resp, i, l, b.
  split; [done|]. split; [done|]. split; [done|].
  assert (Forall (λ u, ∃ item, item ∈ select i (soup resp)
                               ∧ link_at l b item u)
                 (collect_urls i l b c (soup resp))) as Hshape.
  { apply Forall_forall. intros u Hu. unfold collect_urls in Hu.
    apply list_elem_of_omap in Hu as (item & Hin & Hitem).
    exists item. split; [|by apply item_url_link].
    unfold py_slice_to in Hin.
    destruct (0 <=? c)%Z; by apply elem_of_take in Hin as (? & ? & _);
      eapply list_elem_of_lookup_2. }
  split; [exact Hshape|]. split; [|split; [|split]].
  - eapply Forall_impl; [exact Hshape|].
    intros u (item & _ & link & href & _ & _ & Hne & ->). by destruct b, href.
  - intros Hplat. unfold profile in Hprof.
    assert (b = []) as ->.
    { rewrite !elem_of_cons, elem_of_nil in Hplat.
      destruct Hplat as [->|[->|[->|[]]]]; by injection Hprof as _ _ <-. }
    eapply Forall_impl; [exact Hshape|].
    intros u (item & Hin & link & href & Hl & Hh & _ & ->).
    by exists item, link.
  - intros ->. injection Hprof as <- <- <-.
    eapply Forall_impl; [exact Hshape|].
    intros u (item & _ & link & href & _ & _ & _ & ->). by exists href.
  - intros ->. injection Hprof as <- <- <-.
    eapply Forall_impl; [exact Hshape|].
    intros u (item & _ & link & href & _ & _ & _ & ->). by exists href.
Qed.

Lemma search_papers_addresses_witness :
  let items := [unlinked; linked (py "/kcms/detail/1"); linked (py "/d/2")] in
  ∃ urls,
    (PaperSearcher.search_papers (serve (cnki_page items)) (py "graph")
       (py "cnki") 5).2 = Ok urls
    ∧ urls = [py "/kcms/detail/1"; py "/d/2"]
    ∧ Forall (λ u, ∃ item link,
                item ∈ items ∧ select_one (py "a") item = Some link
                ∧ tag_get (py "href") link = Some u) urls.
Proof.
  intros items.
  destruct (PaperSearcher.search_papers (serve (cnki_page items)) (py "graph")
              (py "cnki") 5) as [log [urls|e]] eqn:H.
  - exists urls. split; [reflexivity|]. split.
    + vm_compute in H. by injection H as _ <-.
    + destruct (search_papers_addresses _ _ _ _ _ _ H)
        as (surl & resp & i & l & b & _ & Hweb & Hprof & _ & _ & Hcnki & _).
      injection Hweb as <-. injection Hprof as <- <- _.
      apply Hcnki, list_elem_of_here.
  - vm_compute in H. discriminate H.
Defined.

(** X8: for a supported platform, a search request that gets no answer
    makes [search_papers] raise [RequestException], and an answer with a
    status from 400 to 599 makes it raise [HTTPError]; in both cases
    [search_and_extract] raises the same exception after this single
    request, without fetching any detail page. *)
Theorem search_failure_propagates web kw plat c url :
  assoc plat (PaperSearcher.search_urls kw c) = Some url →
  (web url = None →
   PaperSearcher.search_papers web kw plat c = ([url], Raise RequestException)
   ∧ PaperSearcher.search_and_extract web kw plat c
     = ([url], Raise RequestException))
  ∧ (∀ resp, web url = Some resp → (400 ≤ status_code resp < 600)%Z →
     PaperSearcher.search_papers web kw plat c
       = ([url], Raise (HTTPError (status_code resp)))
     ∧ PaperSearcher.search_and_extract web kw plat c
       = ([url], Raise (HTTPError (status_code resp)))).
Proof.
  intros Hurl. split.
  - intros Hweb.
    assert (PaperSearcher.search_papers web kw plat c
            = ([url], Raise RequestException)) as Hs.
    { unfold PaperSearcher.search_papers. rewrite Hurl.
      unfold requests_get. by rewrite Hweb. }
    split; [exact Hs|].
    unfold PaperSearcher.search_and_extract. by rewrite Hs.
  - intros resp Hweb [H1 H2].
    assert (PaperSearcher.search_papers web kw plat c
            = ([url], Raise (HTTPError (status_code resp)))) as Hs.
    { unfold PaperSearcher.search_papers. rewrite Hurl.
      unfold requests_get. rewrite Hweb, bind_pair.
      unfold raise_for_status.
      apply Z.leb_le in H1. apply Z.ltb_lt in H2. by rewrite H1, H2. }
    split; [exact Hs|].
    unfold PaperSearcher.search_and_extract. by rewrite Hs.
Qed.

Lemma search_failure_propagates_witness :
  PaperSearcher.search_and_extract (λ _, Some (mkResponse 503 unlinked))
    (py "graph") (py "cnki") 5
  = ([py "https://search.cnki.com.cn/Search/Result?content=graph"],
     Raise (HTTPError 503)).
Proof.
  apply (proj2 (search_failure_propagates
                  (λ _, Some (mkResponse 503 unlinked)) (py "graph")
                  (py "cnki") 5
                  (py "https://search.cnki.com.cn/Search/Result?content=graph")
                  eq_refl) (mkResponse 503 unlinked) eq_refl).
  simpl. lia.
Defined.

(** X9: the cap is used as a slice bound on the containers: with a cap of
    0 the search request is still issued and no address is returned; with
    a negative cap [-k] no error is raised and the last [k] containers of
    the page are left out, so a page of [n] linked containers yields
    [n - k] addresses. *)
Theorem search_papers_small_caps web kw plat c url resp i l b :
  assoc plat (PaperSearcher.search_urls kw c) = Some url →
  web url = Some resp → status_ok resp → profile plat = Some (i, l, b) →
  (c = 0%Z → PaperSearcher.search_papers web kw plat c = ([url], Ok []))
  ∧ ((c < 0)%Z →
     ∃ urls, PaperSearcher.search_papers web kw plat c = ([url], Ok urls)
       ∧ urls = omap (item_url l b)
                  (take (length (select i (soup resp)) - Z.to_nat (- c))
                        (select i (soup resp)))
       ∧ (Forall (λ item, is_Some (item_url l b item)) (select i (soup resp)) →
          length urls = length (select i (soup resp)) - Z.to_nat (- c))).
Proof.
  intros Hurl Hweb Hok Hprof.
  rewrite (search_papers_ok web kw plat c url resp i l b Hurl Hweb Hok Hprof).
  split.
  - intros ->. reflexivity.
  - intros Hc. eexists. split; [reflexivity|].
    unfold collect_urls, py_slice_to.
    destruct (0 <=? c)%Z eqn:E; [lia|]. split; [done|].
    intros Hall. rewrite omap_length_all by by apply Forall_take.
    rewrite length_take. lia.
Qed.

Lemma search_papers_small_caps_witness :
  let page :=
    cnki_page [linked (py "/a"); linked (py "/b"); linked (py "/c")] in
  PaperSearcher.search_papers (serve page) (py "graph") (py "cnki") 0
  = ([py "https://search.cnki.com.cn/Search/Result?content=graph"], Ok []).
Proof.
  intros page.
  apply (proj1 (search_papers_small_caps (serve page) (py "graph") (py "cnki")
                  0 (py "https://search.cnki.com.cn/Search/Result?content=graph")
                  (mkResponse 200 page) (py ".result-list li") (py "a") []
                  eq_refl eq_refl ltac:(unfold status_ok; simpl; lia) eq_refl)).
  reflexivity.
Defined.

(** ** The search functions of thesis_paper_searcher.py *)

Module ThesisSearchMore.
Import ThesisSearcher SearchFacts SearchMore.

Lemma try_nil_fetch web u (f : Tag → list pystr) :
  try_nil (response ← requests_get web u; ret (f (soup response)))
  = ([u], Ok (match web u with
              | Some resp => f (soup resp)
              | None => []
              end)).
Proof.
  unfold try_nil, requests_get. destruct (web u); reflexivity.
Qed.

(** Each of the four functions requests the address that [search_papers]
    requests for the platform and uses the selectors of its branch. *)
Lemma thesis_search_eq plat search web kw c :
  (plat, search) ∈ thesis_searches →
  ∃ url i l b,
    assoc plat (PaperSearcher.search_urls kw c) = Some url
    ∧ profile plat = Some (i, l, b)
    ∧ search web kw c
      = ([url], Ok (match web url with
                    | Some resp => collect_urls i l b c (soup resp)
                    | None => []
                    end)).
Proof.
  intros Hin. unfold thesis_searches in Hin.
  repeat (apply elem_of_cons in Hin as [[= -> ->]|Hin];
          [eexists _, _, _, _; split; [reflexivity|];
           split; [reflexivity|]; apply try_nil_fetch|]).
  by apply elem_of_nil in Hin.
Qed.

End ThesisSearchMore.

Import ThesisSearchMore.

(** X10: [search_cnki], [search_wanfang], [search_arxiv] and
    [search_openalex] never raise and issue exactly one request: when the
    request gets no answer they return the empty list, and otherwise they
    return the capped links of the page whatever the status code of the
    answer is. *)
Theorem thesis_searches_never_raise plat search web kw c :
  (plat, search) ∈ thesis_searches →
  ∃ url urls,
    search web kw c = ([url], Ok urls)
    ∧ (web url = None → urls = [])
    ∧ ((0 ≤ c)%Z → length urls ≤ Z.to_nat c)
    ∧ (∀ resp status,
         web url = Some resp →
         search (λ _, Some (mkResponse status (soup resp))) kw c
         = ([url], Ok urls)).
Proof.
  intros Hin.
  destruct (thesis_search_eq plat search web kw c Hin)
    as (url & i & l & b & Hurl & Hprof & Hrun).
  exists url. eexists. split; [exact Hrun|]. split; [|split].
  - by intros ->.
  - intros Hc. destruct (web url); [by apply collect_urls_length|].
    simpl. lia.
  - intros resp status Hweb.
    destruct (thesis_search_eq plat search
                (λ _, Some (mkResponse status (soup resp))) kw c Hin)
      as (url' & i' & l' & b' & Hurl' & Hprof' & Hrun').
    rewrite Hrun', Hweb. simpl. congruence.
Qed.

Lemma thesis_searches_never_raise_witness :
  (py "cnki", ThesisSearcher.search_cnki) ∈ thesis_searches ∧
  ∃ url, ThesisSearcher.search_cnki (λ _, None) (py "graph") 5
         = ([url], Ok []).
Proof.
  assert ((py "cnki", ThesisSearcher.search_cnki) ∈ thesis_searches) as Hin.
  { apply list_elem_of_here. }
  split; [exact Hin|].
  destruct (thesis_searches_never_raise _ _ (λ _, None) (py "graph") 5 Hin)
    as (url & urls & Hrun & Hnone & _).
  exists url. rewrite Hrun. by rewrite (Hnone eq_refl).
Defined.

(** ** The detail extractors *)

Module ExtractMore.
Import PaperSearcher ExtractFacts ThesisFacts PaperSearchFacts SearchMore.

(** A doi element without a [content] attribute: the subscript raises. *)
Lemma set_doi_meta_raise soup p0 e :
  select_one (meta_name "citation_doi") soup = Some e →
  tag_get (py "content") e = None →
  set_doi_meta soup p0 = Raise (KeyError (py "content")).
Proof.
  intros He Hc. unfold set_doi_meta, tag_item. by rewrite He, Hc.
Qed.

Lemma extract_raise u plat soup e :
  plat ∈ [py "cnki"; py "arxiv"] →
  select_one (meta_name "citation_doi") soup = Some e →
  tag_get (py "content") e = None →
  ∃ ex, extract u plat soup = Raise ex.
Proof.
  intros Hp He Hc.
  apply elem_of_cons in Hp as [->|Hp];
    [|apply elem_of_cons in Hp as [->|Hp]; [|by apply elem_of_nil in Hp]].
  - exists (KeyError (py "content")).
    change (extract u (py "cnki") soup)
      with (details_cnki soup (new_paper u (py "cnki"))).
    unfold details_cnki. by apply set_doi_meta_raise with e.
  - change (extract u (py "arxiv") soup)
      with (details_arxiv soup (new_paper u (py "arxiv"))).
    unfold details_arxiv, tag_item.
    destruct (select_one (meta_name "citation_title") soup) as [te|];
      [destruct (tag_get (py "content") te); [|by eexists]|];
      (destruct (select_one (meta_name "citation_journal_title") soup)
         as [je|]; [destruct (tag_get (py "content") je); [|by eexists]|]);
      (destruct (select_one (meta_name "citation_date") soup) as [ye|];
       [destruct (tag_get (py "content") ye); [|by eexists]|]);
      simpl; erewrite set_doi_meta_raise by done; by eexists.
Qed.

(** The year of a record of [get_paper_details]. *)
Lemma extract_year_length u plat soup p y :
  extract u plat soup = Ok p → year p = Val y → length y ≤ 4.
Proof.
  unfold extract. repeat case_bool_decide; intros Hx Hy.
  - apply details_cnki_fields in Hx as (_ & _ & _ & _ & _ & Hyear & _).
    rewrite Hyear in Hy. destruct (or_else _ _); [|done].
    injection Hy as <-. rewrite length_take. lia.
  - apply details_arxiv_fields in Hx as (_ & _ & _ & _ & Hyear & _).
    rewrite Hyear in Hy.
    destruct (select_one (meta_name "citation_date") soup) as [e|]; [|done].
    destruct (tag_get (py "content") e); [|done].
    injection Hy as <-. rewrite length_take. lia.
  - apply details_openalex_fields in Hx as (_ & _ & _ & _ & Hyear & _).
    rewrite Hyear in Hy. destruct (or_else _ _); [|done].
    injection Hy as <-. rewrite length_take. lia.
  - by injection Hx as <-.
Qed.

Lemma year_of_text_length isdecimal text :
  length (ThesisSearcher.year_of_text isdecimal text) ≤ 4.
Proof.
  unfold ThesisSearcher.year_of_text.
  pose proof (re_search_d4_spec isdecimal text) as H.
  destruct (ThesisSearcher.re_search_d4 isdecimal text) as [run|].
  - destruct H as (pre & (post & _ & Hlen & _) & _). lia.
  - unfold py_prefix. rewrite length_take. lia.
Qed.

Lemma parse_year u plat soup p :
  PaperSearch.parse u plat soup = Ok p →
  ∃ y, year p = Val y ∧ length y ≤ 4.
Proof.
  unfold PaperSearch.parse.
  repeat case_bool_decide.
  - unfold PaperSearch.parse_nih, PaperSearch.set_if. intros [= <-].
    destruct (select_one (py "h1.title") soup),
      (select_one (py "div.authors") soup),
      (select_one (py "span.journal-title") soup),
      (select_one (py "span.publish-date") soup);
      eexists; (split; [reflexivity|]);
      repeat match goal with
             | |- context [match ?x with [] => _ | _ :: _ => _ end] =>
                 destruct x
             end; simpl; lia.
  - unfold PaperSearch.parse_hanspub, PaperSearch.set_if, tag_item.
    destruct (select_one (py "div.ptitle") soup),
      (select_one (py "div.author") soup),
      (select_one (meta_name "citation_journal_title") soup) as [je|];
      try destruct (tag_get (py "content") je); simpl; try done;
      intros [= <-]; simpl; eexists; (split; [reflexivity|]); simpl; lia.
  - unfold PaperSearch.parse_wikipedia, PaperSearch.set_if. intros [= <-].
    destruct (select_one (py "h1.firstHeading") soup); simpl;
      eexists; (split; [reflexivity|]); simpl; lia.
  - intros [= <-]. simpl. eexists. split; [reflexivity|]. simpl. lia.
Qed.

(** The authors of a record, by extractor. *)
Lemma details_openalex_authors soup p0 p :
  details_openalex soup p0 = Ok p →
  authors p
  = Val (map get_text_strip (py_slice_to 5 (select (py ".authors span") soup))).
Proof.
  unfold details_openalex. intros [= <-].
  by destruct (or_else (select_one (py ".year") soup) _).
Qed.

Lemma details_arxiv_authors soup p0 p :
  details_arxiv soup p0 = Ok p →
  authors p = Val (map get_text_strip (select (py ".authors a") soup)).
Proof.
  unfold details_arxiv, tag_item.
  destruct (select_one (meta_name "citation_title") soup) as [te|];
    [destruct (tag_get (py "content") te); [|done]|];
    (destruct (select_one (meta_name "citation_journal_title") soup) as [je|];
     [destruct (tag_get (py "content") je); [|done]|]);
    (destruct (select_one (meta_name "citation_date") soup) as [ye|];
     [destruct (tag_get (py "content") ye); [|done]|]);
    simpl; intros H; apply set_doi_meta_ok in H as (v & -> & _); done.
Qed.

Lemma extract_cnki_authors isdecimal u soup p :
  ThesisSearcher.extract_cnki isdecimal u soup = Ok (Some p) →
  url p = Val u ∧ platform p = Val (py "cnki")
  ∧ authors p
    = Val (map get_text_strip (py_slice_to 5 (select (py ".author a") soup))).
Proof.
  unfold ThesisSearcher.extract_cnki. intros H.
  destruct (set_doi_meta soup _) as [rec|] eqn:Hdoi; [|done].
  simpl in H. injection H as H. apply if_titled_some in H as [-> _].
  apply set_doi_meta_ok in Hdoi as (v & -> & _).
  by destruct (select_one (py ".publish-date") soup).
Qed.

Lemma extract_arxiv_authors u soup p :
  ThesisSearcher.extract_arxiv u soup = Ok (Some p) →
  url p = Val u ∧ platform p = Val (py "arxiv")
  ∧ authors p = Val (map get_text_strip (select (py ".authors a") soup)).
Proof.
  unfold ThesisSearcher.extract_arxiv, tag_item.
  destruct (select_one (meta_name "citation_title") soup) as [te|];
    [destruct (tag_get (py "content") te); [|done]|];
    (destruct (select_one (meta_name "citation_journal_title") soup) as [je|];
     [destruct (tag_get (py "content") je); [|done]|]);
    (destruct (select_one (meta_name "citation_date") soup) as [ye|];
     [destruct (tag_get (py "content") ye); [|done]|]);
    simpl; intros H;
    (destruct (set_doi_meta soup _) as [rec|] eqn:Hdoi; [|done]);
    simpl in H; injection H as H; apply if_titled_some in H as [-> _];
    apply set_doi_meta_ok in Hdoi as (v & -> & _); done.
Qed.

End ExtractMore.

Import ExtractMore.

(** X12: [get_paper_details] issues exactly one request and never raises.
    It returns [None] when the request gets no answer, when the answer has
    a status from 400 to 599, and, for cnki and arXiv, when the page has a
    doi element without a [content] attribute; a record it returns
    carries the address and the platform it was called with. *)
Theorem get_paper_details_outcomes web u plat :
  ∃ r, PaperSearcher.get_paper_details web u plat = ([u], Ok r)
       ∧ (web u = None → r = None)
       ∧ (∀ resp, web u = Some resp → (400 ≤ status_code resp < 600)%Z →
            r = None)
       ∧ (∀ resp e, web u = Some resp →
            plat ∈ [py "cnki"; py "arxiv"] →
            select_one (meta_name "citation_doi") (soup resp) = Some e →
            tag_get (py "content") e = None → r = None)
       ∧ (∀ p, r = Some p → url p = Val u ∧ platform p = Val plat).
Proof.
  pose proof (get_paper_details_record web u plat) as Hrec.
  rewrite get_paper_details_eq in *. eexists. split; [reflexivity|].
  split; [|split; [|split]].
  - by intros ->.
  - intros resp -> [H1 H2]. apply Z.leb_le in H1. apply Z.ltb_lt in H2.
    by rewrite H1, H2.
  - intros resp e -> Hp He Hc.
    destruct (extract_raise u plat (soup resp) e Hp He Hc) as [ex ->].
    by destruct (_ && _).
  - intros p Hp. apply Hrec. simpl. by rewrite Hp.
Qed.

Lemma get_paper_details_outcomes_witness :
  let doi := mkTag [] [] [] in
  let page :=
    mkTag [] [] [(py "#mainTitle", [mkTag [py "Graph Theory"] [] []]);
                 (meta_name "citation_doi", [doi])] in
  PaperSearcher.get_paper_details (serve page) (py "u") (py "cnki")
  = ([py "u"], Ok None).
Proof.
  intros doi page.
  destruct (get_paper_details_outcomes (serve page) (py "u") (py "cnki"))
    as (r & Hrun & _ & _ & Hkey & _).
  rewrite Hrun. f_equal. f_equal.
  apply (Hkey (mkResponse 200 page) doi); try reflexivity.
  apply list_elem_of_here.
Defined.

(** X13: [get_cnki_paper_details] and [get_arxiv_paper_details] issue
    exactly one request, never raise, and do not look at the status code:
    for an answer with status 404 they return what they return for the
    same page with status 200, where [get_paper_details] returns
    [None]. *)
Theorem thesis_details_ignore_status web isdecimal u resp :
  web u = Some resp →
  (∃ r, ThesisSearcher.get_cnki_paper_details web isdecimal u = ([u], Ok r)
        ∧ ∀ status,
            ThesisSearcher.get_cnki_paper_details
              (λ _, Some (mkResponse status (soup resp))) isdecimal u
            = ([u], Ok r))
  ∧ (∃ r, ThesisSearcher.get_arxiv_paper_details web u = ([u], Ok r)
          ∧ ∀ status,
              ThesisSearcher.get_arxiv_paper_details
                (λ _, Some (mkResponse status (soup resp))) u
              = ([u], Ok r))
  ∧ (∀ plat, (400 ≤ status_code resp < 600)%Z →
       PaperSearcher.get_paper_details web u plat = ([u], Ok None)).
Proof.
  intros Hweb. split; [|split].
  - eexists. split.
    + rewrite get_cnki_paper_details_eq, Hweb. reflexivity.
    + intros status. by rewrite get_cnki_paper_details_eq.
  - eexists. split.
    + rewrite get_arxiv_paper_details_eq, Hweb. reflexivity.
    + intros status. by rewrite get_arxiv_paper_details_eq.
  - intros plat [H1 H2]. rewrite get_paper_details_eq, Hweb.
    apply Z.leb_le in H1. apply Z.ltb_lt in H2. by rewrite H1, H2.
Qed.

Lemma thesis_details_ignore_status_witness :
  let page :=
    mkTag [] [] [(py "#mainTitle", [mkTag [py "Not Found"] [] []])] in
  let web : Web := λ _, Some (mkResponse 404 page) in
  (∃ p, ThesisSearcher.get_cnki_paper_details web ascii_digit (py "u")
        = ([py "u"], Ok (Some p)))
  ∧ PaperSearcher.get_paper_details web (py "u") (py "cnki")
    = ([py "u"], Ok None).
Proof.
  intros page web.
  destruct (thesis_details_ignore_status web ascii_digit (py "u")
              (mkResponse 404 page) eq_refl) as ((r & Hr & _) & _ & Hnone).
  split.
  - rewrite Hr. vm_compute in Hr. injection Hr as <-. by eexists.
  - apply Hnone. simpl. lia.
Defined.

(** X14: the year of a record, when it is a string, has at most four
    characters, for every extractor of the three scripts. *)
Theorem extracted_year_at_most_four_characters :
  (∀ web u plat p y,
     (PaperSearcher.get_paper_details web u plat).2 = Ok (Some p) →
     year p = Val y → length y ≤ 4)
  ∧ (∀ web isdecimal u p y,
       (ThesisSearcher.get_cnki_paper_details web isdecimal u).2
         = Ok (Some p) →
       year p = Val y → length y ≤ 4)
  ∧ (∀ web u p y,
       (ThesisSearcher.get_arxiv_paper_details web u).2 = Ok (Some p) →
       year p = Val y → length y ≤ 4)
  ∧ (∀ web u plat p y,
       (PaperSearch.search_academic_paper web u plat).2 = Ok (Some p) →
       year p = Val y → length y ≤ 4).
Proof.
  split; [|split; [|split]].
  - intros web u plat p y H Hy.
    apply get_paper_details_some in H as (resp & _ & H).
    by eapply extract_year_length.
  - intros web isdecimal u p y H Hy.
    apply get_cnki_paper_details_some in H as (resp & _ & H).
    apply extract_cnki_fields in H as (_ & _ & _ & Hyear & _).
    rewrite Hyear in Hy.
    destruct (select_one (py ".publish-date") (soup resp)); [|done].
    injection Hy as <-. apply year_of_text_length.
  - intros web u p y H Hy.
    apply get_arxiv_paper_details_some in H as (resp & _ & H).
    apply extract_arxiv_fields in H as (_ & _ & Hnone & Hsome & _).
    destruct (select_one (meta_name "citation_date") (soup resp)) as [e|].
    + destruct (Hsome e eq_refl) as (c & _ & Hyear).
      rewrite Hyear in Hy. injection Hy as <-. rewrite length_take. lia.
    + rewrite (Hnone eq_refl) in Hy. done.
  - intros web u plat p y H Hy.
    apply search_academic_paper_some in H as (resp & _ & H).
    apply parse_year in H as (y' & Hy' & Hlen). congruence.
Qed.

Lemma extracted_year_at_most_four_characters_witness :
  let page :=
    mkTag [] [] [(py "#mainTitle", [mkTag [py "Graph Theory"] [] []]);
                 (py ".publish-date", [mkTag [py "Published 2023-05-01"] [] []])] in
  ∃ p y, (PaperSearcher.get_paper_details (serve page) (py "u") (py "cnki")).2
           = Ok (Some p)
         ∧ year p = Val y ∧ length y ≤ 4.
Proof.
  intros page. eexists _, (py "Publ").
  split; [vm_compute; reflexivity|]. split; [reflexivity|].
  eapply (proj1 extracted_year_at_most_four_characters (serve page) (py "u")
            (py "cnki")); [vm_compute|]; reflexivity.
Defined.

(** X15: the cnki and openalex records hold the texts of the first five
    author elements of the page, in document order, and never more than
    five authors; the arXiv records hold the texts of all author
    elements. *)
Theorem extracted_authors :
  (∀ web u plat p,
     (PaperSearcher.get_paper_details web u plat).2 = Ok (Some p) →
     ∃ resp, web u = Some resp
       ∧ (plat = py "cnki" →
          authors p = Val (map get_text_strip
                             (take 5 (select (py ".author a") (soup resp)))))
       ∧ (plat = py "openalex" →
          authors p = Val (map get_text_strip
                             (take 5 (select (py ".authors span") (soup resp)))))
       ∧ (plat = py "arxiv" →
          authors p = Val (map get_text_strip
                             (select (py ".authors a") (soup resp))))
       ∧ (plat ∈ [py "cnki"; py "openalex"] →
          ∃ l, authors p = Val l ∧ length l ≤ 5))
  ∧ (∀ web isdecimal u p,
       (ThesisSearcher.get_cnki_paper_details web isdecimal u).2
         = Ok (Some p) →
       ∃ resp, web u = Some resp
         ∧ authors p = Val (map get_text_strip
                              (take 5 (select (py ".author a") (soup resp)))))
  ∧ (∀ web u p,
       (ThesisSearcher.get_arxiv_paper_details web u).2 = Ok (Some p) →
       ∃ resp, web u = Some resp
         ∧ authors p = Val (map get_text_strip
                              (select (py ".authors a") (soup resp)))).
Proof.
  split; [|split].
  - intros web u plat p H.
    apply get_paper_details_some in H as (resp & Hweb & H).
    exists resp. split; [done|].
    assert (plat = py "cnki" →
            authors p = Val (map get_text_strip
                               (take 5 (select (py ".author a") (soup resp)))))
      as Hc.
    { intros ->.
      by apply details_cnki_fields in H as (_ & _ & _ & Ha & _). }
    assert (plat = py "openalex" →
            authors p = Val (map get_text_strip
                               (take 5 (select (py ".authors span") (soup resp)))))
      as Ho.
    { intros ->. by apply details_openalex_authors in H. }
    split; [done|]. split; [done|]. split.
    + intros ->. by apply details_arxiv_authors in H.
    + intros Hp.
      apply elem_of_cons in Hp as [->|Hp];
        [|apply elem_of_cons in Hp as [->|Hp]; [|by apply elem_of_nil in Hp]].
      * eexists. split; [by apply Hc|]. rewrite length_map, length_take. lia.
      * eexists. split; [by apply Ho|]. rewrite length_map, length_take. lia.
  - intros web isdecimal u p H.
    apply get_cnki_paper_details_some in H as (resp & Hweb & H).
    exists resp. split; [done|].
    by apply extract_cnki_authors in H as (_ & _ & Ha).
  - intros web u p H.
    apply get_arxiv_paper_details_some in H as (resp & Hweb & H).
    exists resp. split; [done|].
    by apply extract_arxiv_authors in H as (_ & _ & Ha).
Qed.

Lemma extracted_authors_witness :
  let a n := mkTag [py n] [] [] in
  let page :=
    mkTag [] []
      [(py "#mainTitle", [mkTag [py "Graph Theory"] [] []]);
       (py ".author a",
        [a "A"%string; a "B"%string; a "C"%string; a "D"%string;
         a "E"%string; a "F"%string])] in
  ∃ p, (PaperSearcher.get_paper_details (serve page) (py "u") (py "cnki")).2
         = Ok (Some p)
       ∧ authors p = Val [py "A"; py "B"; py "C"; py "D"; py "E"].
Proof.
  intros a page.
  destruct (PaperSearcher.get_paper_details (serve page) (py "u") (py "cnki"))
    as [log [[p|]|e]] eqn:H; try (vm_compute in H; discriminate H).
  exists p. split; [reflexivity|].
  destruct (proj1 extracted_authors (serve page) (py "u") (py "cnki") p)
    as (resp & Hweb & Hc & _).
  { by rewrite H. }
  injection Hweb as <-. rewrite (Hc eq_refl). reflexivity.
Defined.

(** ** [main] of thesis_paper_searcher.py *)

Module MainMore.
Import ThesisSearcher SearchFacts SearchMore ThesisFacts ThesisSearchMore
       ExtractMore DedupeFacts PaperSearchFacts.

Section Loops.
Variable search : pystr → Z → IO (list pystr).
Variable details : pystr → IO (option Paper).
Variable P : Paper → Prop.

(** The search never raises, issues one request and lists only non-empty
    addresses; on such an address the extractor never raises, issues one
    request, and returns nothing or a record that satisfies [P]. *)
Hypothesis search_ok :
  ∀ kw c, ∃ url urls, search kw c = ([url], Ok urls)
                      ∧ Forall (λ u, u ≠ []) urls.
Hypothesis details_ok :
  ∀ u, u ≠ [] → ∃ r, details u = ([u], Ok r) ∧ ∀ p, r = Some p → P p.

Lemma collect_run urls :
  Forall (λ u, u ≠ []) urls →
  ∀ acc, ∃ added,
    collect details urls acc = (urls, Ok (acc ++ added))
    ∧ Forall P added ∧ length added ≤ length urls.
Proof.
  induction 1 as [|u urls Hu _ IH]; intros acc.
  - exists []. rewrite app_nil_r. by repeat constructor.
  - cbn [collect]. destruct (details_ok u Hu) as (r & -> & Hr).
    rewrite bind_pair.
    destruct r as [p|]; [destruct (truthy (dict_get (title p)))|].
    + destruct (IH (acc ++ [p])) as (added & -> & Hadd & Hlen).
      exists (p :: added). rewrite <- app_assoc. split; [done|].
      split; [constructor; [by apply Hr | done]|]. simpl. lia.
    + destruct (IH acc) as (added & -> & Hadd & Hlen).
      exists added. split; [done|]. split; [done|]. simpl. lia.
    + destruct (IH acc) as (added & -> & Hadd & Hlen).
      exists added. split; [done|]. split; [done|]. simpl. lia.
Qed.

Lemma per_keyword_run kws :
  ∀ acc, ∃ log added,
    per_keyword search details kws acc = (log, Ok (acc ++ added))
    ∧ Forall P added ∧ length added ≤ 3 * length kws
    ∧ length log ≤ 4 * length kws.
Proof.
  induction kws as [|kw kws IH]; intros acc.
  - exists [], []. rewrite app_nil_r. by repeat constructor.
  - cbn [per_keyword].
    destruct (search_ok kw 5%Z) as (url & urls & -> & Hurls).
    rewrite bind_pair.
    assert (Forall (λ u, u ≠ []) (py_slice_to 3 urls)) as Hcut.
    { by apply Forall_take. }
    destruct (collect_run _ Hcut acc) as (added & -> & Hadd & Hlen).
    rewrite bind_pair. simpl.
    destruct (IH (acc ++ added)) as (log & added' & -> & Hadd' & Hlen' & Hlog).
    exists (url :: py_slice_to 3 urls ++ log), (added ++ added').
    rewrite <- app_assoc. split; [done|].
    split; [by apply Forall_app|].
    assert (length (py_slice_to 3 urls) ≤ 3) as Hthree.
    { unfold py_slice_to. simpl. rewrite length_take. lia. }
    revert Hlen Hthree.
    generalize (py_slice_to 3 urls). intros cut Hlen Hthree.
    rewrite !length_app. simpl. rewrite length_app.
    clear -Hlen Hthree Hlen' Hlog. unfold pystr, char in *. split; lia.
Qed.

End Loops.

(** A record that passes the verifier and carries the given platform. *)
Lemma verified_record p u plat :
  u ≠ [] → url p = Val u → platform p = Val plat → titled_record p →
  PaperSearch.verify_reference p = true ∧ platform p = Val plat.
Proof.
  intros Hu Hurl Hplat Ht. split; [|done].
  apply verify_reference_true. split; [done|]. by exists u.
Qed.

Lemma thesis_search_ok plat search web :
  (plat, search) ∈ thesis_searches →
  ∀ kw c, ∃ url urls, search web kw c = ([url], Ok urls)
                      ∧ Forall (λ u, u ≠ []) urls.
Proof.
  intros Hin kw c.
  destruct (thesis_search_eq plat search web kw c Hin)
    as (url & i & l & b & _ & _ & ->).
  eexists _, _. split; [reflexivity|].
  destruct (web url); [|constructor].
  eapply Forall_impl; [apply collect_urls_shape|].
  intros u (href & Hne & ->). by destruct b, href.
Qed.

Lemma cnki_details_ok web isdecimal u :
  u ≠ [] →
  ∃ r, get_cnki_paper_details web isdecimal u = ([u], Ok r)
       ∧ ∀ p, r = Some p →
              PaperSearch.verify_reference p = true
              ∧ platform p = Val (py "cnki").
Proof.
  intros Hu. pose proof (get_cnki_paper_details_some isdecimal web u) as Hs.
  rewrite get_cnki_paper_details_eq in *. eexists. split; [reflexivity|].
  intros p Hp. simpl in Hs. rewrite Hp in Hs.
  destruct (Hs p eq_refl) as (resp & _ & Hx).
  pose proof (extract_cnki_authors _ _ _ _ Hx) as (Hurl & Hplat & _).
  apply extract_cnki_fields in Hx as (Ht & _).
  by apply (verified_record p u).
Qed.

Lemma arxiv_details_ok web u :
  u ≠ [] →
  ∃ r, get_arxiv_paper_details web u = ([u], Ok r)
       ∧ ∀ p, r = Some p →
              PaperSearch.verify_reference p = true
              ∧ platform p = Val (py "arxiv").
Proof.
  intros Hu. pose proof (get_arxiv_paper_details_some web u) as Hs.
  rewrite get_arxiv_paper_details_eq in *. eexists. split; [reflexivity|].
  intros p Hp. simpl in Hs. rewrite Hp in Hs.
  destruct (Hs p eq_refl) as (resp & _ & Hx).
  pose proof (extract_arxiv_authors _ _ _ Hx) as (Hurl & Hplat & _).
  apply extract_arxiv_fields in Hx as (Ht & _).
  by apply (verified_record p u).
Qed.

Lemma verified_title p :
  PaperSearch.verify_reference p = true → title p ≠ PyNone.
Proof.
  intros H. apply verify_reference_true in H as [(t & -> & _) _]. done.
Qed.

(** A run of [main]: the records collected from cnki, then those from
    arXiv, and the de-duplication of the two together. *)
Lemma main_run web isdecimal :
  ∃ log from_cnki from_arxiv out,
    main web isdecimal = (log, Ok out)
    ∧ length log ≤ 16
    ∧ Forall (λ p, PaperSearch.verify_reference p = true
                   ∧ platform p = Val (py "cnki")) from_cnki
    ∧ Forall (λ p, PaperSearch.verify_reference p = true
                   ∧ platform p = Val (py "arxiv")) from_arxiv
    ∧ length from_cnki ≤ 6 ∧ length from_arxiv ≤ 6
    ∧ Dedupe.dedupe (from_cnki ++ from_arxiv) = Ok out.
Proof.
  unfold main.
  destruct (per_keyword_run (search_cnki web)
              (get_cnki_paper_details web isdecimal) _
              (thesis_search_ok (py "cnki") search_cnki web
                 ltac:(apply list_elem_of_here))
              (cnki_details_ok web isdecimal) (py_slice_to 2 keywords) [])
    as (log1 & a1 & -> & Ha1 & Hl1 & Hlog1).
  rewrite bind_pair. change ([] ++ a1) with a1.
  destruct (per_keyword_run (search_arxiv web) (get_arxiv_paper_details web) _
              (thesis_search_ok (py "arxiv") search_arxiv web
                 ltac:(do 2 apply list_elem_of_further;
                       apply list_elem_of_here))
              (arxiv_details_ok web) (py_slice_to 2 keywords) a1)
    as (log2 & a2 & -> & Ha2 & Hl2 & Hlog2).
  rewrite bind_pair.
  assert (Forall (λ p, title p ≠ PyNone) (a1 ++ a2)) as Ht.
  { apply Forall_app. split; (eapply Forall_impl; [eassumption|]);
      intros p [Hv _]; by apply verified_title. }
  destruct (dedupe_total _ Ht) as [out Hout].
  exists (log1 ++ log2 ++ []), a1, a2, out.
  unfold lift. cbn [fst snd]. rewrite Hout.
  change (length (py_slice_to 2 keywords)) with 2 in *.
  split; [done|]. rewrite !length_app. cbn [length].
  unfold pystr, char in *. repeat split; try done; lia.
Qed.

End MainMore.

Import MainMore.

(** X16: [main] never raises, whatever the network answers: it issues at
    most 16 requests (four searches and at most three detail pages for
    each) and returns at most 12 records. *)
Theorem main_never_raises web isdecimal :
  ∃ log out,
    ThesisSearcher.main web isdecimal = (log, Ok out)
    ∧ length log ≤ 16 ∧ length out ≤ 12.
Proof.
  destruct (main_run web isdecimal)
    as (log & a1 & a2 & out & Hrun & Hlog & _ & _ & H1 & H2 & Hd).
  exists log, out. split; [done|]. split; [done|].
  pose proof (dedupe_ok_titles _ _ Hd) as Ht.
  destruct (dedupe_shape _ Ht out Hd) as (Hsub & _).
  apply sublist_length in Hsub. rewrite length_app in Hsub. lia.
Qed.

(** X17: the records that [main] returns all pass [verify_reference],
    have pairwise different stripped titles, and come in two groups: the
    cnki records first, then the arXiv records. *)
Theorem main_output_verified web isdecimal log out :
  ThesisSearcher.main web isdecimal = (log, Ok out) →
  NoDup (map title_key out)
  ∧ ∃ cnki arxiv,
      out = cnki ++ arxiv
      ∧ Forall (λ p, PaperSearch.verify_reference p = true
                     ∧ platform p = Val (py "cnki")) cnki
      ∧ Forall (λ p, PaperSearch.verify_reference p = true
                     ∧ platform p = Val (py "arxiv")) arxiv.
Proof.
  intros H.
  destruct (main_run web isdecimal)
    as (log' & a1 & a2 & out' & Hrun & _ & Ha1 & Ha2 & _ & _ & Hd).
  rewrite Hrun in H. injection H as _ <-.
  pose proof (dedupe_ok_titles _ _ Hd) as Ht.
  destruct (dedupe_shape _ Ht out' Hd) as (Hsub & Hnd & _).
  split; [done|].
  apply sublist_app_r in Hsub as (o1 & o2 & -> & Hs1 & Hs2).
  exists o1, o2. split; [done|]. split.
  - apply Forall_forall. intros p Hp.
    eapply Forall_forall in Ha1; [exact Ha1|]. by eapply elem_of_sublist.
  - apply Forall_forall. intros p Hp.
    eapply Forall_forall in Ha2; [exact Ha2|]. by eapply elem_of_sublist.
Qed.

Lemma main_output_verified_witness :
  let page :=
    mkTag [] []
      [(py ".result-list li", [linked (py "/d/1"); linked (py "/d/2")]);
       (py "#mainTitle", [mkTag [py "Graph Theory"] [] []])] in
  ∃ log out,
    ThesisSearcher.main (serve page) ascii_digit = (log, Ok out)
    ∧ length log = 8 ∧ length out = 1
    ∧ NoDup (map title_key out).
Proof.
  intros page.
  destruct (ThesisSearcher.main (serve page) ascii_digit)
    as [log [out|e]] eqn:H.
  - exists log, out. split; [reflexivity|].
    pose proof (proj1 (main_output_verified _ _ _ _ H)) as Hnd.
    vm_compute in H. injection H as <- <-.
    split; [reflexivity|]. split; [reflexivity | exact Hnd].
  - vm_compute in H. discriminate H.
Defined.

(** ** References of extracted records *)

Module ReferenceMore.
Import PaperSearcher SearchFacts SearchMore ReferenceFacts PipelineFacts.

(** The records of a run of [search_and_extract]: each has a usable title
    and the non-empty address of one of the detail requests. *)
Lemma search_and_extract_records web kw plat c log out :
  search_and_extract web kw plat c = (log, Ok out) →
  Forall (λ p, titled_record p
               ∧ ∃ u, url p = Val u ∧ u ≠ [] ∧ u ∈ tail log) out.
Proof.
  unfold search_and_extract. intros H.
  destruct (search_papers web kw plat c) as [l [urls|e]] eqn:Hs;
    [|by rewrite bind_raise in H].
  destruct (search_papers_returns _ _ _ _ _ _ Hs)
    as (surl & resp & i & lk & b & _ & _ & _ & _ & -> & Hurls).
  rewrite bind_pair in H.
  destruct (extract_all_run web plat urls) as (out' & Hrun & Hsub & Hall).
  rewrite Hrun in H. simpl in H. injection H as <- <-.
  apply Forall_forall. intros p Hp.
  eapply Forall_forall in Hall; [|exact Hp]. destruct Hall as [_ Ht].
  split; [done|].
  assert (url p ∈ map Val urls) as Hu.
  { eapply elem_of_sublist; [|exact Hsub]. by apply list_elem_of_fmap_2. }
  apply list_elem_of_fmap in Hu as (u & Hu & Hin).
  exists u. split; [done|]. split; [|done].
  pose proof (collect_urls_shape i lk b c (soup resp)) as Hshape.
  rewrite <- Hurls in Hshape.
  eapply Forall_forall in Hshape; [|exact Hin].
  destruct Hshape as (href & Hne & ->). by destruct b, href.
Qed.

(** The shape of the reference of a record with a title and an address. *)
Lemma reference_shape p t u :
  title p = Val t → url p = Val u → u ≠ [] →
  ref_head `prefix_of` generate_reference p
  ∧ contains (py ". " ++ t ++ py "[J]. ") (generate_reference p)
  ∧ (url_line ++ u) `suffix_of` generate_reference p.
Proof.
  intros Ht Hu Hne. rewrite generate_reference_eq.
  rewrite (blank_not_val _ u Hu Hne). unfold ref_body, ref_url, ref_title.
  rewrite Ht, Hu. cbn [dict_get_default fmt].
  split; [|split].
  - eexists. rewrite <- !app_assoc. reflexivity.
  - exists (ref_head ++ ref_authors p). eexists.
    rewrite <- !app_assoc. reflexivity.
  - eexists. rewrite !app_assoc. reflexivity.
Qed.

End ReferenceMore.

Import ReferenceMore.

(** X18: the reference generated for any record that
    [search_and_extract] returns starts with the fixed head, holds the
    title of the record between ". " and "[J]. ", and ends with the
    SourceURL line for the address the record was fetched from. *)
Theorem reference_of_search_result web kw plat c log out p :
  PaperSearcher.search_and_extract web kw plat c = (log, Ok out) →
  p ∈ out →
  ∃ t u,
    title p = Val t ∧ t ≠ [] ∧ url p = Val u ∧ u ∈ tail log
    ∧ PaperSearcher.ref_head `prefix_of` PaperSearcher.generate_reference p
    ∧ contains (py ". " ++ t ++ py "[J]. ")
               (PaperSearcher.generate_reference p)
    ∧ (url_line ++ u) `suffix_of` PaperSearcher.generate_reference p.
Proof.
  intros H Hp. apply search_and_extract_records in H.
  eapply Forall_forall in H; [|exact Hp].
  destruct H as ((t & Ht & Htne) & u & Hu & Hune & Hin).
  exists t, u. split; [done|]. split; [done|]. split; [done|].
  split; [done|]. by apply reference_shape.
Qed.

Lemma reference_of_search_result_witness :
  ∃ p t u,
    title p = Val t ∧ url p = Val u
    ∧ (url_line ++ u) `suffix_of` PaperSearcher.generate_reference p
    ∧ u = py "https://arxiv.org/abs/1".
Proof.
  destruct (PaperSearcher.search_and_extract arxiv_web (py "deep learning")
              (py "arxiv") 3) as [log [[|p out]|e]] eqn:H;
    try (vm_compute in H; discriminate H).
  destruct (reference_of_search_result _ _ _ _ _ _ p H)
    as (t & u & Ht & _ & Hu & _ & _ & _ & Hsuf).
  { apply list_elem_of_here. }
  exists p, t, u. split; [exact Ht|]. split; [exact Hu|].
  split; [exact Hsuf|].
  vm_compute in H. injection H as _ <- _. simpl in Hu.
  injection Hu as <-. vm_compute. reflexivity.
Defined.

(** ** The reference checker's extractor *)

Module AcademicMore.
Import PaperSearch PaperSearchFacts.

(** The url and the title of a parsed record. *)
Lemma parse_title_url u plat soup p :
  parse u plat soup = Ok p →
  url p = Val u
  ∧ title p = match academic_title_selector plat with
              | Some sel =>
                  match select_one sel soup with
                  | Some e => Val (get_text_strip e)
                  | None => Val []
                  end
              | None => Val []
              end.
Proof.
  unfold parse, academic_title_selector. repeat case_bool_decide.
  - unfold parse_nih. intros [= <-].
    destruct (select_one (py "h1.title") soup),
      (select_one (py "div.authors") soup),
      (select_one (py "span.journal-title") soup),
      (select_one (py "span.publish-date") soup); done.
  - unfold parse_hanspub, tag_item.
    destruct (select_one (meta_name "citation_journal_title") soup) as [j|];
      [destruct (tag_get (py "content") j); [|done]|];
      simpl; intros [= <-];
      destruct (select_one (py "div.ptitle") soup),
        (select_one (py "div.author") soup); done.
  - unfold parse_wikipedia. intros [= <-].
    destruct (select_one (py "h1.firstHeading") soup); done.
  - intros [= <-]. done.
Qed.

(** Every key that [search_academic_paper] initialises stays bound to a
    string or a list; [doi] is never set. *)
Lemma parse_fields u plat soup p :
  parse u plat soup = Ok p →
  platform p = Val plat ∧ doi p = Missing ∧ abstract p = Val []
  ∧ ∃ t a j y, title p = Val t ∧ authors p = Val a
               ∧ journal p = Val j ∧ year p = Val y.
Proof.
  unfold parse. repeat case_bool_decide.
  - unfold parse_nih. intros [= <-].
    destruct (select_one (py "h1.title") soup),
      (select_one (py "div.authors") soup),
      (select_one (py "span.journal-title") soup),
      (select_one (py "span.publish-date") soup); simpl;
      repeat split; by repeat eexists.
  - unfold parse_hanspub, tag_item.
    destruct (select_one (meta_name "citation_journal_title") soup) as [j|];
      [destruct (tag_get (py "content") j); [|done]|];
      simpl; intros [= <-];
      destruct (select_one (py "div.ptitle") soup),
        (select_one (py "div.author") soup); simpl;
      repeat split; by repeat eexists.
  - unfold parse_wikipedia. intros [= <-].
    destruct (select_one (py "h1.firstHeading") soup); simpl;
      repeat split; by repeat eexists.
  - intros [= <-]. simpl. repeat split; by repeat eexists.
Qed.

(** The only exception of the [try] block after the request: the
    journal tag of a hanspub page without a [content] attribute. *)
Lemma parse_raise u plat soup :
  (∃ x, parse u plat soup = Raise x) ↔
  plat = py "hanspub"
  ∧ ∃ e, select_one (meta_name "citation_journal_title") soup = Some e
         ∧ tag_get (py "content") e = None.
Proof.
  unfold parse. repeat case_bool_decide; subst.
  - split; [by intros [x Hx] | by intros [Hp _]].
  - unfold parse_hanspub, tag_item.
    destruct (select_one (meta_name "citation_journal_title") soup) as [j|].
    + destruct (tag_get (py "content") j) eqn:Hc; simpl.
      * split; [by intros [x Hx]|]. intros [_ (e & [= <-] & He)]. congruence.
      * split; [|by eauto]. intros _. split; [done|]. by exists j.
    + split; [by intros [x Hx] | by intros [_ (e & He & _)]].
  - split; [by intros [x Hx] | by intros [Hp _]].
  - split; [by intros [x Hx] | by intros [Hp _]].
Qed.

End AcademicMore.

Import AcademicMore.

(** X20: a record returned by [search_academic_paper] passes
    [verify_reference] exactly when the address is non-empty and the
    title selector of the platform's branch (h1.title for nih,
    div.ptitle for hanspub, h1.firstHeading for wikipedia) matched an
    element with non-empty stripped text; a record of any other platform
    never passes. *)
Theorem academic_record_verified_iff web u plat p :
  (PaperSearch.search_academic_paper web u plat).2 = Ok (Some p) →
  ∃ resp, web u = Some resp
    ∧ (PaperSearch.verify_reference p = true ↔
       u ≠ [] ∧ ∃ sel e, academic_title_selector plat = Some sel
                         ∧ select_one sel (soup resp) = Some e
                         ∧ get_text_strip e ≠ []).
Proof.
  intros H. apply PaperSearchFacts.search_academic_paper_some in H
    as (resp & Hweb & Hp).
  exists resp. split; [done|].
  apply parse_title_url in Hp as [Hu Ht].
  rewrite PaperSearchFacts.verify_reference_true, Hu, Ht. split.
  - intros [(t & Heq & Hne) (u' & [= <-] & Hune)]. split; [done|].
    destruct (academic_title_selector plat) as [sel|];
      [|by injection Heq as <-].
    destruct (select_one sel (soup resp)) as [e|] eqn:He;
      [|by injection Heq as <-].
    exists sel, e. split; [done|]. split; [done|]. by injection Heq as ->.
  - intros [Hune (sel & e & -> & -> & Hne)]. split; eauto.
Qed.

Lemma academic_record_verified_iff_witness :
  let page :=
    mkTag [] [] [(py "h1.firstHeading", [mkTag [py " Spaced repetition "] [] []])] in
  ∃ p, (PaperSearch.search_academic_paper (serve page) (py "w")
          (py "wikipedia")).2 = Ok (Some p)
       ∧ (PaperSearch.verify_reference p = true ↔
          py "w" ≠ [] ∧ ∃ sel e,
            academic_title_selector (py "wikipedia") = Some sel
            ∧ select_one sel page = Some e ∧ get_text_strip e ≠ []).
Proof.
  intros page.
  destruct (PaperSearch.search_academic_paper (serve page) (py "w")
              (py "wikipedia")) as [l [[p|]|x]] eqn:H;
    try (vm_compute in H; discriminate H).
  exists p. split; [reflexivity|].
  destruct (academic_record_verified_iff (serve page) (py "w")
              (py "wikipedia") p) as (resp & Hweb & Hiff).
  { by rewrite H. }
  injection Hweb as <-. exact Hiff.
Defined.

(** X21: [search_academic_paper] sends one request to the given address
    and never raises.  It returns [None] only when the request fails or,
    on the hanspub branch, when the journal [meta] tag has no [content]
    attribute; the status of the response is not looked at.  A returned
    record carries the address and the platform, binds title, authors,
    journal and year to a string or a list (never to [None]) and has no
    doi key. *)
Theorem search_academic_paper_outcomes web u plat :
  ∃ r, PaperSearch.search_academic_paper web u plat = ([u], Ok r)
    ∧ (r = None ↔
       web u = None
       ∨ (plat = py "hanspub"
          ∧ ∃ resp e,
              web u = Some resp
              ∧ select_one (meta_name "citation_journal_title") (soup resp)
                = Some e
              ∧ tag_get (py "content") e = None))
    ∧ (∀ p, r = Some p →
         url p = Val u ∧ platform p = Val plat ∧ doi p = Missing
         ∧ abstract p = Val []
         ∧ ∃ t a j y, title p = Val t ∧ authors p = Val a
                      ∧ journal p = Val j ∧ year p = Val y).
Proof.
  rewrite PaperSearchFacts.search_academic_paper_eq. eexists.
  split; [reflexivity|].
  destruct (web u) as [resp|] eqn:Hweb.
  - destruct (PaperSearch.parse u plat (soup resp)) as [p|x] eqn:Hp.
    + split.
      * split; [done|]. intros [|[Hplat (resp' & e & [= <-] & He)]]; [done|].
        assert (∃ x, PaperSearch.parse u plat (soup resp) = Raise x) as [x Hx].
        { apply parse_raise. eauto. }
        congruence.
      * intros p' [= <-]. split; [by apply (parse_title_url _ _ _ _ Hp)|].
        by apply parse_fields in Hp.
    + split; [|done]. split; [|done]. intros _. right.
      assert (∃ x, PaperSearch.parse u plat (soup resp) = Raise x) as Hx
        by eauto.
      apply parse_raise in Hx as [-> (e & He1 & He2)]. split; [done|].
      by exists resp, e.
  - split; [|done]. split; [by left | done].
Qed.

(** ** The author line of a hanspub page *)

Module AuthorsMore.
Import PaperSearch.

Lemma lstrip_split s : ∃ k, s = k ++ py_lstrip s.
Proof.
  induction s as [|c s [k IH]]; [by exists []|]. simpl.
  destruct (py_isspace c); [|by exists []].
  exists (c :: k). simpl. by rewrite <- IH.
Qed.

Lemma lstrip_head s c r : py_lstrip s = c :: r → py_isspace c = false.
Proof.
  induction s as [|d s IH]; [done|]. simpl.
  destruct (py_isspace d) eqn:E; [done|]. by intros [= <- _].
Qed.

Lemma rstrip_split s : ∃ k, s = py_rstrip s ++ k.
Proof.
  unfold py_rstrip. destruct (lstrip_split (rev s)) as [k Hk].
  exists (rev k). rewrite <- rev_app_distr, <- Hk. by rewrite rev_involutive.
Qed.

Lemma rstrip_last s f c : py_rstrip s = f ++ [c] → py_isspace c = false.
Proof.
  unfold py_rstrip. intros H. apply (f_equal (@rev _)) in H.
  rewrite rev_involutive, rev_app_distr in H. simpl in H.
  by apply lstrip_head in H.
Qed.

Lemma strip_stripped s : stripped (py_strip s).
Proof.
  unfold py_strip. split.
  - intros c r H. destruct (rstrip_split (py_lstrip s)) as [k Hk].
    rewrite H in Hk. simpl in Hk. by apply lstrip_head in Hk.
  - intros f c H. by apply rstrip_last in H.
Qed.

Lemma strip_elem c s : c ∈ py_strip s → c ∈ s.
Proof.
  unfold py_strip. intros H.
  destruct (rstrip_split (py_lstrip s)) as [k Hk].
  destruct (lstrip_split s) as [k' Hk'].
  rewrite Hk'. apply elem_of_app. right.
  rewrite Hk. apply elem_of_app. by left.
Qed.

Lemma py_split_not_nil sep s : py_split sep s ≠ [].
Proof.
  destruct s as [|c s]; [done|]. simpl.
  destruct (c =? sep)%N; [done|]. by destruct (py_split sep s).
Qed.

Lemma py_split_no_sep sep s : Forall (λ w, sep ∉ w) (py_split sep s).
Proof.
  induction s as [|c s IH]; simpl.
  - constructor; [|done]. apply not_elem_of_nil.
  - destruct (c =? sep)%N eqn:E.
    + constructor; [apply not_elem_of_nil | done].
    + apply N.eqb_neq in E.
      destruct (py_split sep s) as [|w ws]; simpl.
      * constructor; [|done]. rewrite list_elem_of_singleton. congruence.
      * inversion IH as [|? ? Hw Hws]; subst. constructor; [|done].
        rewrite elem_of_cons. intros [->|Hin]; [done | by apply Hw].
Qed.

Lemma py_split_length sep s :
  length (py_split sep s) = S (count_char sep s).
Proof.
  unfold count_char. induction s as [|c s IH]; [done|]. cbn [py_split].
  destruct (c =? sep)%N eqn:E.
  - apply N.eqb_eq in E. rewrite filter_cons_True by done. cbn [length].
    by rewrite IH.
  - apply N.eqb_neq in E. rewrite filter_cons_False by done.
    pose proof (py_split_not_nil sep s).
    destruct (py_split sep s) as [|w ws]; [done|]. exact IH.
Qed.

(** Deleting the occurrences of a string that does not hold [sep] keeps
    the number of [sep]. *)
Lemma replace_from_count old sep s skip :
  old ≠ [] → sep ∉ old → sep ∉ take skip s →
  count_char sep (replace_from old [] skip s) = count_char sep s.
Proof.
  unfold count_char. intros Hne Hold. revert skip.
  induction s as [|c s IH]; intros skip Hskip; [by destruct skip|].
  destruct skip as [|k]; cbn [replace_from].
  - destruct (prefixb old (c :: s)) eqn:Hp.
    + apply StrFacts.prefixb_spec in Hp as [b Hb].
      destruct old as [|o old]; [done|].
      injection Hb as -> ->. cbn [app length].
      rewrite (filter_cons_False _ o).
      2:{ intros ->. apply Hold, list_elem_of_here. }
      replace (S (length old) - 1) with (length old) by lia. apply IH.
      rewrite take_app_length. intros Hin. apply Hold. by right.
    + rewrite !filter_cons. destruct (decide (c = sep)); cbn [length];
        rewrite (IH 0%nat); try done; rewrite take_0; apply not_elem_of_nil.
  - cbn [take] in Hskip. rewrite not_elem_of_cons in Hskip.
    destruct Hskip as [Hc Hk]. rewrite filter_cons_False by congruence.
    by apply IH.
Qed.

Lemma author_label_count s :
  count_char comma (py_replace author_label [] s) = count_char comma s.
Proof.
  apply replace_from_count; [done| |rewrite take_0; apply not_elem_of_nil].
  unfold author_label, comma. rewrite !elem_of_cons, elem_of_nil.
  intros [H|[H|[H|[]]]]; discriminate H.
Qed.

End AuthorsMore.

Import AuthorsMore.

(** X22: when the [div.author] element of a hanspub page is matched and
    a record is returned, its author list is never empty: it has one name
    more than the author line has ASCII commas, so an empty line gives one
    empty name.  No name holds a comma or has white space at either
    end. *)
Theorem hanspub_author_names u soup p e :
  PaperSearch.parse u (py "hanspub") soup = Ok p →
  select_one (py "div.author") soup = Some e →
  ∃ names,
    authors p = Val names
    ∧ length names = S (count_char comma (get_text_strip e))
    ∧ Forall (λ n, (comma ∉ n) ∧ stripped n) names.
Proof.
  unfold PaperSearch.parse.
  rewrite bool_decide_eq_false_2 by (intros H; vm_compute in H; discriminate H).
  rewrite bool_decide_eq_true_2 by done.
  unfold PaperSearch.parse_hanspub, tag_item. intros Hp He. rewrite He in Hp.
  eexists. split.
  - destruct (select_one (meta_name "citation_journal_title") soup) as [j|];
      [destruct (tag_get (py "content") j); [|done]|];
      simpl in Hp; injection Hp as <-;
      destruct (select_one (py "div.ptitle") soup); reflexivity.
  - split.
    + by rewrite length_map, py_split_length, author_label_count.
    + apply Forall_forall. intros n Hn.
      apply list_elem_of_fmap in Hn as (w & -> & Hw).
      split; [|apply strip_stripped].
      intros Hc. apply strip_elem in Hc.
      pose proof (py_split_no_sep comma
                    (PaperSearch.py_replace PaperSearch.author_label []
                       (get_text_strip e))) as Hall.
      eapply Forall_forall in Hall; [|exact Hw]. done.
Qed.

Lemma hanspub_author_names_witness :
  let line := mkTag [PaperSearch.author_label ++ py " Li Ming , Wang Fang"] [] [] in
  let page := mkTag [] [] [(py "div.author", [line])] in
  ∃ p names,
    PaperSearch.parse (py "u") (py "hanspub") page = Ok p
    ∧ authors p = Val names
    ∧ names = [py "Li Ming"; py "Wang Fang"]
    ∧ Forall (λ n, (comma ∉ n) ∧ stripped n) names.
Proof.
  intros line page.
  destruct (PaperSearch.parse (py "u") (py "hanspub") page) as [p|x] eqn:H;
    [|vm_compute in H; discriminate H].
  destruct (hanspub_author_names (py "u") page p line H) as (names & Ha & _ & Hall).
  { reflexivity. }
  exists p, names. split; [reflexivity|]. split; [exact Ha|].
  split; [|exact Hall].
  vm_compute in H. injection H as <-. simpl in Ha. injection Ha as <-.
  vm_compute. reflexivity.
Defined.
